(** * PlanningSceneDisplay: the planning-scene plugin of the visualization host

    A shallow embedding of
    [moveit_ros/visualization/planning_scene_rviz_plugin/src/planning_scene_display.cpp].

    The display is a record of its member fields.  The objects it points to
    (robot visual, scene nodes, scene monitor, renderer) are stored in the
    record behind an [option]: [None] is the null (or not yet assigned)
    pointer.  Member functions are computations in a state monad over the
    display that can fail: dereferencing a null pointer is a failure that no
    [catch] handles, a C++ exception is a failure that [try_catch_all]
    handles.  Of the calls into collaborators, the renderer's
    [renderPlanningScene] and tf's [transformPose] are the ones that throw.
    Calls into the scene monitor's lock, into the renderer and into the
    error log are recorded, in order, in a trace, which is the only field
    of the record that is not a member of the class. *)

From Stdlib Require Import ZArith String List Lia Bool.
From Stdlib Require Import Floats.SpecFloat.
From stdpp Require Import base option strings gmap.
Import ListNotations.

Open Scope Z_scope.
Open Scope string_scope.

(** ** Floating point

    [float] is IEEE binary32 and [double] is binary64, both with the
    operations of the Standard Library's executable specification. *)

Module Float.

Definition float := spec_float.
Definition double := spec_float.

Definition prec32 : Z := 24.
Definition emax32 : Z := 128.
Definition prec64 : Z := 53.
Definition emax64 : Z := 1024.

(** [a + b] on [float] *)
Definition add (a b : float) : float := SFadd prec32 emax32 a b.
(** [a < b] and [a > b] on [float]; both are false when an operand is NaN *)
Definition lt (a b : float) : bool := SFltb a b.
Definition gt (a b : float) : bool := SFltb b a.

Definition double_of_Z (z : Z) : double := binary_normalize prec64 emax64 z 0 false.
Definition double_div (a b : double) : double := SFdiv prec64 emax64 a b.

(** the conversion of a [double] to [float] (round to nearest even) *)
Definition of_double (d : double) : float :=
  match d with
  | S754_finite s m e => binary_round prec32 emax32 s m e
  | _ => d
  end.

(** [0.0f] *)
Definition zero : float := S754_zero false.
(** [0.9f], [0.5f], [0.2f], [1.0f] *)
Definition lit_0_9 : float := S754_finite false 15099494 (-24).
Definition lit_0_5 : float := S754_finite false 8388608 (-24).
Definition lit_0_2 : float := S754_finite false 13421773 (-26).
Definition one : float := S754_finite false 8388608 (-23).
(** the [double] literal [0.0001] and its conversion to [float] *)
Definition double_0_0001 : double := S754_finite false 7378697629483821 (-66).
Definition lit_0_0001 : float := of_double double_0_0001.
(** [FLT_MAX] *)
Definition FLT_MAX : float := S754_finite false 16777215 104.

End Float.

Abbreviation float := Float.float.
Abbreviation double := Float.double.

(** ** Qt: [QColor], [qMin], [qMax], [qBound] *)

Record QColor := mkQColor { red : Z; green : Z; blue : Z }.

(** [QColor::redF()]: the 16-bit channel over [USHRT_MAX] as a [qreal]. *)
Definition channelF (c : Z) : double :=
  Float.double_div (Float.double_of_Z (c * 257)) (Float.double_of_Z 65535).
Definition redF (c : QColor) : double := channelF (red c).
Definition greenF (c : QColor) : double := channelF (green c).
Definition blueF (c : QColor) : double := channelF (blue c).

Definition qMin (a b : float) : float := if Float.lt a b then a else b.
Definition qMax (a b : float) : float := if Float.lt a b then b else a.
Definition qBound (mn v mx : float) : float := qMax mn (qMin mx v).

(** ** rviz: colors, properties, robot visual, scene nodes *)

(** [rviz::Color(r, g, b)] holds three [float]s. *)
Record rviz_Color := mk_rviz_Color { r_ : float; g_ : float; b_ : float }.

Definition rviz_Color_of (c : QColor) : rviz_Color :=
  mk_rviz_Color (Float.of_double (redF c)) (Float.of_double (greenF c))
                (Float.of_double (blueF c)).

(** [rviz::FloatProperty]: a value kept between [min_] and [max_]. *)
Record FloatProperty := mkFloatProperty
  { float_value : float; min_ : float; max_ : float }.

Definition new_FloatProperty (default_value : float) : FloatProperty :=
  mkFloatProperty default_value (SFopp Float.FLT_MAX) Float.FLT_MAX.
Definition getFloat (p : FloatProperty) : float := float_value p.
Definition setFloat (p : FloatProperty) (v : float) : FloatProperty :=
  mkFloatProperty (qBound (min_ p) v (max_ p)) (min_ p) (max_ p).
Definition setMin (p : FloatProperty) (mn : float) : FloatProperty :=
  setFloat (mkFloatProperty (float_value p) mn (max_ p)) (qMax (getFloat p) mn).
Definition setMax (p : FloatProperty) (mx : float) : FloatProperty :=
  setFloat (mkFloatProperty (float_value p) (min_ p) mx) (qMin (getFloat p) mx).

Inductive StatusLevel := StatusOk | StatusWarn | StatusError.

(** [rviz::RobotLink]: the color override set by [setColor], removed by
    [unsetColor]. *)
Record RobotLink := mkRobotLink { link_color : option rviz_Color }.

Definition RobotLink_setColor (l : RobotLink) (r g b : float) : RobotLink :=
  mkRobotLink (Some (mk_rviz_Color r g b)).
Definition RobotLink_unsetColor (l : RobotLink) : RobotLink := mkRobotLink None.

(** The state of a robot is abstract here: named joint values. *)
Record KinematicState := mkKinematicState { joint_values : list (string * double) }.

(** The URDF, as far as the robot visual reads it: the link names. *)
Record URDF := mkURDF { urdf_links : list string }.

(** [rviz::Robot]: links by name, visibility flags, alpha and the state the
    link poses were last taken from. *)
Record Robot := mkRobot
  { robot_links : gmap string RobotLink;
    robot_visible : bool;
    robot_visual_visible : bool;
    robot_collision_visible : bool;
    robot_alpha : float;
    robot_link_poses : option KinematicState }.

Definition new_Robot : Robot :=
  mkRobot ∅ true true false Float.one None.

(** [Robot::getLink]: the link of that name, or null. *)
Definition Robot_getLink (r : Robot) (name : string) : option RobotLink :=
  robot_links r !! name.
Definition Robot_putLink (r : Robot) (name : string) (l : RobotLink) : Robot :=
  mkRobot (<[name := l]> (robot_links r)) (robot_visible r) (robot_visual_visible r)
          (robot_collision_visible r) (robot_alpha r) (robot_link_poses r).
Definition Robot_clear (r : Robot) : Robot :=
  mkRobot ∅ (robot_visible r) (robot_visual_visible r)
          (robot_collision_visible r) (robot_alpha r) (robot_link_poses r).
Definition Robot_load (r : Robot) (u : URDF) : Robot :=
  mkRobot (list_to_map (map (fun n => (n, mkRobotLink None)) (urdf_links u)))
          (robot_visible r) (robot_visual_visible r)
          (robot_collision_visible r) (robot_alpha r) (robot_link_poses r).
Definition Robot_update (r : Robot) (s : KinematicState) : Robot :=
  mkRobot (robot_links r) (robot_visible r) (robot_visual_visible r)
          (robot_collision_visible r) (robot_alpha r) (Some s).
Definition Robot_setVisible (r : Robot) (v : bool) : Robot :=
  mkRobot (robot_links r) v (robot_visual_visible r)
          (robot_collision_visible r) (robot_alpha r) (robot_link_poses r).
Definition Robot_setVisualVisible (r : Robot) (v : bool) : Robot :=
  mkRobot (robot_links r) (robot_visible r) v
          (robot_collision_visible r) (robot_alpha r) (robot_link_poses r).
Definition Robot_setCollisionVisible (r : Robot) (v : bool) : Robot :=
  mkRobot (robot_links r) (robot_visible r) (robot_visual_visible r)
          v (robot_alpha r) (robot_link_poses r).
Definition Robot_setAlpha (r : Robot) (a : float) : Robot :=
  mkRobot (robot_links r) (robot_visible r) (robot_visual_visible r)
          (robot_collision_visible r) a (robot_link_poses r).

(** [Ogre::SceneNode]: visibility, position and orientation (w, x, y, z). *)
Record SceneNode := mkSceneNode
  { node_visible : bool;
    node_position : float * float * float;
    node_orientation : float * float * float * float }.

Definition new_SceneNode : SceneNode :=
  mkSceneNode true (Float.zero, Float.zero, Float.zero)
              (Float.one, Float.zero, Float.zero, Float.zero).
Definition SceneNode_setVisible (n : SceneNode) (v : bool) : SceneNode :=
  mkSceneNode v (node_position n) (node_orientation n).
Definition SceneNode_setPosition (n : SceneNode) (p : float * float * float) : SceneNode :=
  mkSceneNode (node_visible n) p (node_orientation n).
Definition SceneNode_setOrientation (n : SceneNode) (q : float * float * float * float)
  : SceneNode :=
  mkSceneNode (node_visible n) (node_position n) q.

(** ** MoveIt: kinematic model, planning scene, scene monitor, renderer *)

(** [kinematic_model::KinematicModel], as far as the display reads it. *)
Record KinematicModel := mkKinematicModel
  { km_root_link_name : string;
    (** joint model groups by name, each with its link model names *)
    km_joint_model_groups : gmap string (list string);
    km_link_model_names_with_collision_geometry : list string;
    km_urdf : option URDF }.

Definition getJointModelGroup (km : KinematicModel) (group_name : string)
  : option (list string) :=
  km_joint_model_groups km !! group_name.

(** [planning_scene::PlanningScene], as far as the display reads it. *)
Record PlanningScene := mkPlanningScene
  { ps_name : string;
    ps_configured : bool;
    ps_planning_frame : string;
    ps_current_state : KinematicState }.

Definition PlanningScene_setName (s : PlanningScene) (n : string) : PlanningScene :=
  mkPlanningScene n (ps_configured s) (ps_planning_frame s) (ps_current_state s).

(** The update callbacks a monitor can hold: the display binds its member
    [sceneMonitorReceivedUpdate]. *)
Inductive UpdateCallback := bind_sceneMonitorReceivedUpdate.

Inductive SceneUpdateType :=
  UPDATE_NONE | UPDATE_STATE | UPDATE_TRANSFORMS | UPDATE_GEOMETRY | UPDATE_SCENE.

(** [planning_scene_monitor::PlanningSceneMonitor]: the scene and model it
    holds (either can be null), the registered update callbacks, the topic
    it listens on once started, and whether its scene lock is held. *)
Record PlanningSceneMonitor := mkPlanningSceneMonitor
  { psm_name : string;
    psm_planning_scene : option PlanningScene;
    psm_kinematic_model : option KinematicModel;
    psm_update_callbacks : list UpdateCallback;
    psm_scene_topic : option string;
    psm_scene_locked : bool }.

Definition psm_set_planning_scene (m : PlanningSceneMonitor) (s : option PlanningScene) :=
  mkPlanningSceneMonitor (psm_name m) s (psm_kinematic_model m)
    (psm_update_callbacks m) (psm_scene_topic m) (psm_scene_locked m).
Definition psm_addUpdateCallback (m : PlanningSceneMonitor) (cb : UpdateCallback) :=
  mkPlanningSceneMonitor (psm_name m) (psm_planning_scene m) (psm_kinematic_model m)
    (psm_update_callbacks m ++ [cb])%list (psm_scene_topic m) (psm_scene_locked m).
Definition psm_startSceneMonitor (m : PlanningSceneMonitor) (topic : string) :=
  mkPlanningSceneMonitor (psm_name m) (psm_planning_scene m) (psm_kinematic_model m)
    (psm_update_callbacks m) (Some topic) (psm_scene_locked m).
Definition psm_stopSceneMonitor (m : PlanningSceneMonitor) :=
  mkPlanningSceneMonitor (psm_name m) (psm_planning_scene m) (psm_kinematic_model m)
    (psm_update_callbacks m) None (psm_scene_locked m).
Definition psm_set_locked (m : PlanningSceneMonitor) (l : bool) :=
  mkPlanningSceneMonitor (psm_name m) (psm_planning_scene m) (psm_kinematic_model m)
    (psm_update_callbacks m) (psm_scene_topic m) l.

(** [PlanningSceneRender] keeps no state the display reads. *)
Inductive PlanningSceneRender := mkPlanningSceneRender.

(** ** tf *)

(** [tf::Stamped<tf::Pose>]: origin, rotation (x, y, z, w), stamp, frame. *)
Record StampedPose := mkStampedPose
  { pose_origin : double * double * double;
    pose_rotation : double * double * double * double;
    pose_stamp : Z;
    pose_frame_id : string }.

Definition double_zero : double := S754_zero false.
Definition double_one : double := Float.double_of_Z 1.

Definition identity_pose (stamp : Z) (frame : string) : StampedPose :=
  mkStampedPose (double_zero, double_zero, double_zero)
                (double_zero, double_zero, double_zero, double_one) stamp frame.

(** ** The host

    What the display's context answers.  None of it is code of the display;
    the display's functions are stated for every such context.
    - [new_PlanningSceneMonitor robot_description name]: the scene and the
      kinematic model a monitor constructed from that parameter holds;
    - [getLatestCommonTime], [canTransform], [transformPose]: the tf client
      ([None] from [getLatestCommonTime] is an error code other than
      [NO_ERROR]; [None] from [transformPose] is a [TransformException]);
    - [render_throws]: whether [PlanningSceneRender::renderPlanningScene]
      throws on these arguments. *)
Record DisplayContext := mkDisplayContext
  { new_PlanningSceneMonitor :
      string -> string -> option PlanningScene * option KinematicModel;
    getLatestCommonTime : string -> string -> option Z;
    canTransform : string -> string -> Z -> bool;
    transformPose : string -> StampedPose -> option StampedPose;
    render_throws :
      option PlanningScene -> rviz_Color -> rviz_Color -> float -> float -> bool }.

(** ** The trace *)

Inductive event :=
| ev_lockScene
| ev_unlockScene
| ev_renderPlanningScene (scene : option PlanningScene)
    (env_color attached_color : rviz_Color) (scene_alpha robot_alpha : float)
| ev_ROS_ERROR (msg : string).

(** ** The display *)

Record Properties := mkProperties
  { robot_description_property_ : string;
    planning_scene_topic_property_ : string;
    scene_name_property_ : string;
    scene_enabled_property_ : bool;
    scene_alpha_property_ : FloatProperty;
    scene_color_property_ : QColor;
    root_link_name_property_ : string;
    scene_robot_enabled_property_ : bool;
    robot_alpha_property_ : FloatProperty;
    attached_body_color_property_ : QColor;
    scene_display_time_property_ : FloatProperty }.

(** The members inherited from [rviz::Display]. *)
Record Display := mkDisplay
  { name_ : string;
    enabled_ : bool;
    statuses_ : gmap string (StatusLevel * string);
    fixed_frame_ : string;
    context_ : DisplayContext }.

Record PlanningSceneDisplay := mkPlanningSceneDisplay
  { base : Display;
    props : Properties;
    planning_scene_robot_ : option Robot;
    planning_scene_node_ : option SceneNode;
    planning_scene_geometry_node_ : option SceneNode;
    planning_scene_monitor_ : option PlanningSceneMonitor;
    planning_scene_render_ : option PlanningSceneRender;
    current_scene_time_ : float;
    planning_scene_needs_render_ : bool;
    trace : list event }.

(** Field updates. *)

Definition set_statuses_ (f : gmap string (StatusLevel * string) ->
                              gmap string (StatusLevel * string)) (b : Display) : Display :=
  mkDisplay (name_ b) (enabled_ b) (f (statuses_ b)) (fixed_frame_ b) (context_ b).
Definition set_enabled_ (v : bool) (b : Display) : Display :=
  mkDisplay (name_ b) v (statuses_ b) (fixed_frame_ b) (context_ b).
Definition set_fixed_frame_ (v : string) (b : Display) : Display :=
  mkDisplay (name_ b) (enabled_ b) (statuses_ b) v (context_ b).
Definition set_context_ (v : DisplayContext) (b : Display) : Display :=
  mkDisplay (name_ b) (enabled_ b) (statuses_ b) (fixed_frame_ b) v.

Definition set_robot_description_property_ (v : string) (p : Properties) :=
  mkProperties v (planning_scene_topic_property_ p) (scene_name_property_ p)
    (scene_enabled_property_ p) (scene_alpha_property_ p) (scene_color_property_ p)
    (root_link_name_property_ p) (scene_robot_enabled_property_ p)
    (robot_alpha_property_ p) (attached_body_color_property_ p)
    (scene_display_time_property_ p).
Definition set_planning_scene_topic_property_ (v : string) (p : Properties) :=
  mkProperties (robot_description_property_ p) v (scene_name_property_ p)
    (scene_enabled_property_ p) (scene_alpha_property_ p) (scene_color_property_ p)
    (root_link_name_property_ p) (scene_robot_enabled_property_ p)
    (robot_alpha_property_ p) (attached_body_color_property_ p)
    (scene_display_time_property_ p).
Definition set_scene_name_property_ (v : string) (p : Properties) :=
  mkProperties (robot_description_property_ p) (planning_scene_topic_property_ p) v
    (scene_enabled_property_ p) (scene_alpha_property_ p) (scene_color_property_ p)
    (root_link_name_property_ p) (scene_robot_enabled_property_ p)
    (robot_alpha_property_ p) (attached_body_color_property_ p)
    (scene_display_time_property_ p).
Definition set_scene_enabled_property_ (v : bool) (p : Properties) :=
  mkProperties (robot_description_property_ p) (planning_scene_topic_property_ p)
    (scene_name_property_ p) v (scene_alpha_property_ p) (scene_color_property_ p)
    (root_link_name_property_ p) (scene_robot_enabled_property_ p)
    (robot_alpha_property_ p) (attached_body_color_property_ p)
    (scene_display_time_property_ p).
Definition set_scene_alpha_property_ (v : FloatProperty) (p : Properties) :=
  mkProperties (robot_description_property_ p) (planning_scene_topic_property_ p)
    (scene_name_property_ p) (scene_enabled_property_ p) v (scene_color_property_ p)
    (root_link_name_property_ p) (scene_robot_enabled_property_ p)
    (robot_alpha_property_ p) (attached_body_color_property_ p)
    (scene_display_time_property_ p).
Definition set_scene_color_property_ (v : QColor) (p : Properties) :=
  mkProperties (robot_description_property_ p) (planning_scene_topic_property_ p)
    (scene_name_property_ p) (scene_enabled_property_ p) (scene_alpha_property_ p) v
    (root_link_name_property_ p) (scene_robot_enabled_property_ p)
    (robot_alpha_property_ p) (attached_body_color_property_ p)
    (scene_display_time_property_ p).
Definition set_root_link_name_property_ (v : string) (p : Properties) :=
  mkProperties (robot_description_property_ p) (planning_scene_topic_property_ p)
    (scene_name_property_ p) (scene_enabled_property_ p) (scene_alpha_property_ p)
    (scene_color_property_ p) v (scene_robot_enabled_property_ p)
    (robot_alpha_property_ p) (attached_body_color_property_ p)
    (scene_display_time_property_ p).
Definition set_scene_robot_enabled_property_ (v : bool) (p : Properties) :=
  mkProperties (robot_description_property_ p) (planning_scene_topic_property_ p)
    (scene_name_property_ p) (scene_enabled_property_ p) (scene_alpha_property_ p)
    (scene_color_property_ p) (root_link_name_property_ p) v
    (robot_alpha_property_ p) (attached_body_color_property_ p)
    (scene_display_time_property_ p).
Definition set_robot_alpha_property_ (v : FloatProperty) (p : Properties) :=
  mkProperties (robot_description_property_ p) (planning_scene_topic_property_ p)
    (scene_name_property_ p) (scene_enabled_property_ p) (scene_alpha_property_ p)
    (scene_color_property_ p) (root_link_name_property_ p)
    (scene_robot_enabled_property_ p) v (attached_body_color_property_ p)
    (scene_display_time_property_ p).
Definition set_attached_body_color_property_ (v : QColor) (p : Properties) :=
  mkProperties (robot_description_property_ p) (planning_scene_topic_property_ p)
    (scene_name_property_ p) (scene_enabled_property_ p) (scene_alpha_property_ p)
    (scene_color_property_ p) (root_link_name_property_ p)
    (scene_robot_enabled_property_ p) (robot_alpha_property_ p) v
    (scene_display_time_property_ p).
Definition set_scene_display_time_property_ (v : FloatProperty) (p : Properties) :=
  mkProperties (robot_description_property_ p) (planning_scene_topic_property_ p)
    (scene_name_property_ p) (scene_enabled_property_ p) (scene_alpha_property_ p)
    (scene_color_property_ p) (root_link_name_property_ p)
    (scene_robot_enabled_property_ p) (robot_alpha_property_ p)
    (attached_body_color_property_ p) v.

Definition set_base (f : Display -> Display) (d : PlanningSceneDisplay) :=
  mkPlanningSceneDisplay (f (base d)) (props d) (planning_scene_robot_ d)
    (planning_scene_node_ d) (planning_scene_geometry_node_ d)
    (planning_scene_monitor_ d) (planning_scene_render_ d) (current_scene_time_ d)
    (planning_scene_needs_render_ d) (trace d).
Definition set_props (f : Properties -> Properties) (d : PlanningSceneDisplay) :=
  mkPlanningSceneDisplay (base d) (f (props d)) (planning_scene_robot_ d)
    (planning_scene_node_ d) (planning_scene_geometry_node_ d)
    (planning_scene_monitor_ d) (planning_scene_render_ d) (current_scene_time_ d)
    (planning_scene_needs_render_ d) (trace d).
Definition set_planning_scene_robot_ (v : option Robot) (d : PlanningSceneDisplay) :=
  mkPlanningSceneDisplay (base d) (props d) v
    (planning_scene_node_ d) (planning_scene_geometry_node_ d)
    (planning_scene_monitor_ d) (planning_scene_render_ d) (current_scene_time_ d)
    (planning_scene_needs_render_ d) (trace d).
Definition set_planning_scene_node_ (v : option SceneNode) (d : PlanningSceneDisplay) :=
  mkPlanningSceneDisplay (base d) (props d) (planning_scene_robot_ d)
    v (planning_scene_geometry_node_ d)
    (planning_scene_monitor_ d) (planning_scene_render_ d) (current_scene_time_ d)
    (planning_scene_needs_render_ d) (trace d).
Definition set_planning_scene_geometry_node_ (v : option SceneNode)
    (d : PlanningSceneDisplay) :=
  mkPlanningSceneDisplay (base d) (props d) (planning_scene_robot_ d)
    (planning_scene_node_ d) v
    (planning_scene_monitor_ d) (planning_scene_render_ d) (current_scene_time_ d)
    (planning_scene_needs_render_ d) (trace d).
Definition set_planning_scene_monitor_ (v : option PlanningSceneMonitor)
    (d : PlanningSceneDisplay) :=
  mkPlanningSceneDisplay (base d) (props d) (planning_scene_robot_ d)
    (planning_scene_node_ d) (planning_scene_geometry_node_ d)
    v (planning_scene_render_ d) (current_scene_time_ d)
    (planning_scene_needs_render_ d) (trace d).
Definition set_planning_scene_render_ (v : option PlanningSceneRender)
    (d : PlanningSceneDisplay) :=
  mkPlanningSceneDisplay (base d) (props d) (planning_scene_robot_ d)
    (planning_scene_node_ d) (planning_scene_geometry_node_ d)
    (planning_scene_monitor_ d) v (current_scene_time_ d)
    (planning_scene_needs_render_ d) (trace d).
Definition set_current_scene_time_ (v : float) (d : PlanningSceneDisplay) :=
  mkPlanningSceneDisplay (base d) (props d) (planning_scene_robot_ d)
    (planning_scene_node_ d) (planning_scene_geometry_node_ d)
    (planning_scene_monitor_ d) (planning_scene_render_ d) v
    (planning_scene_needs_render_ d) (trace d).
Definition set_planning_scene_needs_render_ (v : bool) (d : PlanningSceneDisplay) :=
  mkPlanningSceneDisplay (base d) (props d) (planning_scene_robot_ d)
    (planning_scene_node_ d) (planning_scene_geometry_node_ d)
    (planning_scene_monitor_ d) (planning_scene_render_ d) (current_scene_time_ d)
    v (trace d).
Definition set_trace (f : list event -> list event) (d : PlanningSceneDisplay) :=
  mkPlanningSceneDisplay (base d) (props d) (planning_scene_robot_ d)
    (planning_scene_node_ d) (planning_scene_geometry_node_ d)
    (planning_scene_monitor_ d) (planning_scene_render_ d) (current_scene_time_ d)
    (planning_scene_needs_render_ d) (f (trace d)).

(** ** The monad of member functions *)

Inductive exception :=
| tf_TransformException (what : string)
| other_exception (what : string).

Inductive failure :=
| NullDereference (pointer : string)
| Thrown (e : exception).

Inductive outcome (A : Type) :=
| Returns (a : A)
| Fails (f : failure).
Arguments Returns {A} a.
Arguments Fails {A} f.

Definition M (A : Type) : Type := PlanningSceneDisplay -> outcome A * PlanningSceneDisplay.

Definition ret {A} (a : A) : M A := fun d => (Returns a, d).
Definition bind {A B} (c : M A) (k : A -> M B) : M B :=
  fun d => match c d with
           | (Returns a, d') => k a d'
           | (Fails f, d') => (Fails f, d')
           end.
Definition get : M PlanningSceneDisplay := fun d => (Returns d, d).
Definition modify (f : PlanningSceneDisplay -> PlanningSceneDisplay) : M unit :=
  fun d => (Returns tt, f d).
Definition fail {A} (f : failure) : M A := fun d => (Fails f, d).
Definition throw {A} (e : exception) : M A := fail (Thrown e).

Declare Scope member_scope.
Delimit Scope member_scope with member.
Notation "x <- c1 ;; c2" := (bind c1 (fun x => c2))
  (at level 100, c1 at next level, right associativity) : member_scope.
Notation "c1 ;; c2" := (bind c1 (fun _ => c2))
  (at level 100, right associativity) : member_scope.
Open Scope member_scope.

(** [if (p)] on a pointer *)
Definition nonnull {A} (p : option A) : bool :=
  match p with Some _ => true | None => false end.

(** [*p] and [p->]: a null [p] is a failure *)
Definition deref {A} (pointer : string) (p : option A) : M A :=
  match p with
  | Some a => ret a
  | None => fail (NullDereference pointer)
  end.

(** [try { body } catch (...) { handler }] *)
Definition try_catch_all {A} (body : M A) (handler : M A) : M A :=
  fun d => match body d with
           | (Fails (Thrown _), d') => handler d'
           | r => r
           end.

(** [try { body } catch (tf::TransformException& e) { handler }] *)
Definition try_catch_TransformException {A} (body : M A) (handler : M A) : M A :=
  fun d => match body d with
           | (Fails (Thrown (tf_TransformException _)), d') => handler d'
           | r => r
           end.

Definition emit (e : event) : M unit := modify (set_trace (fun t => (t ++ [e])%list)).
Definition ROS_ERROR (msg : string) : M unit := emit (ev_ROS_ERROR msg).

(** ** Calls through the display's pointers *)

(** [planning_scene_monitor_->f()] *)
Definition on_monitor (f : PlanningSceneMonitor -> PlanningSceneMonitor) : M unit :=
  d <- get ;;
  m <- deref "planning_scene_monitor_" (planning_scene_monitor_ d) ;;
  modify (set_planning_scene_monitor_ (Some (f m))).

Definition lockScene : M unit :=
  on_monitor (fun m => psm_set_locked m true) ;; emit ev_lockScene.
Definition unlockScene : M unit :=
  on_monitor (fun m => psm_set_locked m false) ;; emit ev_unlockScene.

(** [planning_scene_robot_->f()] *)
Definition on_robot (f : Robot -> Robot) : M unit :=
  d <- get ;;
  r <- deref "planning_scene_robot_" (planning_scene_robot_ d) ;;
  modify (set_planning_scene_robot_ (Some (f r))).

(** [planning_scene_geometry_node_->f()] and [planning_scene_node_->f()] *)
Definition on_geometry_node (f : SceneNode -> SceneNode) : M unit :=
  d <- get ;;
  n <- deref "planning_scene_geometry_node_" (planning_scene_geometry_node_ d) ;;
  modify (set_planning_scene_geometry_node_ (Some (f n))).
Definition on_scene_node (f : SceneNode -> SceneNode) : M unit :=
  d <- get ;;
  n <- deref "planning_scene_node_" (planning_scene_node_ d) ;;
  modify (set_planning_scene_node_ (Some (f n))).

(** [setStatus(level, name, text)] of [rviz::Display] *)
Definition setStatus (level : StatusLevel) (name text : string) : M unit :=
  modify (set_base (set_statuses_ (fun s => <[name := (level, text)]> s))).

(** The virtuals of [rviz::Display] that the display forwards to;
    [Display::reset] clears the statuses, the others do nothing. *)
Definition Display_onInitialize : M unit := ret tt.
Definition Display_reset : M unit := modify (set_base (set_statuses_ (fun _ => ∅))).
Definition Display_onEnable : M unit := ret tt.
Definition Display_onDisable : M unit := ret tt.
Definition Display_update (wall_dt ros_dt : float) : M unit := ret tt.
Definition Display_fixedFrameChanged : M unit := ret tt.
Definition isEnabled : M bool := d <- get ;; ret (enabled_ (base d)).

(** ** The member functions, in the order of the source *)

(** The constructor.  The host's context and the display's name are those
    [rviz::Display::initialize] hands over. *)
Definition PlanningSceneDisplay_new (context : DisplayContext) (name : string)
  : PlanningSceneDisplay :=
  {| base := mkDisplay name false ∅ "" context;
     props :=
       {| robot_description_property_ := "robot_description";
          planning_scene_topic_property_ := "planning_scene";
          scene_name_property_ := "(noname)";
          scene_enabled_property_ := true;
          scene_alpha_property_ :=
            setMax (setMin (new_FloatProperty Float.lit_0_9) Float.zero) Float.one;
          scene_color_property_ := mkQColor 50 230 50;
          root_link_name_property_ := "";
          scene_robot_enabled_property_ := true;
          robot_alpha_property_ :=
            setMax (setMin (new_FloatProperty Float.lit_0_5) Float.zero) Float.one;
          attached_body_color_property_ := mkQColor 150 50 150;
          scene_display_time_property_ :=
            setMin (new_FloatProperty Float.lit_0_2) Float.lit_0_0001 |};
     planning_scene_robot_ := None;
     planning_scene_node_ := None;
     planning_scene_geometry_node_ := None;
     planning_scene_monitor_ := None;
     planning_scene_render_ := None;
     current_scene_time_ := Float.zero;
     planning_scene_needs_render_ := true;
     trace := [] |}.

Definition onInitialize : M unit :=
  Display_onInitialize ;;
  modify (set_planning_scene_node_ (Some new_SceneNode)) ;;
  modify (set_planning_scene_geometry_node_ (Some new_SceneNode)) ;;
  d <- get ;;
  on_geometry_node (fun n => SceneNode_setVisible n (scene_enabled_property_ (props d))) ;;
  modify (set_planning_scene_robot_ (Some new_Robot)) ;;
  on_robot (fun r => Robot_setCollisionVisible r false) ;;
  on_robot (fun r => Robot_setVisualVisible r true) ;;
  on_robot (fun r => Robot_setVisible r (scene_robot_enabled_property_ (props d))).

Definition getPlanningSceneMonitor : M (option PlanningSceneMonitor) :=
  d <- get ;; ret (planning_scene_monitor_ d).

Definition getKinematicModel : M (option KinematicModel) :=
  d <- get ;;
  if nonnull (planning_scene_monitor_ d) then
    m <- deref "planning_scene_monitor_" (planning_scene_monitor_ d) ;;
    ret (psm_kinematic_model m)
  else
    ret None.

Definition getPlanningScene : M (option PlanningScene) :=
  d <- get ;;
  if nonnull (planning_scene_monitor_ d) then
    m <- deref "planning_scene_monitor_" (planning_scene_monitor_ d) ;;
    ret (psm_planning_scene m)
  else
    ret None.

(** [getPlanningScene()->f()]: the scene is the monitor's, so the call
    changes the scene the monitor holds. *)
Definition on_planning_scene (f : PlanningScene -> PlanningScene) : M unit :=
  ps <- getPlanningScene ;;
  s <- deref "getPlanningScene()" ps ;;
  on_monitor (fun m => psm_set_planning_scene m (Some (f s))).

Definition queueRenderSceneGeometry : M unit :=
  modify (set_planning_scene_needs_render_ true).

Definition changedAttachedBodyColor : M unit := queueRenderSceneGeometry.

Definition changedSceneColor : M unit := queueRenderSceneGeometry.

Definition changedSceneName : M unit :=
  ps <- getPlanningScene ;;
  if nonnull ps then
    d <- get ;;
    on_planning_scene (fun s => PlanningScene_setName s (scene_name_property_ (props d)))
  else ret tt.

Definition changedRootLinkName : M unit :=
  ps <- getPlanningScene ;;
  if nonnull ps then
    km <- getKinematicModel ;;
    k <- deref "getKinematicModel()" km ;;
    modify (set_props (set_root_link_name_property_ (km_root_link_name k)))
  else ret tt.

(** [planning_scene_render_->renderPlanningScene(...)]: the call is
    recorded, then the renderer returns or throws as the host decides. *)
Definition PlanningSceneRender_renderPlanningScene (scene : option PlanningScene)
    (env_color attached_color : rviz_Color) (scene_alpha robot_alpha : float) : M unit :=
  d <- get ;;
  _ <- deref "planning_scene_render_" (planning_scene_render_ d) ;;
  emit (ev_renderPlanningScene scene env_color attached_color scene_alpha robot_alpha) ;;
  if render_throws (context_ (base d)) scene env_color attached_color scene_alpha robot_alpha
  then throw (other_exception "renderPlanningScene")
  else ret tt.

Definition renderPlanningScene : M unit :=
  d <- get ;;
  if nonnull (planning_scene_render_ d) && planning_scene_needs_render_ d then
    let env_color := rviz_Color_of (scene_color_property_ (props d)) in
    let attached_color := rviz_Color_of (attached_body_color_property_ (props d)) in
    lockScene ;;
    try_catch_all
      (ps <- getPlanningScene ;;
       PlanningSceneRender_renderPlanningScene ps env_color attached_color
         (getFloat (scene_alpha_property_ (props d)))
         (getFloat (robot_alpha_property_ (props d))))
      (ROS_ERROR "Exception thrown while rendering planning scene") ;;
    modify (set_planning_scene_needs_render_ false) ;;
    unlockScene ;;
    on_geometry_node (fun n => SceneNode_setVisible n (scene_enabled_property_ (props d)))
  else ret tt.

Definition changedSceneAlpha : M unit := queueRenderSceneGeometry.

Definition changedRobotSceneAlpha : M unit :=
  d <- get ;;
  on_robot (fun r => Robot_setAlpha r (getFloat (robot_alpha_property_ (props d)))).

Definition changedPlanningSceneTopic : M unit :=
  d <- get ;;
  if nonnull (planning_scene_monitor_ d) then
    on_monitor (fun m => psm_startSceneMonitor m (planning_scene_topic_property_ (props d)))
  else ret tt.

Definition changedSceneDisplayTime : M unit := ret tt.

Definition changedSceneRobotEnabled : M unit :=
  en <- isEnabled ;;
  if en then
    d <- get ;;
    on_robot (fun r => Robot_setVisible r (scene_robot_enabled_property_ (props d)))
  else ret tt.

Definition changedSceneEnabled : M unit :=
  d <- get ;;
  on_geometry_node (fun n => SceneNode_setVisible n (scene_enabled_property_ (props d))).

(** The functions that take a [rviz::Robot*] change [*robot] in place.  Here
    they take what the pointer points to (null is [None]) and return what
    it points to afterwards; [on_robot_pointer] below says which robot that
    is, the display's own or another. *)

Definition setLinkColor_robot (robot : option Robot) (link_name : string)
    (color : QColor) : M (option Robot) :=
  r <- deref "robot" robot ;;
  match Robot_getLink r link_name with
  | Some link =>
      ret (Some (Robot_putLink r link_name
                   (RobotLink_setColor link (Float.of_double (redF color))
                      (Float.of_double (greenF color)) (Float.of_double (blueF color)))))
  | None => ret (Some r)
  end.

Definition unsetLinkColor_robot (robot : option Robot) (link_name : string)
  : M (option Robot) :=
  r <- deref "robot" robot ;;
  match Robot_getLink r link_name with
  | Some link => ret (Some (Robot_putLink r link_name (RobotLink_unsetColor link)))
  | None => ret (Some r)
  end.

(** [for (i = 0; i < links.size(); ++i) body(robot, links[i])] *)
Fixpoint for_each_link (body : option Robot -> string -> M (option Robot))
    (robot : option Robot) (links : list string) : M (option Robot) :=
  match links with
  | [] => ret robot
  | l :: rest => robot' <- body robot l ;; for_each_link body robot' rest
  end.

Definition setGroupColor (robot : option Robot) (group_name : string) (color : QColor)
  : M (option Robot) :=
  ps <- getPlanningScene ;;
  if nonnull ps then
    km <- getKinematicModel ;;
    k <- deref "getKinematicModel()" km ;;
    match getJointModelGroup k group_name with
    | Some links =>
        for_each_link (fun r l => setLinkColor_robot r l color) robot links
    | None => ret robot
    end
  else ret robot.

Definition unsetAllColors (robot : option Robot) : M (option Robot) :=
  ps <- getPlanningScene ;;
  if nonnull ps then
    km <- getKinematicModel ;;
    k <- deref "getKinematicModel()" km ;;
    for_each_link unsetLinkColor_robot robot
      (km_link_model_names_with_collision_geometry k)
  else ret robot.

Definition unsetGroupColor (robot : option Robot) (group_name : string)
  : M (option Robot) :=
  ps <- getPlanningScene ;;
  if nonnull ps then
    km <- getKinematicModel ;;
    k <- deref "getKinematicModel()" km ;;
    match getJointModelGroup k group_name with
    | Some links => for_each_link unsetLinkColor_robot robot links
    | None => ret robot
    end
  else ret robot.

(** The [rviz::Robot*] a caller hands to these functions: the display's own
    robot visual, that is the pointer [planning_scene_robot_], or a robot of
    the caller's ([None] is the null pointer). *)
Inductive RobotPointer :=
| own_robot
| other_robot (robot : option Robot).

(** The call [f(robot, ...)] of a function that changes [*robot] in place:
    on the display's own robot the change is a change of the display, on
    another robot the display keeps its robot.  The robot the pointer points
    to afterwards is returned. *)
Definition on_robot_pointer (p : RobotPointer)
    (f : option Robot -> M (option Robot)) : M (option Robot) :=
  match p with
  | own_robot =>
      d <- get ;;
      r <- f (planning_scene_robot_ d) ;;
      modify (set_planning_scene_robot_ r) ;;
      ret r
  | other_robot robot => f robot
  end.

Definition setLinkColor (link_name : string) (color : QColor) : M unit :=
  d <- get ;;
  r <- setLinkColor_robot (planning_scene_robot_ d) link_name color ;;
  modify (set_planning_scene_robot_ r).

Definition unsetLinkColor (link_name : string) : M unit :=
  d <- get ;;
  r <- unsetLinkColor_robot (planning_scene_robot_ d) link_name ;;
  modify (set_planning_scene_robot_ r).

Definition onRobotModelLoaded : M unit :=
  km <- getKinematicModel ;;
  k <- deref "getKinematicModel()" km ;;
  urdf <- deref "getURDF()" (km_urdf k) ;;
  on_robot (fun r => Robot_load r urdf) ;;
  ps <- getPlanningScene ;;
  s <- deref "getPlanningScene()" ps ;;
  on_robot (fun r => Robot_update r (ps_current_state s)) ;;
  ps <- getPlanningScene ;;
  s <- deref "getPlanningScene()" ps ;;
  modify (set_props (set_scene_name_property_ (ps_name s))) ;;
  km <- getKinematicModel ;;
  k <- deref "getKinematicModel()" km ;;
  modify (set_props (set_root_link_name_property_ (km_root_link_name k))).

Definition loadRobotModel : M unit :=
  modify (set_planning_scene_render_ None) ;;
  modify (set_planning_scene_monitor_ None) ;;
  d <- get ;;
  let monitor_name := String.append (name_ (base d)) "_planning_scene_monitor" in
  let loaded := new_PlanningSceneMonitor (context_ (base d))
                  (robot_description_property_ (props d)) monitor_name in
  modify (set_planning_scene_monitor_
            (Some (mkPlanningSceneMonitor monitor_name (fst loaded) (snd loaded)
                     [] None false))) ;;
  ps <- getPlanningScene ;;
  configured <- (if nonnull ps then
                   ps' <- getPlanningScene ;;
                   s <- deref "getPlanningScene()" ps' ;;
                   ret (ps_configured s)
                 else ret false) ;;
  if configured : bool then
    on_monitor (fun m => psm_addUpdateCallback m bind_sceneMonitorReceivedUpdate) ;;
    on_monitor (fun m => psm_startSceneMonitor m (planning_scene_topic_property_ (props d))) ;;
    modify (set_planning_scene_render_ (Some mkPlanningSceneRender)) ;;
    onRobotModelLoaded ;;
    setStatus StatusOk "PlanningScene" "Planning Scene Loaded Successfully"
  else
    modify (set_planning_scene_monitor_ None) ;;
    setStatus StatusError "PlanningScene" "No Planning Scene Loaded".

Definition reset : M unit :=
  modify (set_planning_scene_render_ None) ;;
  on_robot Robot_clear ;;
  loadRobotModel ;;
  Display_reset ;;
  d <- get ;;
  on_robot (fun r => Robot_setVisible r (scene_robot_enabled_property_ (props d))).

Definition changedRobotDescription : M unit :=
  en <- isEnabled ;;
  if en then reset else ret tt.

Definition onSceneMonitorReceivedUpdate (update_type : SceneUpdateType) : M unit :=
  ps <- getPlanningScene ;;
  s <- deref "getPlanningScene()" ps ;;
  modify (set_props (set_scene_name_property_ (ps_name s))) ;;
  km <- getKinematicModel ;;
  k <- deref "getKinematicModel()" km ;;
  modify (set_props (set_root_link_name_property_ (km_root_link_name k))) ;;
  modify (set_planning_scene_needs_render_ true).

Definition sceneMonitorReceivedUpdate (update_type : SceneUpdateType) : M unit :=
  onSceneMonitorReceivedUpdate update_type.

Definition calculateOffsetPosition : M unit :=
  d <- get ;;
  if negb (nonnull (planning_scene_monitor_ d)) then ret tt
  else
    let ctx := context_ (base d) in
    let fixed_frame := fixed_frame_ (base d) in
    ps <- getPlanningScene ;;
    s <- deref "getPlanningScene()" ps ;;
    match getLatestCommonTime ctx fixed_frame (ps_planning_frame s) with
    | None => ret tt
    | Some stamp =>
        let pose := identity_pose stamp (ps_planning_frame s) in
        pose' <- (if canTransform ctx fixed_frame (ps_planning_frame s) stamp then
                    try_catch_TransformException
                      (match transformPose ctx fixed_frame pose with
                       | Some p => ret p
                       | None => throw (tf_TransformException "transformPose")
                       end)
                      (ROS_ERROR
                         (String.append "Error transforming from frame '"
                            (String.append (pose_frame_id pose)
                               (String.append "' to frame '"
                                  (String.append fixed_frame "'")))) ;;
                       ret pose)
                  else ret pose) ;;
        let '(x, y, z) := pose_origin pose' in
        let '(qx, qy, qz, qw) := pose_rotation pose' in
        on_scene_node (fun n => SceneNode_setPosition n
          (Float.of_double x, Float.of_double y, Float.of_double z)) ;;
        on_scene_node (fun n => SceneNode_setOrientation n
          (Float.of_double qw, Float.of_double qx, Float.of_double qy, Float.of_double qz))
    end.

Definition onEnable : M unit :=
  Display_onEnable ;;
  loadRobotModel ;;
  d <- get ;;
  on_robot (fun r => Robot_setVisible r (scene_robot_enabled_property_ (props d))) ;;
  on_geometry_node (fun n => SceneNode_setVisible n (scene_enabled_property_ (props d))) ;;
  calculateOffsetPosition.

Definition onDisable : M unit :=
  d <- get ;;
  (if nonnull (planning_scene_monitor_ d) then on_monitor psm_stopSceneMonitor
   else ret tt) ;;
  on_geometry_node (fun n => SceneNode_setVisible n false) ;;
  on_robot (fun r => Robot_setVisible r false) ;;
  Display_onDisable.

Definition update (wall_dt ros_dt : float) : M unit :=
  Display_update wall_dt ros_dt ;;
  d <- get ;;
  if negb (nonnull (planning_scene_monitor_ d)) then ret tt
  else
    modify (set_current_scene_time_ (Float.add (current_scene_time_ d) wall_dt)) ;;
    d' <- get ;;
    if Float.gt (current_scene_time_ d')
                (getFloat (scene_display_time_property_ (props d')))
    then
      renderPlanningScene ;;
      modify (set_current_scene_time_ Float.zero)
    else ret tt.

Definition fixedFrameChanged : M unit :=
  Display_fixedFrameChanged ;;
  calculateOffsetPosition.

(** ** What the host and the scene monitor do with the display *)

(** An edit of a property in the host's panel, or a property value read
    from a saved configuration. *)
Inductive property_edit :=
| edit_robot_description (v : string)
| edit_planning_scene_topic (v : string)
| edit_scene_name (v : string)
| edit_scene_enabled (v : bool)
| edit_scene_alpha (v : float)
| edit_scene_color (v : QColor)
| edit_scene_robot_enabled (v : bool)
| edit_robot_alpha (v : float)
| edit_attached_body_color (v : QColor)
| edit_scene_display_time (v : float).

(** The property takes the value (a [FloatProperty] bounds it), then the
    slot the constructor connected to the property runs.  The host runs the
    slot when the stored value changes; running it on every edit covers
    those runs. *)
Definition edit (e : property_edit) : M unit :=
  match e with
  | edit_robot_description v =>
      modify (set_props (set_robot_description_property_ v)) ;; changedRobotDescription
  | edit_planning_scene_topic v =>
      modify (set_props (set_planning_scene_topic_property_ v)) ;;
      changedPlanningSceneTopic
  | edit_scene_name v =>
      modify (set_props (set_scene_name_property_ v)) ;; changedSceneName
  | edit_scene_enabled v =>
      modify (set_props (set_scene_enabled_property_ v)) ;; changedSceneEnabled
  | edit_scene_alpha v =>
      modify (set_props (fun p =>
        set_scene_alpha_property_ (setFloat (scene_alpha_property_ p) v) p)) ;;
      changedSceneAlpha
  | edit_scene_color v =>
      modify (set_props (set_scene_color_property_ v)) ;; changedSceneColor
  | edit_scene_robot_enabled v =>
      modify (set_props (set_scene_robot_enabled_property_ v)) ;;
      changedSceneRobotEnabled
  | edit_robot_alpha v =>
      modify (set_props (fun p =>
        set_robot_alpha_property_ (setFloat (robot_alpha_property_ p) v) p)) ;;
      changedRobotSceneAlpha
  | edit_attached_body_color v =>
      modify (set_props (set_attached_body_color_property_ v)) ;;
      changedAttachedBodyColor
  | edit_scene_display_time v =>
      modify (set_props (fun p =>
        set_scene_display_time_property_ (setFloat (scene_display_time_property_ p) v) p)) ;;
      changedSceneDisplayTime
  end.

(** [load(config)] forwards to [rviz::Display::load], which gives each
    saved property its value; [save] does not change the display. *)
Definition Config := list property_edit.

Fixpoint Display_load (config : Config) : M unit :=
  match config with
  | [] => ret tt
  | e :: rest => edit e ;; Display_load rest
  end.

Definition load (config : Config) : M unit := Display_load config.
Definition save (config : Config) : M unit := ret tt.

(** The monitor calls its update callbacks, in the order they were added. *)
Definition call (cb : UpdateCallback) (update_type : SceneUpdateType) : M unit :=
  match cb with
  | bind_sceneMonitorReceivedUpdate => sceneMonitorReceivedUpdate update_type
  end.

Fixpoint call_all (cbs : list UpdateCallback) (update_type : SceneUpdateType) : M unit :=
  match cbs with
  | [] => ret tt
  | cb :: rest => call cb update_type ;; call_all rest update_type
  end.

(** A scene-update message arrives at the display's monitor: the monitor
    takes the new scene and calls its callbacks.  A display without a
    monitor receives no message. *)
Definition scene_update_message (scene : PlanningScene) (update_type : SceneUpdateType)
  : M unit :=
  d <- get ;;
  match planning_scene_monitor_ d with
  | Some m =>
      modify (set_planning_scene_monitor_ (Some (psm_set_planning_scene m (Some scene)))) ;;
      call_all (psm_update_callbacks m) update_type
  | None => ret tt
  end.

(** Everything that can be done with a display once constructed: the calls
    of the host, the monitor's messages, and the members a derived class or
    a holder of the display can call. *)
Inductive operation :=
| op_onInitialize
| op_setEnabled (v : bool)
| op_reset
| op_update (wall_dt ros_dt : float)
| op_setFixedFrame (v : string)
| op_setContext (v : DisplayContext)
| op_edit (e : property_edit)
| op_load (config : Config)
| op_save (config : Config)
| op_scene_update_message (scene : PlanningScene) (update_type : SceneUpdateType)
| op_sceneMonitorReceivedUpdate (update_type : SceneUpdateType)
| op_onSceneMonitorReceivedUpdate (update_type : SceneUpdateType)
| op_getPlanningSceneMonitor
| op_getKinematicModel
| op_getPlanningScene
| op_queueRenderSceneGeometry
| op_setLinkColor (link_name : string) (color : QColor)
| op_unsetLinkColor (link_name : string)
| op_setLinkColor_robot (robot : RobotPointer) (link_name : string) (color : QColor)
| op_unsetLinkColor_robot (robot : RobotPointer) (link_name : string)
| op_setGroupColor (robot : RobotPointer) (group_name : string) (color : QColor)
| op_unsetGroupColor (robot : RobotPointer) (group_name : string)
| op_unsetAllColors (robot : RobotPointer)
| op_changedAttachedBodyColor
| op_changedSceneColor
| op_changedRobotDescription
| op_changedSceneName
| op_changedRootLinkName
| op_changedSceneAlpha
| op_changedRobotSceneAlpha
| op_changedPlanningSceneTopic
| op_changedSceneDisplayTime
| op_changedSceneRobotEnabled
| op_changedSceneEnabled
| op_renderPlanningScene
| op_loadRobotModel
| op_onRobotModelLoaded
| op_onEnable
| op_onDisable
| op_calculateOffsetPosition
| op_fixedFrameChanged.

Definition discard {A} (c : M A) : M unit := _ <- c ;; ret tt.

Definition run (o : operation) : M unit :=
  match o with
  | op_onInitialize => onInitialize
  | op_setEnabled v =>
      modify (set_base (set_enabled_ v)) ;; if v then onEnable else onDisable
  | op_reset => reset
  | op_update wall_dt ros_dt => update wall_dt ros_dt
  | op_setFixedFrame v => modify (set_base (set_fixed_frame_ v)) ;; fixedFrameChanged
  | op_setContext v => modify (set_base (set_context_ v))
  | op_edit e => edit e
  | op_load config => load config
  | op_save config => save config
  | op_scene_update_message scene update_type => scene_update_message scene update_type
  | op_sceneMonitorReceivedUpdate t => sceneMonitorReceivedUpdate t
  | op_onSceneMonitorReceivedUpdate t => onSceneMonitorReceivedUpdate t
  | op_getPlanningSceneMonitor => discard getPlanningSceneMonitor
  | op_getKinematicModel => discard getKinematicModel
  | op_getPlanningScene => discard getPlanningScene
  | op_queueRenderSceneGeometry => queueRenderSceneGeometry
  | op_setLinkColor l c => setLinkColor l c
  | op_unsetLinkColor l => unsetLinkColor l
  | op_setLinkColor_robot p l c =>
      discard (on_robot_pointer p (fun robot => setLinkColor_robot robot l c))
  | op_unsetLinkColor_robot p l =>
      discard (on_robot_pointer p (fun robot => unsetLinkColor_robot robot l))
  | op_setGroupColor p g c =>
      discard (on_robot_pointer p (fun robot => setGroupColor robot g c))
  | op_unsetGroupColor p g =>
      discard (on_robot_pointer p (fun robot => unsetGroupColor robot g))
  | op_unsetAllColors p => discard (on_robot_pointer p unsetAllColors)
  | op_changedAttachedBodyColor => changedAttachedBodyColor
  | op_changedSceneColor => changedSceneColor
  | op_changedRobotDescription => changedRobotDescription
  | op_changedSceneName => changedSceneName
  | op_changedRootLinkName => changedRootLinkName
  | op_changedSceneAlpha => changedSceneAlpha
  | op_changedRobotSceneAlpha => changedRobotSceneAlpha
  | op_changedPlanningSceneTopic => changedPlanningSceneTopic
  | op_changedSceneDisplayTime => changedSceneDisplayTime
  | op_changedSceneRobotEnabled => changedSceneRobotEnabled
  | op_changedSceneEnabled => changedSceneEnabled
  | op_renderPlanningScene => renderPlanningScene
  | op_loadRobotModel => loadRobotModel
  | op_onRobotModelLoaded => onRobotModelLoaded
  | op_onEnable => onEnable
  | op_onDisable => onDisable
  | op_calculateOffsetPosition => calculateOffsetPosition
  | op_fixedFrameChanged => fixedFrameChanged
  end.

(** The states a display goes through: constructed, then any operation
    that returns. *)
Inductive reachable : PlanningSceneDisplay -> Prop :=
| reachable_new context name : reachable (PlanningSceneDisplay_new context name)
| reachable_run d o d' :
    reachable d -> run o d = (Returns tt, d') -> reachable d'.

(** Running a list of operations, stopping at the first failure. *)
Fixpoint run_all (os : list operation) : M unit :=
  match os with
  | [] => ret tt
  | o :: rest => run o ;; run_all rest
  end.

(** * Specification

    The predicates, the expected final states and the example displays the
    properties are stated with. *)

(** [keeps strict I c]: started in a display where [I] holds, [c] ends in a
    display where [I] holds when it returns and, if [strict], also when it
    fails.  [preserves] is the strict form, [preserves_on_return] the
    other. *)
Definition keeps (strict : bool) (I : PlanningSceneDisplay -> Prop) {A} (c : M A)
  : Prop :=
  forall d, I d ->
    match fst (c d) with
    | Returns _ => I (snd (c d))
    | Fails _ => strict = true -> I (snd (c d))
    end.

Abbreviation preserves := (keeps true).
Abbreviation preserves_on_return := (keeps false).

(** Every render call in [t] happens while the scene lock is held, [held]
    telling whether it is held when [t] starts. *)
Fixpoint renders_locked (held : bool) (t : list event) : bool :=
  match t with
  | [] => true
  | ev_lockScene :: t' => renders_locked true t'
  | ev_unlockScene :: t' => renders_locked false t'
  | ev_renderPlanningScene _ _ _ _ _ :: t' => held && renders_locked held t'
  | ev_ROS_ERROR _ :: t' => renders_locked held t'
  end.

(** Whether the scene lock is held after [t]. *)
Fixpoint held_after (held : bool) (t : list event) : bool :=
  match t with
  | [] => held
  | ev_lockScene :: t' => held_after true t'
  | ev_unlockScene :: t' => held_after false t'
  | _ :: t' => held_after held t'
  end.

Definition is_render (e : event) : bool :=
  match e with ev_renderPlanningScene _ _ _ _ _ => true | _ => false end.

(** The events of one render pass: lock, the render call, the error
    message when the renderer threw, unlock. *)
Definition render_pass_events (d : PlanningSceneDisplay) : list event :=
  let scene := match planning_scene_monitor_ d with
               | Some m => psm_planning_scene m
               | None => None
               end in
  let env_color := rviz_Color_of (scene_color_property_ (props d)) in
  let attached_color := rviz_Color_of (attached_body_color_property_ (props d)) in
  let scene_alpha := getFloat (scene_alpha_property_ (props d)) in
  let robot_alpha := getFloat (robot_alpha_property_ (props d)) in
  [ev_lockScene;
   ev_renderPlanningScene scene env_color attached_color scene_alpha robot_alpha]
  ++ (if render_throws (context_ (base d)) scene env_color attached_color
           scene_alpha robot_alpha
      then [ev_ROS_ERROR "Exception thrown while rendering planning scene"]
      else [])
  ++ [ev_unlockScene].

(** The display after a render pass, whether or not the renderer threw:
    the flag is cleared, the monitor's lock is released, the geometry node
    has the visibility of the property, the events are appended. *)
Definition after_render_pass (d : PlanningSceneDisplay) (m : PlanningSceneMonitor)
    (n : SceneNode) : PlanningSceneDisplay :=
  {| base := base d;
     props := props d;
     planning_scene_robot_ := planning_scene_robot_ d;
     planning_scene_node_ := planning_scene_node_ d;
     planning_scene_geometry_node_ :=
       Some (SceneNode_setVisible n (scene_enabled_property_ (props d)));
     planning_scene_monitor_ := Some (psm_set_locked m false);
     planning_scene_render_ := planning_scene_render_ d;
     current_scene_time_ := current_scene_time_ d;
     planning_scene_needs_render_ := false;
     trace := (trace d ++ render_pass_events d)%list |}.

Definition display_time_min_configured (d : PlanningSceneDisplay) : Prop :=
  min_ (scene_display_time_property_ (props d)) = Float.lit_0_0001.

Definition renderer_has_monitor (d : PlanningSceneDisplay) : Prop :=
  nonnull (planning_scene_render_ d) = true ->
  nonnull (planning_scene_monitor_ d) = true.

(** In the whole trace so far every render call was made with the scene
    lock held, and the lock is released now. *)
Definition lock_discipline (d : PlanningSceneDisplay) : Prop :=
  renders_locked false (trace d) = true /\ held_after false (trace d) = false.

(** The render call [renderPlanningScene] makes on the display [d]. *)
Definition render_call (d : PlanningSceneDisplay) (scene : option PlanningScene) : event :=
  ev_renderPlanningScene scene
    (rviz_Color_of (scene_color_property_ (props d)))
    (rviz_Color_of (attached_body_color_property_ (props d)))
    (getFloat (scene_alpha_property_ (props d)))
    (getFloat (robot_alpha_property_ (props d))).

(** Whether the renderer throws on that call. *)
Definition renderer_throws (d : PlanningSceneDisplay) (scene : option PlanningScene) : bool :=
  render_throws (context_ (base d)) scene
    (rviz_Color_of (scene_color_property_ (props d)))
    (rviz_Color_of (attached_body_color_property_ (props d)))
    (getFloat (scene_alpha_property_ (props d)))
    (getFloat (robot_alpha_property_ (props d))).

Module Example.

Definition scene : PlanningScene :=
  mkPlanningScene "kitchen" true "odom" (mkKinematicState []).

Definition model : KinematicModel :=
  mkKinematicModel "base_link" {[ "arm" := ["shoulder"; "elbow"] ]}
    ["base_link"; "shoulder"] (Some (mkURDF ["base_link"; "shoulder"; "elbow"])).

(** A host whose parameter server has a configured scene, whose tf client
    answers, and whose renderer throws or not as [throws] says. *)
Definition context (throws : bool) : DisplayContext :=
  mkDisplayContext (fun _ _ => (Some scene, Some model))
    (fun _ _ => Some 7) (fun _ _ _ => true) (fun _ p => Some p)
    (fun _ _ _ _ _ => throws).

(** A host without a robot description: the monitor has no scene. *)
Definition empty_context : DisplayContext :=
  mkDisplayContext (fun _ _ => (None, None))
    (fun _ _ => None) (fun _ _ _ => false) (fun _ p => None)
    (fun _ _ _ _ _ => false).

Definition constructed (throws : bool) : PlanningSceneDisplay :=
  PlanningSceneDisplay_new (context throws) "Planning Scene".

(** initialized and enabled: the robot model is loaded *)
Definition loaded (throws : bool) : PlanningSceneDisplay :=
  snd (run_all [op_onInitialize; op_setEnabled true] (constructed throws)).

(** initialized and enabled without a robot description: nothing loaded *)
Definition not_loaded : PlanningSceneDisplay :=
  snd (run_all [op_onInitialize; op_setEnabled true]
         (PlanningSceneDisplay_new empty_context "Planning Scene")).

End Example.

(** The host's context with a renderer that does not throw. *)
Definition renderer_returns (c : DisplayContext) : DisplayContext :=
  mkDisplayContext (new_PlanningSceneMonitor c) (getLatestCommonTime c)
    (canTransform c) (transformPose c) (fun _ _ _ _ _ => false).

(** What the monitor constructed by [loadRobotModel] on [d] holds. *)
Definition constructed_monitor (d : PlanningSceneDisplay)
  : option PlanningScene * option KinematicModel :=
  new_PlanningSceneMonitor (context_ (base d))
    (robot_description_property_ (props d))
    (String.append (name_ (base d)) "_planning_scene_monitor").

(** The condition of [loadRobotModel]: the planning scene exists and is
    configured. *)
Definition scene_configured (d : PlanningSceneDisplay) : bool :=
  match fst (constructed_monitor d) with
  | Some s => ps_configured s
  | None => false
  end.

(** The status [loadRobotModel] reports to the host. *)
Definition PlanningScene_status (d : PlanningSceneDisplay) : option (StatusLevel * string) :=
  statuses_ (base d) !! "PlanningScene".

(** The display after a failed load. *)
Definition after_failed_load (d : PlanningSceneDisplay) : PlanningSceneDisplay :=
  {| base := set_statuses_
               (fun s => <["PlanningScene" := (StatusError, "No Planning Scene Loaded")]> s)
               (base d);
     props := props d;
     planning_scene_robot_ := planning_scene_robot_ d;
     planning_scene_node_ := planning_scene_node_ d;
     planning_scene_geometry_node_ := planning_scene_geometry_node_ d;
     planning_scene_monitor_ := None;
     planning_scene_render_ := None;
     current_scene_time_ := current_scene_time_ d;
     planning_scene_needs_render_ := planning_scene_needs_render_ d;
     trace := trace d |}.

(** The display after a successful load of scene [s] and model [k] with
    URDF [u] into the robot visual [r]. *)
Definition after_successful_load (d : PlanningSceneDisplay) (s : PlanningScene)
    (k : KinematicModel) (u : URDF) (r : Robot) : PlanningSceneDisplay :=
  {| base := set_statuses_
               (fun st => <["PlanningScene" :=
                              (StatusOk, "Planning Scene Loaded Successfully")]> st)
               (base d);
     props := set_root_link_name_property_ (km_root_link_name k)
                (set_scene_name_property_ (ps_name s) (props d));
     planning_scene_robot_ := Some (Robot_update (Robot_load r u) (ps_current_state s));
     planning_scene_node_ := planning_scene_node_ d;
     planning_scene_geometry_node_ := planning_scene_geometry_node_ d;
     planning_scene_monitor_ :=
       Some {| psm_name := String.append (name_ (base d)) "_planning_scene_monitor";
               psm_planning_scene := Some s;
               psm_kinematic_model := Some k;
               psm_update_callbacks := [bind_sceneMonitorReceivedUpdate];
               psm_scene_topic := Some (planning_scene_topic_property_ (props d));
               psm_scene_locked := false |};
     planning_scene_render_ := Some mkPlanningSceneRender;
     current_scene_time_ := current_scene_time_ d;
     planning_scene_needs_render_ := planning_scene_needs_render_ d;
     trace := trace d |}.

(** The monitor the display holds has the display's
    [sceneMonitorReceivedUpdate] as its update callback. *)
Definition callback_registered (d : PlanningSceneDisplay) : Prop :=
  forall m, planning_scene_monitor_ d = Some m ->
            psm_update_callbacks m = [bind_sceneMonitorReceivedUpdate].

(** The display after [sceneMonitorReceivedUpdate] with scene [s] and
    model [k]: the two name properties are those of the scene and of the
    model, the needs-render flag is set. *)
Definition after_scene_update (d : PlanningSceneDisplay) (s : PlanningScene)
    (k : KinematicModel) : PlanningSceneDisplay :=
  set_planning_scene_needs_render_ true
    (set_props (set_root_link_name_property_ (km_root_link_name k))
       (set_props (set_scene_name_property_ (ps_name s)) d)).

(** Once [onInitialize] has created the robot visual the scene nodes exist;
    a renderer exists only with a robot visual; a monitor the display keeps
    has a planning scene and a kinematic model. *)
Definition loaded_invariant (d : PlanningSceneDisplay) : Prop :=
  (nonnull (planning_scene_robot_ d) = true ->
     nonnull (planning_scene_geometry_node_ d) = true
     /\ nonnull (planning_scene_node_ d) = true)
  /\ (nonnull (planning_scene_render_ d) = true ->
      nonnull (planning_scene_robot_ d) = true)
  /\ (forall m, planning_scene_monitor_ d = Some m ->
        nonnull (psm_planning_scene m) = true
        /\ nonnull (psm_kinematic_model m) = true).

(** The two members that are neither a property nor a pointer. *)
Definition bookkeeping (d : PlanningSceneDisplay) : float * bool :=
  (current_scene_time_ d, planning_scene_needs_render_ d).

Definition is_update (o : operation) : bool :=
  match o with op_update _ _ => true | _ => false end.

(** The operations that can write [planning_scene_needs_render_]. *)
Definition writes_needs_render (o : operation) : bool :=
  match o with
  | op_update _ _ | op_renderPlanningScene
  | op_queueRenderSceneGeometry
  | op_changedSceneAlpha | op_changedSceneColor | op_changedAttachedBodyColor
  | op_edit (edit_scene_alpha _) | op_edit (edit_scene_color _)
  | op_edit (edit_attached_body_color _)
  | op_load _
  | op_scene_update_message _ _
  | op_sceneMonitorReceivedUpdate _ | op_onSceneMonitorReceivedUpdate _ => true
  | _ => false
  end.

(** The operations that only read the display: the getters, [save], the
    empty slot, and the functions on a robot called on a robot that is not
    the display's own. *)
Definition read_only (o : operation) : bool :=
  match o with
  | op_save _ | op_getPlanningSceneMonitor | op_getKinematicModel | op_getPlanningScene
  | op_setLinkColor_robot (other_robot _) _ _ | op_unsetLinkColor_robot (other_robot _) _
  | op_setGroupColor (other_robot _) _ _ | op_unsetGroupColor (other_robot _) _
  | op_unsetAllColors (other_robot _)
  | op_changedSceneDisplayTime => true
  | _ => false
  end.

(** The functions on a robot, called on the display's own robot visual. *)
Definition on_own_robot (o : operation) : bool :=
  match o with
  | op_setLinkColor_robot own_robot _ _ | op_unsetLinkColor_robot own_robot _
  | op_setGroupColor own_robot _ _ | op_unsetGroupColor own_robot _
  | op_unsetAllColors own_robot => true
  | _ => false
  end.

(** [f] works on the robot handed to it and on nothing of the display, and
    does not make the pointer null or non-null. *)
Definition works_on_robot (f : option Robot -> M (option Robot)) : Prop :=
  forall robot d,
    snd (f robot d) = d
    /\ forall r', fst (f robot d) = Returns r' -> nonnull r' = nonnull robot.

Definition display_time (d : PlanningSceneDisplay) : float :=
  getFloat (scene_display_time_property_ (props d)).

(** [update] with [wall_dt] calls [renderPlanningScene]: there is a monitor
    and the accumulated time with [wall_dt] added exceeds the display
    time. *)
Definition attempts_render (d : PlanningSceneDisplay) (wall_dt : float) : bool :=
  nonnull (planning_scene_monitor_ d)
  && Float.gt (Float.add (current_scene_time_ d) wall_dt) (display_time d).

(** The [wall_dt]s that were accumulated since the last render attempt,
    oldest first, when the operations [os] are run on [d] and [pending] are
    those accumulated before: an [update] on a display without a monitor
    accumulates nothing, an [update] that attempts a render starts over. *)
Fixpoint pending_since_attempt (os : list operation) (d : PlanningSceneDisplay)
    (pending : list float) : list float :=
  match os with
  | [] => pending
  | o :: rest =>
      pending_since_attempt rest (snd (run o d))
        (match o with
         | op_update wall_dt _ =>
             if nonnull (planning_scene_monitor_ d) then
               if attempts_render d wall_dt then [] else (pending ++ [wall_dt])%list
             else pending
         | _ => pending
         end)
  end.

(** The sum, in [float] arithmetic, in the order of accumulation. *)
Definition float_sum (dts : list float) : float := fold_left Float.add dts Float.zero.

(** The monitor and the renderer are both there or both null. *)
Definition monitor_iff_renderer (d : PlanningSceneDisplay) : Prop :=
  nonnull (planning_scene_monitor_ d) = nonnull (planning_scene_render_ d).

(** The monitor the display holds does not have its scene locked. *)
Definition scene_unlocked (d : PlanningSceneDisplay) : Prop :=
  forall m, planning_scene_monitor_ d = Some m -> psm_scene_locked m = false.

(** The operations that can set [planning_scene_needs_render_]. *)
Definition queues_render (o : operation) : bool :=
  match o with
  | op_queueRenderSceneGeometry
  | op_changedSceneAlpha | op_changedSceneColor | op_changedAttachedBodyColor
  | op_edit (edit_scene_alpha _) | op_edit (edit_scene_color _)
  | op_edit (edit_attached_body_color _)
  | op_load _
  | op_scene_update_message _ _
  | op_sceneMonitorReceivedUpdate _ | op_onSceneMonitorReceivedUpdate _ => true
  | _ => false
  end.

(** The number of render calls in a trace. *)
Definition render_calls (t : list event) : nat := length (filter is_render t).

(** Nothing is queued for rendering and [n] render calls were made. *)
Definition idle_after (n : nat) (d : PlanningSceneDisplay) : Prop :=
  planning_scene_needs_render_ d = false /\ render_calls (trace d) = n.

(** The scene node placed at a pose: the origin as position, the rotation
    as orientation (w, x, y, z), both converted to [float]. *)
Definition node_at (p : StampedPose) (n : SceneNode) : SceneNode :=
  let '(x, y, z) := pose_origin p in
  let '(qx, qy, qz, qw) := pose_rotation p in
  SceneNode_setOrientation
    (SceneNode_setPosition n (Float.of_double x, Float.of_double y, Float.of_double z))
    (Float.of_double qw, Float.of_double qx, Float.of_double qy, Float.of_double qz).

(** The message [calculateOffsetPosition] logs when the transform fails. *)
Definition transform_error (from_frame to_frame : string) : event :=
  ev_ROS_ERROR
    (String.append "Error transforming from frame '"
       (String.append from_frame
          (String.append "' to frame '" (String.append to_frame "'")))).

(** No exception leaves the computation. *)
Definition no_throw {A} (c : M A) : Prop :=
  forall d e, fst (c d) <> Fails (Thrown e).

(** What the display needs from its host: a configured planning scene comes
    with a kinematic model that has a URDF. *)
Definition well_formed_context (c : DisplayContext) : Prop :=
  forall robot_description name s,
    fst (new_PlanningSceneMonitor c robot_description name) = Some s ->
    ps_configured s = true ->
    exists k u, snd (new_PlanningSceneMonitor c robot_description name) = Some k
                /\ km_urdf k = Some u.

(** The display has been initialized by a well-formed host and is as its
    operations leave it. *)
Definition ready (d : PlanningSceneDisplay) : Prop :=
  nonnull (planning_scene_robot_ d) = true
  /\ well_formed_context (context_ (base d))
  /\ loaded_invariant d
  /\ renderer_has_monitor d.

(** Every operation but: a change of the host context; the update callback
    and [onRobotModelLoaded] called directly, which need a monitor; and the
    robot functions called on a null robot. *)
Definition safe_operation (o : operation) : bool :=
  match o with
  | op_setContext _
  | op_sceneMonitorReceivedUpdate _ | op_onSceneMonitorReceivedUpdate _
  | op_onRobotModelLoaded
  | op_setLinkColor_robot (other_robot None) _ _
  | op_unsetLinkColor_robot (other_robot None) _
  | op_setGroupColor (other_robot None) _ _ | op_unsetGroupColor (other_robot None) _
  | op_unsetAllColors (other_robot None) => false
  | _ => true
  end.

(** [r'] is [r] with [link] in the place of every link of [links] that [r]
    has: no link is created, the other links, the visibility and the alpha
    are those of [r]. *)
Definition recolored (links : list string) (link : RobotLink) (r r' : Robot) : Prop :=
  (forall l, Robot_getLink r l = None -> Robot_getLink r' l = None)
  /\ (forall l x, In l links -> Robot_getLink r l = Some x ->
        Robot_getLink r' l = Some link)
  /\ (forall l, ~ In l links -> Robot_getLink r' l = Robot_getLink r l)
  /\ robot_visible r' = robot_visible r
  /\ robot_alpha r' = robot_alpha r.

(** * Properties *)

(** Floating-point operations and conversions stay folded while member
    functions are evaluated symbolically. *)
Arguments Float.add : simpl never.
Arguments Float.gt : simpl never.
Arguments Float.lt : simpl never.
Arguments Float.of_double : simpl never.
Arguments rviz_Color_of : simpl never.
Arguments redF : simpl never.
Arguments greenF : simpl never.
Arguments blueF : simpl never.
Arguments qBound : simpl never.
Arguments String.append : simpl never.

(** Unfolding the monad and the calls through pointers. *)
Ltac unfold_members :=
  unfold lockScene, unlockScene, on_monitor, on_robot, on_geometry_node,
    on_scene_node, on_planning_scene, setStatus, emit, ROS_ERROR, isEnabled,
    getPlanningScene, getKinematicModel, getPlanningSceneMonitor,
    queueRenderSceneGeometry, discard, throw,
    Display_onInitialize, Display_reset, Display_onEnable, Display_onDisable,
    Display_update, Display_fixedFrameChanged in *.

Ltac unfold_monad :=
  unfold bind, ret, get, modify, fail, deref, try_catch_all,
    try_catch_TransformException in *.

Ltac unfold_setters :=
  unfold set_base, set_props, set_planning_scene_robot_, set_planning_scene_node_,
    set_planning_scene_geometry_node_, set_planning_scene_monitor_,
    set_planning_scene_render_, set_current_scene_time_,
    set_planning_scene_needs_render_, set_trace,
    set_statuses_, set_enabled_, set_fixed_frame_, set_context_ in *.

(** Symbolic evaluation of a member function on a display. *)
Ltac exec :=
  repeat (progress (unfold_members; unfold_monad; unfold_setters; simpl in *)).

(** ** The trace of lock, render and unlock calls *)

Lemma renders_locked_app held t1 t2 :
  renders_locked held (t1 ++ t2)%list
  = renders_locked held t1 && renders_locked (held_after held t1) t2.
Proof.
  revert held; induction t1 as [|e t1 IH]; intros held; simpl; [reflexivity|].
  destruct e; simpl; rewrite ?IH; try reflexivity.
  destruct held; reflexivity.
Qed.

Lemma held_after_app held t1 t2 :
  held_after held (t1 ++ t2)%list = held_after (held_after held t1) t2.
Proof.
  revert held; induction t1 as [|e t1 IH]; intros held; simpl; [reflexivity|].
  destruct e; simpl; apply IH.
Qed.

(** What [renderPlanningScene] does when its guard holds and the pointers
    it goes through are set. *)
Lemma renderPlanningScene_pass d rn m n :
  planning_scene_render_ d = Some rn ->
  planning_scene_needs_render_ d = true ->
  planning_scene_monitor_ d = Some m ->
  planning_scene_geometry_node_ d = Some n ->
  renderPlanningScene d = (Returns tt, after_render_pass d m n).
Proof.
  intros Hr Hn Hm Hg. destruct d as [b p r nd g mo re t nr tr]. simpl in *. subst.
  unfold renderPlanningScene, after_render_pass, render_pass_events,
    PlanningSceneRender_renderPlanningScene.
  exec.
  destruct (render_throws _ _ _ _ _ _); exec; rewrite <- !app_assoc; reflexivity.
Qed.

(** When the guard does not hold, [renderPlanningScene] does nothing. *)
Lemma renderPlanningScene_skip d :
  nonnull (planning_scene_render_ d) && planning_scene_needs_render_ d = false ->
  renderPlanningScene d = (Returns tt, d).
Proof.
  intros H. unfold renderPlanningScene. exec. rewrite H. reflexivity.
Qed.

(** In every case the events [renderPlanningScene] adds keep render calls
    under the lock and leave the lock released. *)
Lemma renderPlanningScene_events d :
  exists evs, trace (snd (renderPlanningScene d)) = (trace d ++ evs)%list
    /\ renders_locked false evs = true /\ held_after false evs = false.
Proof.
  destruct (nonnull (planning_scene_render_ d) && planning_scene_needs_render_ d)
    eqn:Hguard.
  2:{ rewrite (renderPlanningScene_skip d Hguard). exists []. simpl.
      rewrite app_nil_r. auto. }
  apply andb_true_iff in Hguard as [Hr Hn].
  destruct d as [b p r nd g mo re t nr tr]. simpl in *. subst.
  destruct re as [rn|]; [|discriminate].
  unfold renderPlanningScene, PlanningSceneRender_renderPlanningScene.
  destruct mo as [m|]; exec.
  2:{ exists []. rewrite app_nil_r. auto. }
  destruct (render_throws _ _ _ _ _ _); exec; destruct g as [n|]; exec;
    rewrite <- !app_assoc; eexists; (split; [reflexivity|]); auto.
Qed.

(** ** Invariants of member functions *)

Section Preservation.

Variable strict : bool.
Variable I : PlanningSceneDisplay -> Prop.

Lemma keeps_ret {A} (a : A) : keeps strict I (ret a).
Proof. intros d H. exact H. Qed.

Lemma keeps_get : keeps strict I get.
Proof. intros d H. exact H. Qed.

Lemma keeps_fail {A} f : keeps strict I (@fail A f).
Proof. intros d H _. exact H. Qed.

Lemma keeps_throw {A} e : keeps strict I (@throw A e).
Proof. intros d H _. exact H. Qed.

Lemma keeps_deref {A} s (p : option A) : keeps strict I (deref s p).
Proof. intros d H. destruct p; simpl; auto. Qed.

Lemma keeps_modify f :
  (forall d, I d -> I (f d)) -> keeps strict I (modify f).
Proof. intros Hf d H. simpl. auto. Qed.

Lemma keeps_bind {A B} (c : M A) (k : A -> M B) :
  keeps strict I c -> (forall a, keeps strict I (k a)) -> keeps strict I (bind c k).
Proof.
  intros Hc Hk d H. unfold bind. specialize (Hc d H).
  destruct (c d) as [[a|f] d']; simpl in *; [apply Hk|]; assumption.
Qed.

Lemma keeps_on_monitor f :
  (forall d m, I d -> planning_scene_monitor_ d = Some m ->
               I (set_planning_scene_monitor_ (Some (f m)) d)) ->
  keeps strict I (on_monitor f).
Proof.
  intros Hf d H. unfold on_monitor, bind, get, deref, modify, ret, fail.
  destruct (planning_scene_monitor_ d) as [m|] eqn:Em; simpl; auto.
Qed.

Lemma keeps_on_robot f :
  (forall d r, I d -> planning_scene_robot_ d = Some r ->
               I (set_planning_scene_robot_ (Some (f r)) d)) ->
  keeps strict I (on_robot f).
Proof.
  intros Hf d H. unfold on_robot, bind, get, deref, modify, ret, fail.
  destruct (planning_scene_robot_ d) as [r|] eqn:Er; simpl; auto.
Qed.

Lemma keeps_on_geometry_node f :
  (forall d n, I d -> planning_scene_geometry_node_ d = Some n ->
               I (set_planning_scene_geometry_node_ (Some (f n)) d)) ->
  keeps strict I (on_geometry_node f).
Proof.
  intros Hf d H. unfold on_geometry_node, bind, get, deref, modify, ret, fail.
  destruct (planning_scene_geometry_node_ d) as [n|] eqn:En; simpl; auto.
Qed.

Lemma keeps_on_scene_node f :
  (forall d n, I d -> planning_scene_node_ d = Some n ->
               I (set_planning_scene_node_ (Some (f n)) d)) ->
  keeps strict I (on_scene_node f).
Proof.
  intros Hf d H. unfold on_scene_node, bind, get, deref, modify, ret, fail.
  destruct (planning_scene_node_ d) as [n|] eqn:En; simpl; auto.
Qed.

Lemma keeps_for_each_link body robot links :
  (forall r l, keeps strict I (body r l)) -> keeps strict I (for_each_link body robot links).
Proof.
  intros Hb. revert robot. induction links as [|l links IH]; intros robot; simpl.
  - apply keeps_ret.
  - apply keeps_bind; auto.
Qed.

Lemma keeps_Display_load config :
  (forall e, keeps strict I (edit e)) -> keeps strict I (Display_load config).
Proof.
  intros He. induction config as [|e config IH]; simpl.
  - apply keeps_ret.
  - apply keeps_bind; auto.
Qed.

Lemma keeps_call_all cbs update_type :
  (forall cb, keeps strict I (call cb update_type)) -> keeps strict I (call_all cbs update_type).
Proof.
  intros Hc. induction cbs as [|cb cbs IH]; simpl.
  - apply keeps_ret.
  - apply keeps_bind; auto.
Qed.

Lemma keeps_scene_update_message scene update_type :
  (forall d m, I d -> planning_scene_monitor_ d = Some m ->
     I (set_planning_scene_monitor_
          (Some (psm_set_planning_scene m (Some scene))) d)) ->
  (forall cb, keeps strict I (call cb update_type)) ->
  keeps strict I (scene_update_message scene update_type).
Proof.
  intros Hm Hc d H. unfold scene_update_message, bind, get, modify.
  destruct (planning_scene_monitor_ d) as [m|] eqn:Em; simpl; [|exact H].
  exact (keeps_call_all (psm_update_callbacks m) update_type Hc _ (Hm d m H Em)).
Qed.

(** An invariant of the constructed display that every operation keeps
    when it returns holds in every reachable display. *)
Lemma reachable_invariant :
  (forall context name, I (PlanningSceneDisplay_new context name)) ->
  (forall o, keeps strict I (run o)) ->
  forall d, reachable d -> I d.
Proof.
  intros Hnew Hrun d Hd. induction Hd as [context name|d o d' Hd IH Hstep].
  - apply Hnew.
  - specialize (Hrun o d IH). rewrite Hstep in Hrun. exact Hrun.
Qed.

End Preservation.

(** A strict invariant is kept on return. *)
Lemma keeps_weaken I {A} (c : M A) strict :
  preserves I c -> keeps strict I c.
Proof.
  intros H d Hd. specialize (H d Hd). destruct (fst (c d)); auto.
Qed.

(** What a strictly kept invariant says about the final display. *)
Lemma preserves_snd I {A} (c : M A) d :
  preserves I c -> I d -> I (snd (c d)).
Proof.
  intros H Hd. specialize (H d Hd). destruct (fst (c d)); auto.
Qed.

Lemma snd_preserves (I : PlanningSceneDisplay -> Prop) {A} (c : M A) :
  (forall d, I d -> I (snd (c d))) -> preserves I c.
Proof.
  intros H d Hd. specialize (H d Hd). destruct (fst (c d)); auto.
Qed.

Lemma always_preserves (I : PlanningSceneDisplay -> Prop) {A} (c : M A) :
  (forall d, I (snd (c d))) -> preserves I c.
Proof.
  intros H. apply snd_preserves. auto.
Qed.

(** The body of a [try] has to keep the invariant also when it throws. *)
Lemma keeps_try_catch_all strict I {A} (body handler : M A) :
  preserves I body -> keeps strict I handler ->
  keeps strict I (try_catch_all body handler).
Proof.
  intros Hb Hh d H. unfold try_catch_all.
  pose proof (preserves_snd I body d Hb H) as Hb'.
  destruct (body d) as [[a|[s|e]] d']; simpl in *; auto.
  apply Hh. exact Hb'.
Qed.

Lemma keeps_try_catch_TransformException strict I {A} (body handler : M A) :
  preserves I body -> keeps strict I handler ->
  keeps strict I (try_catch_TransformException body handler).
Proof.
  intros Hb Hh d H. unfold try_catch_TransformException.
  pose proof (preserves_snd I body d Hb H) as Hb'.
  destruct (body d) as [[a|[s|[w|w]]] d']; simpl in *; auto.
  apply Hh. exact Hb'.
Qed.

(** ** Calls through a robot pointer *)

Lemma works_on_robot_ret : works_on_robot (fun robot => ret robot).
Proof. intros robot d. split; [reflexivity|]. intros r' H. inversion H. reflexivity. Qed.

Lemma works_on_robot_fail f : works_on_robot (fun _ => fail f).
Proof. intros robot d. split; [reflexivity|]. intros r' H. discriminate H. Qed.

Lemma setLinkColor_robot_works link_name color :
  works_on_robot (fun robot => setLinkColor_robot robot link_name color).
Proof.
  intros robot d. unfold setLinkColor_robot. exec.
  destruct robot as [r|]; simpl; [|split; [reflexivity|discriminate]].
  destruct (Robot_getLink r link_name); simpl;
    (split; [reflexivity|intros r' H; inversion H; reflexivity]).
Qed.

Lemma unsetLinkColor_robot_works link_name :
  works_on_robot (fun robot => unsetLinkColor_robot robot link_name).
Proof.
  intros robot d. unfold unsetLinkColor_robot. exec.
  destruct robot as [r|]; simpl; [|split; [reflexivity|discriminate]].
  destruct (Robot_getLink r link_name); simpl;
    (split; [reflexivity|intros r' H; inversion H; reflexivity]).
Qed.

Lemma for_each_link_works body links :
  (forall l, works_on_robot (fun robot => body robot l)) ->
  works_on_robot (fun robot => for_each_link body robot links).
Proof.
  intros Hb. induction links as [|l links IH]; intros robot d; simpl.
  - apply works_on_robot_ret.
  - unfold bind. destruct (Hb l robot d) as [Hs Hn].
    destruct (body robot l d) as [[r1|f] d1]; simpl in *; subst d1.
    + destruct (IH r1 d) as [Hs' Hn']. split; [exact Hs'|].
      intros r' H. rewrite (Hn' r' H). apply Hn. reflexivity.
    + split; [reflexivity|discriminate].
Qed.

(** The three functions that look up the links in the kinematic model:
    the lookup reads the display, the loop works on the robot. *)
Lemma model_lookup_works (body : KinematicModel -> option Robot -> M (option Robot)) :
  (forall k, works_on_robot (body k)) ->
  works_on_robot
    (fun robot =>
       ps <- getPlanningScene ;;
       if nonnull ps then
         km <- getKinematicModel ;;
         k <- deref "getKinematicModel()" km ;;
         body k robot
       else ret robot).
Proof.
  intros Hb robot d. unfold getPlanningScene, getKinematicModel.
  destruct d as [b p r nd g [m|] re t nr tr]; exec;
    [|apply (works_on_robot_ret robot)].
  destruct (psm_planning_scene m); exec; [|apply (works_on_robot_ret robot)].
  destruct (psm_kinematic_model m) as [k|]; exec;
    [apply Hb|split; [reflexivity|discriminate]].
Qed.

Lemma setGroupColor_works group_name color :
  works_on_robot (fun robot => setGroupColor robot group_name color).
Proof.
  apply (model_lookup_works
           (fun k robot =>
              match getJointModelGroup k group_name with
              | Some links =>
                  for_each_link (fun r l => setLinkColor_robot r l color) robot links
              | None => ret robot
              end)).
  intros k. destruct (getJointModelGroup k group_name) as [links|];
    [|apply works_on_robot_ret].
  apply for_each_link_works. intros l. apply setLinkColor_robot_works.
Qed.

Lemma unsetGroupColor_works group_name :
  works_on_robot (fun robot => unsetGroupColor robot group_name).
Proof.
  apply (model_lookup_works
           (fun k robot =>
              match getJointModelGroup k group_name with
              | Some links => for_each_link unsetLinkColor_robot robot links
              | None => ret robot
              end)).
  intros k. destruct (getJointModelGroup k group_name) as [links|];
    [|apply works_on_robot_ret].
  apply for_each_link_works. intros l. apply unsetLinkColor_robot_works.
Qed.

Lemma unsetAllColors_works : works_on_robot unsetAllColors.
Proof.
  apply (model_lookup_works
           (fun k robot =>
              for_each_link unsetLinkColor_robot robot
                (km_link_model_names_with_collision_geometry k))).
  intros k. apply for_each_link_works. intros l. apply unsetLinkColor_robot_works.
Qed.

(** What a call through a robot pointer does to the display: nothing, or it
    replaces the robot visual, which was there, by the changed one. *)
Lemma on_robot_pointer_display p f d :
  works_on_robot f ->
  snd (on_robot_pointer p f d) = d
  \/ (p = own_robot
      /\ exists r0 r,
           planning_scene_robot_ d = Some r0
           /\ on_robot_pointer p f d
              = (Returns (Some r), set_planning_scene_robot_ (Some r) d)).
Proof.
  intros Hf. destruct p as [|robot]; simpl; [|left; apply Hf].
  unfold bind, get, modify, ret.
  destruct (Hf (planning_scene_robot_ d) d) as [Hs Hn].
  destruct (f (planning_scene_robot_ d) d) as [[r|e] d1]; simpl in *; subst d1;
    [|left; reflexivity].
  specialize (Hn r eq_refl).
  destruct (planning_scene_robot_ d) as [r0|] eqn:Er, r as [r|]; try discriminate Hn.
  - right. split; [reflexivity|]. exists r0, r. split; reflexivity.
  - left. destruct d. simpl in *. subst. reflexivity.
Qed.

Lemma keeps_on_robot_pointer strict (I : PlanningSceneDisplay -> Prop) p f :
  works_on_robot f ->
  (forall r d r0, I d -> planning_scene_robot_ d = Some r0 ->
                  I (set_planning_scene_robot_ (Some r) d)) ->
  keeps strict I (on_robot_pointer p f).
Proof.
  intros Hf HI d H.
  destruct (on_robot_pointer_display p f d Hf) as [Hd|(_ & r0 & r & Er & Hd)].
  - rewrite Hd. destruct (fst _); auto.
  - rewrite Hd. simpl. exact (HI r d r0 H Er).
Qed.

Ltac robot_function :=
  first [ apply setLinkColor_robot_works | apply unsetLinkColor_robot_works
        | apply setGroupColor_works | apply unsetGroupColor_works
        | apply unsetAllColors_works ].

(** Goes through a member function along its syntax; what remains are the
    field updates, each to be shown to keep the invariant. *)
Ltac preserve_step :=
  lazymatch goal with
  | |- keeps _ _ (bind _ _) => apply keeps_bind; [|intros ?]
  | |- keeps _ _ (ret _) => apply keeps_ret
  | |- keeps _ _ get => apply keeps_get
  | |- keeps _ _ (fail _) => apply keeps_fail
  | |- keeps _ _ (throw _) => apply keeps_throw
  | |- keeps _ _ (deref _ _) => apply keeps_deref
  | |- keeps _ _ (try_catch_all _ _) => apply keeps_try_catch_all
  | |- keeps _ _ (try_catch_TransformException _ _) =>
      apply keeps_try_catch_TransformException
  | |- keeps _ _ (for_each_link _ _ _) => apply keeps_for_each_link; intros ? ?
  | |- keeps _ _ (modify _) => apply keeps_modify
  | |- keeps _ _ (on_monitor _) => apply keeps_on_monitor
  | |- keeps _ _ (on_robot _) => apply keeps_on_robot
  | |- keeps _ _ (on_robot_pointer (other_robot _) _) =>
      unfold on_robot_pointer; cbv beta iota
  | |- keeps _ _ (on_robot_pointer _ _) =>
      apply keeps_on_robot_pointer; [robot_function|intros ?]
  | |- keeps _ _ (on_geometry_node _) => apply keeps_on_geometry_node
  | |- keeps _ _ (on_scene_node _) => apply keeps_on_scene_node
  | |- keeps _ _ (scene_update_message _ _) =>
      apply keeps_scene_update_message; [|intros ?]
  | |- keeps _ _ (Display_load _) => apply keeps_Display_load; intros ?
  | |- keeps _ _ (call_all _ _) => apply keeps_call_all; intros ?
  | |- keeps _ _ (run ?o) => is_var o; destruct o
  | |- keeps _ _ (edit ?e) => is_var e; destruct e
  | |- keeps _ _ (call ?cb _) => is_var cb; destruct cb
  | |- keeps _ _ (if ?b then _ else _) => destruct b
  | |- keeps _ _ (match ?x with _ => _ end) => destruct x
  | |- keeps _ _ (let '(_, _) := ?x in _) => destruct x
  end.

(** Unfolds the member functions down to the monad's primitives;
    [loadRobotModel] and [renderPlanningScene] are left to
    [unfold_load_render]. *)
Ltac unfold_dispatch := unfold run, edit, load, save, call.

Ltac unfold_calls :=
  unfold onInitialize, reset, update, onEnable, onDisable, fixedFrameChanged,
    calculateOffsetPosition, sceneMonitorReceivedUpdate,
    onSceneMonitorReceivedUpdate, onRobotModelLoaded,
    setLinkColor, unsetLinkColor, setLinkColor_robot, unsetLinkColor_robot,
    setGroupColor, unsetGroupColor, unsetAllColors,
    changedAttachedBodyColor, changedSceneColor, changedRobotDescription,
    changedSceneName, changedRootLinkName, changedSceneAlpha,
    changedRobotSceneAlpha, changedPlanningSceneTopic, changedSceneDisplayTime,
    changedSceneRobotEnabled, changedSceneEnabled,
    on_planning_scene,
    setStatus, emit, ROS_ERROR, isEnabled, getPlanningScene, getKinematicModel,
    getPlanningSceneMonitor, queueRenderSceneGeometry, discard,
    Display_onInitialize, Display_reset, Display_onEnable, Display_onDisable,
    Display_update, Display_fixedFrameChanged.

Ltac unfold_load_render :=
  unfold loadRobotModel, renderPlanningScene, PlanningSceneRender_renderPlanningScene,
    lockScene, unlockScene.

(** Proves [preserves I c] for a member function [c]: facts in the context
    are used as they are, everything else is unfolded, and [tac] shows that
    a field update keeps [I]. *)
Ltac preserve_with tac :=
  repeat first
    [ assumption
    | solve [apply keeps_weaken; auto]
    | preserve_step
    | progress unfold_dispatch
    | progress unfold_calls
    | progress unfold_load_render
    | solve [intros ? ?; tac] ].

(** *** The configured minimum of the scene display time *)

Ltac props_frame :=
  idtac;
  match goal with
  | d : PlanningSceneDisplay |- _ =>
      destruct d as [? [] ? ? ? ? ? ? ? ?]; exec; auto
  end.

Lemma run_preserves_display_time_min o :
  preserves display_time_min_configured (run o).
Proof.
  unfold display_time_min_configured. preserve_with props_frame.
Qed.

Lemma reachable_display_time_min d :
  reachable d -> display_time_min_configured d.
Proof.
  apply (reachable_invariant true).
  - reflexivity.
  - apply run_preserves_display_time_min.
Qed.

(** *** A renderer only with a monitor *)

(** Case analysis on whatever the evaluation is stuck on. *)
Ltac case_split :=
  repeat match goal with
         | |- context [match ?x with _ => _ end] =>
             lazymatch x with
             | context [match _ with _ => _ end] => fail
             | _ => destruct x eqn:?; exec; try discriminate
             end
         end.

Lemma loadRobotModel_renderer_has_monitor :
  preserves renderer_has_monitor loadRobotModel.
Proof.
  apply always_preserves. intros d. unfold renderer_has_monitor, loadRobotModel, onRobotModelLoaded.
  destruct d as [b p r nd g mo re t nr tr]. exec.
  destruct (new_PlanningSceneMonitor _ _ _) as [[s|] [k|]]; exec;
    case_split; auto.
Qed.

Ltac pointers_frame :=
  idtac;
  match goal with
  | d : PlanningSceneDisplay |- _ =>
      destruct d as [? ? ? ? ? ? ? ? ? ?]; exec; intros; try discriminate; auto
  end.

Lemma run_preserves_renderer_has_monitor o :
  preserves renderer_has_monitor (run o).
Proof.
  pose proof loadRobotModel_renderer_has_monitor.
  unfold renderer_has_monitor in *. preserve_with pointers_frame.
Qed.

Lemma reachable_renderer_has_monitor d :
  reachable d -> renderer_has_monitor d.
Proof.
  apply (reachable_invariant true).
  - intros context name. unfold renderer_has_monitor. simpl. discriminate.
  - apply run_preserves_renderer_has_monitor.
Qed.

(** *** Render calls under the lock *)

Lemma renderPlanningScene_lock_discipline :
  preserves lock_discipline renderPlanningScene.
Proof.
  apply snd_preserves.
  intros d [Hl Hh]. destruct (renderPlanningScene_events d) as (evs & He & Hl' & Hh').
  unfold lock_discipline. rewrite He. split.
  - rewrite renders_locked_app, Hl, Hh. exact Hl'.
  - rewrite held_after_app, Hh. exact Hh'.
Qed.

Ltac trace_frame :=
  idtac;
  match goal with
  | d : PlanningSceneDisplay |- _ =>
      unfold lock_discipline in *;
      destruct d as [? ? ? ? ? ? ? ? ? ?]; exec;
      rewrite ?renders_locked_app, ?held_after_app; simpl;
      intuition (try congruence);
      repeat match goal with H : _ = _ |- _ => rewrite H end; reflexivity
  end.

Lemma run_preserves_lock_discipline o :
  preserves lock_discipline (run o).
Proof.
  pose proof renderPlanningScene_lock_discipline.
  preserve_with trace_frame.
Qed.

Lemma reachable_lock_discipline d :
  reachable d -> lock_discipline d.
Proof.
  apply (reachable_invariant true).
  - intros context name. split; reflexivity.
  - apply run_preserves_lock_discipline.
Qed.

(** A list of operations that all return leads from a reachable display to
    a reachable display. *)
Lemma reachable_run_all os : forall d d',
  reachable d -> run_all os d = (Returns tt, d') -> reachable d'.
Proof.
  induction os as [|o os IH]; intros d d' Hd Hrun; simpl in Hrun.
  - inversion Hrun; subst; exact Hd.
  - unfold bind in Hrun. destruct (run o d) as [[[]|f] d1] eqn:Ho; [|discriminate].
    apply (IH d1 d'); [|exact Hrun]. exact (reachable_run d o d1 Hd Ho).
Qed.

Lemma render_pass_events_eq d m :
  planning_scene_monitor_ d = Some m ->
  render_pass_events d
  = ([ev_lockScene; render_call d (psm_planning_scene m)]
     ++ (if renderer_throws d (psm_planning_scene m)
         then [ev_ROS_ERROR "Exception thrown while rendering planning scene"]
         else [])
     ++ [ev_unlockScene])%list.
Proof.
  intros Hm. unfold render_pass_events, render_call, renderer_throws.
  rewrite Hm. reflexivity.
Qed.

(** With the guard true and a monitor, the events of the pass are added to
    the trace even when the geometry node is not set. *)
Lemma renderPlanningScene_pass_trace d m :
  nonnull (planning_scene_render_ d) = true ->
  planning_scene_needs_render_ d = true ->
  planning_scene_monitor_ d = Some m ->
  trace (snd (renderPlanningScene d)) = (trace d ++ render_pass_events d)%list.
Proof.
  intros Hr Hn Hm. destruct d as [b p r nd g mo re t nr tr]. simpl in *. subst.
  destruct re as [rn|]; [|discriminate].
  unfold renderPlanningScene, render_pass_events, PlanningSceneRender_renderPlanningScene.
  exec.
  destruct (render_throws _ _ _ _ _ _); exec; destruct g as [n|]; exec;
    rewrite <- !app_assoc; reflexivity.
Qed.

(** No exception leaves [renderPlanningScene]. *)
Lemma renderPlanningScene_no_throw d e :
  fst (renderPlanningScene d) <> Fails (Thrown e).
Proof.
  destruct (nonnull (planning_scene_render_ d) && planning_scene_needs_render_ d)
    eqn:Hguard.
  2:{ rewrite (renderPlanningScene_skip d Hguard). discriminate. }
  apply andb_true_iff in Hguard as [Hr Hn].
  destruct d as [b p r nd g mo re t nr tr]. simpl in *. subst.
  destruct re as [rn|]; [|discriminate].
  unfold renderPlanningScene, PlanningSceneRender_renderPlanningScene.
  destruct mo as [m|]; exec; [|discriminate].
  destruct (render_throws _ _ _ _ _ _); exec; destruct g as [n|]; exec; discriminate.
Qed.

(** C1: in every reachable display on which [renderPlanningScene] forwards
    a render call (renderer non-null, needs-render flag set), the monitor
    exists and the call adds to the trace exactly: [lockScene], the render
    call on the monitor's scene, the error message if the renderer threw,
    [unlockScene]; so the lock is taken before the renderer reads the scene
    and released after it on the normal and on the throwing path.  For any
    display, the events [renderPlanningScene] adds keep every render call
    under the lock and end with the lock released; and in the whole trace of
    every reachable display no render call was made without the lock. *)
Theorem renderPlanningScene_holds_scene_lock (d : PlanningSceneDisplay) :
  reachable d ->
  (nonnull (planning_scene_render_ d) = true ->
   planning_scene_needs_render_ d = true ->
   exists m, planning_scene_monitor_ d = Some m /\
     trace (snd (renderPlanningScene d))
     = (trace d
        ++ [ev_lockScene; render_call d (psm_planning_scene m)]
        ++ (if renderer_throws d (psm_planning_scene m)
            then [ev_ROS_ERROR "Exception thrown while rendering planning scene"]
            else [])
        ++ [ev_unlockScene])%list)
  /\ (exists evs, trace (snd (renderPlanningScene d)) = (trace d ++ evs)%list
        /\ renders_locked false evs = true /\ held_after false evs = false)
  /\ renders_locked false (trace d) = true
  /\ held_after false (trace d) = false.
Proof.
  intros Hd. split; [|split].
  - intros Hr Hn.
    pose proof (reachable_renderer_has_monitor d Hd Hr) as Hm.
    destruct (planning_scene_monitor_ d) as [m|] eqn:Em; [|discriminate].
    exists m. split; [reflexivity|].
    rewrite (renderPlanningScene_pass_trace d m Hr Hn Em).
    rewrite (render_pass_events_eq d m Em). reflexivity.
  - apply renderPlanningScene_events.
  - exact (reachable_lock_discipline d Hd).
Qed.

Lemma Example_loaded_reachable throws : reachable (Example.loaded throws).
Proof.
  apply (reachable_run_all [op_onInitialize; op_setEnabled true]
           (Example.constructed throws)); [apply reachable_new|].
  destruct throws; vm_compute; reflexivity.
Qed.

Lemma Example_not_loaded_reachable : reachable Example.not_loaded.
Proof.
  apply (reachable_run_all [op_onInitialize; op_setEnabled true]
           (PlanningSceneDisplay_new Example.empty_context "Planning Scene"));
    [apply reachable_new|].
  vm_compute; reflexivity.
Qed.

Lemma renderPlanningScene_holds_scene_lock_witness :
  reachable (Example.loaded true)
  /\ nonnull (planning_scene_render_ (Example.loaded true)) = true
  /\ planning_scene_needs_render_ (Example.loaded true) = true
  /\ exists m, planning_scene_monitor_ (Example.loaded true) = Some m /\
       trace (snd (renderPlanningScene (Example.loaded true)))
       = (trace (Example.loaded true)
          ++ [ev_lockScene; render_call (Example.loaded true) (psm_planning_scene m)]
          ++ (if renderer_throws (Example.loaded true) (psm_planning_scene m)
              then [ev_ROS_ERROR "Exception thrown while rendering planning scene"]
              else [])
          ++ [ev_unlockScene])%list.
Proof.
  split; [apply Example_loaded_reachable|].
  split; [reflexivity|]. split; [reflexivity|].
  exact (proj1 (renderPlanningScene_holds_scene_lock (Example.loaded true)
                  (Example_loaded_reachable true)) eq_refl eq_refl).
Defined.

(** C2: when the renderer throws inside [renderPlanningScene] (guard true,
    monitor and geometry node set), [renderPlanningScene] returns: the
    exception is caught.  The trace gains the lock, the one render call, the
    error message and the unlock, nothing else: no second render call.  The
    needs-render flag is false and the monitor's lock is released
    afterwards.  Apart from the error message in the trace, the display is
    left exactly as by the same call with a renderer that returns.  And on
    no display at all does [renderPlanningScene] end with an exception. *)
Theorem renderPlanningScene_catches_renderer_exception
    (d : PlanningSceneDisplay) rn m n :
  planning_scene_render_ d = Some rn ->
  planning_scene_needs_render_ d = true ->
  planning_scene_monitor_ d = Some m ->
  planning_scene_geometry_node_ d = Some n ->
  renderer_throws d (psm_planning_scene m) = true ->
  let d_ok := set_base (set_context_ (renderer_returns (context_ (base d)))) d in
  exists d' d_ok',
    renderPlanningScene d = (Returns tt, d')
    /\ renderPlanningScene d_ok = (Returns tt, d_ok')
    /\ trace d' = (trace d ++
                   [ev_lockScene; render_call d (psm_planning_scene m);
                    ev_ROS_ERROR "Exception thrown while rendering planning scene";
                    ev_unlockScene])%list
    /\ trace d_ok' = (trace d ++
                   [ev_lockScene; render_call d (psm_planning_scene m);
                    ev_unlockScene])%list
    /\ planning_scene_needs_render_ d' = false
    /\ (exists m', planning_scene_monitor_ d' = Some m' /\ psm_scene_locked m' = false)
    /\ props d' = props d_ok'
    /\ planning_scene_robot_ d' = planning_scene_robot_ d_ok'
    /\ planning_scene_node_ d' = planning_scene_node_ d_ok'
    /\ planning_scene_geometry_node_ d' = planning_scene_geometry_node_ d_ok'
    /\ planning_scene_monitor_ d' = planning_scene_monitor_ d_ok'
    /\ planning_scene_render_ d' = planning_scene_render_ d_ok'
    /\ current_scene_time_ d' = current_scene_time_ d_ok'
    /\ planning_scene_needs_render_ d' = planning_scene_needs_render_ d_ok'
    /\ (forall d0 e, fst (renderPlanningScene d0) <> Fails (Thrown e)).
Proof.
  intros Hr Hn Hm Hg Ht d_ok.
  exists (after_render_pass d m n), (after_render_pass d_ok m n).
  split; [exact (renderPlanningScene_pass d rn m n Hr Hn Hm Hg)|].
  split; [apply (renderPlanningScene_pass d_ok rn m n); assumption|].
  split.
  { unfold after_render_pass; simpl. rewrite (render_pass_events_eq d m Hm), Ht.
    reflexivity. }
  split.
  { unfold after_render_pass; simpl.
    rewrite (render_pass_events_eq d_ok m Hm). reflexivity. }
  split; [reflexivity|].
  split; [exists (psm_set_locked m false); split; reflexivity|].
  repeat (split; [reflexivity|]).
  apply renderPlanningScene_no_throw.
Qed.

Lemma renderPlanningScene_catches_renderer_exception_witness :
  exists d' m',
    renderPlanningScene (Example.loaded true) = (Returns tt, d')
    /\ planning_scene_needs_render_ d' = false
    /\ planning_scene_monitor_ d' = Some m' /\ psm_scene_locked m' = false.
Proof.
  destruct (planning_scene_render_ (Example.loaded true)) as [rn|] eqn:Er;
    [|discriminate Er].
  destruct (planning_scene_monitor_ (Example.loaded true)) as [m|] eqn:Em;
    [|discriminate Em].
  destruct (planning_scene_geometry_node_ (Example.loaded true)) as [n|] eqn:Eg;
    [|discriminate Eg].
  assert (Ht : renderer_throws (Example.loaded true) (psm_planning_scene m) = true)
    by reflexivity.
  destruct (renderPlanningScene_catches_renderer_exception (Example.loaded true)
              rn m n Er eq_refl Em Eg Ht)
    as (d' & d_ok' & H1 & _ & _ & _ & H2 & (m' & H3 & H4) & _).
  exists d', m'. auto.
Defined.

(** C4: [changedSceneAlpha], [changedSceneColor] and
    [changedAttachedBodyColor] return with [planning_scene_needs_render_]
    true and every other field of the display as it was; and an edit of the
    scene alpha, scene color or attached-body color property, which runs
    the handler, leaves the flag true. *)
Theorem scene_geometry_property_change_queues_render (d : PlanningSceneDisplay) :
  changedSceneAlpha d = (Returns tt, set_planning_scene_needs_render_ true d)
  /\ changedSceneColor d = (Returns tt, set_planning_scene_needs_render_ true d)
  /\ changedAttachedBodyColor d = (Returns tt, set_planning_scene_needs_render_ true d)
  /\ (let d' := set_planning_scene_needs_render_ true d in
      planning_scene_needs_render_ d' = true
      /\ base d' = base d /\ props d' = props d
      /\ planning_scene_robot_ d' = planning_scene_robot_ d
      /\ planning_scene_node_ d' = planning_scene_node_ d
      /\ planning_scene_geometry_node_ d' = planning_scene_geometry_node_ d
      /\ planning_scene_monitor_ d' = planning_scene_monitor_ d
      /\ planning_scene_render_ d' = planning_scene_render_ d
      /\ current_scene_time_ d' = current_scene_time_ d
      /\ trace d' = trace d)
  /\ (forall v, fst (edit (edit_scene_alpha v) d) = Returns tt
        /\ planning_scene_needs_render_ (snd (edit (edit_scene_alpha v) d)) = true)
  /\ (forall v, fst (edit (edit_scene_color v) d) = Returns tt
        /\ planning_scene_needs_render_ (snd (edit (edit_scene_color v) d)) = true)
  /\ (forall v, fst (edit (edit_attached_body_color v) d) = Returns tt
        /\ planning_scene_needs_render_ (snd (edit (edit_attached_body_color v) d)) = true).
Proof.
  repeat split; reflexivity.
Qed.

(** ** Loading the robot model *)

Lemma loadRobotModel_failure d :
  scene_configured d = false ->
  loadRobotModel d = (Returns tt, after_failed_load d).
Proof.
  unfold scene_configured, constructed_monitor, loadRobotModel, after_failed_load.
  destruct d as [b p r nd g mo re t nr tr]. exec.
  destruct (new_PlanningSceneMonitor _ _ _) as [[s|] k]; exec; intros H;
    [rewrite H|]; reflexivity.
Qed.

Lemma loadRobotModel_success d s k u r :
  constructed_monitor d = (Some s, Some k) ->
  ps_configured s = true ->
  km_urdf k = Some u ->
  planning_scene_robot_ d = Some r ->
  loadRobotModel d = (Returns tt, after_successful_load d s k u r).
Proof.
  unfold constructed_monitor, loadRobotModel, onRobotModelLoaded, after_successful_load.
  destruct d as [b p r0 nd g mo re t nr tr]. exec.
  intros -> Hc Hu ->. exec. rewrite Hc. exec. rewrite Hu. exec. reflexivity.
Qed.

(** Whenever [loadRobotModel] returns, it went through one of the two
    branches to its end. *)
Lemma loadRobotModel_returns d d' :
  loadRobotModel d = (Returns tt, d') ->
  (scene_configured d = false /\ d' = after_failed_load d)
  \/ (exists s k u r,
        constructed_monitor d = (Some s, Some k) /\ ps_configured s = true
        /\ km_urdf k = Some u /\ planning_scene_robot_ d = Some r
        /\ d' = after_successful_load d s k u r).
Proof.
  unfold scene_configured, constructed_monitor, loadRobotModel, onRobotModelLoaded,
    after_failed_load, after_successful_load.
  destruct d as [b p r0 nd g mo re t nr tr]. exec.
  destruct (new_PlanningSceneMonitor _ _ _) as [[s|] [k|]]; exec;
    try (destruct (ps_configured s) eqn:Hc; exec);
    try (destruct (km_urdf k) as [u|] eqn:Hu; exec);
    try (destruct r0 as [r|]; exec);
    intros H; inversion H; subst; clear H;
    try (left; split; reflexivity).
  right. exists s, k, u, r. rewrite Hc, Hu. repeat split; reflexivity.
Qed.

(** C3: [loadRobotModel] ends with a status under "PlanningScene" in both
    branches.  If the scene of the newly constructed monitor is missing or
    not configured, it returns with the monitor and the renderer null and
    the status Error, "No Planning Scene Loaded".  If the scene exists and
    is configured (and the model with its URDF and the robot visual are
    there for [onRobotModelLoaded]), it returns with the update callback
    registered at the monitor, the monitor started on the topic of the
    property, a renderer, and the status Ok, "Planning Scene Loaded
    Successfully".  Every return of [loadRobotModel] is one of these two. *)
Theorem loadRobotModel_reports_status (d : PlanningSceneDisplay) :
  (scene_configured d = false ->
   exists d', loadRobotModel d = (Returns tt, d')
     /\ planning_scene_monitor_ d' = None
     /\ planning_scene_render_ d' = None
     /\ PlanningScene_status d' = Some (StatusError, "No Planning Scene Loaded"))
  /\ (forall s k u r,
        constructed_monitor d = (Some s, Some k) ->
        ps_configured s = true ->
        km_urdf k = Some u ->
        planning_scene_robot_ d = Some r ->
        exists d' m, loadRobotModel d = (Returns tt, d')
          /\ planning_scene_monitor_ d' = Some m
          /\ psm_update_callbacks m = [bind_sceneMonitorReceivedUpdate]
          /\ psm_scene_topic m = Some (planning_scene_topic_property_ (props d))
          /\ planning_scene_render_ d' = Some mkPlanningSceneRender
          /\ PlanningScene_status d'
             = Some (StatusOk, "Planning Scene Loaded Successfully"))
  /\ (forall d', loadRobotModel d = (Returns tt, d') ->
        (scene_configured d = false
         /\ planning_scene_monitor_ d' = None /\ planning_scene_render_ d' = None
         /\ PlanningScene_status d' = Some (StatusError, "No Planning Scene Loaded"))
        \/ (scene_configured d = true
            /\ nonnull (planning_scene_monitor_ d') = true
            /\ nonnull (planning_scene_render_ d') = true
            /\ PlanningScene_status d'
               = Some (StatusOk, "Planning Scene Loaded Successfully"))).
Proof.
  split; [|split].
  - intros Hc. exists (after_failed_load d).
    split; [exact (loadRobotModel_failure d Hc)|].
    repeat split. unfold PlanningScene_status; simpl. apply lookup_insert_eq.
  - intros s k u r Em Hc Hu Hr.
    eexists (after_successful_load d s k u r), _.
    split; [exact (loadRobotModel_success d s k u r Em Hc Hu Hr)|].
    split; [reflexivity|]. repeat split.
    unfold PlanningScene_status; simpl. apply lookup_insert_eq.
  - intros d' H. destruct (loadRobotModel_returns d d' H)
      as [[Hc ->]|(s & k & u & r & Em & Hc & Hu & Hr & ->)].
    + left. repeat split; auto. unfold PlanningScene_status; simpl.
      apply lookup_insert_eq.
    + right. unfold scene_configured. rewrite Em. simpl. repeat split; auto.
      unfold PlanningScene_status; simpl. apply lookup_insert_eq.
Qed.

(** *** The update callback of the display's monitor *)

Lemma loadRobotModel_callback_registered :
  preserves callback_registered loadRobotModel.
Proof.
  apply always_preserves. intros d. unfold callback_registered, loadRobotModel, onRobotModelLoaded.
  destruct d as [b p r nd g mo re t nr tr]. exec.
  destruct (new_PlanningSceneMonitor _ _ _) as [[s|] [k|]]; exec;
    case_split; intros m H; inversion H; reflexivity.
Qed.

Ltac monitor_frame :=
  idtac;
  match goal with
  | d : PlanningSceneDisplay |- _ =>
      unfold callback_registered in *;
      destruct d as [? ? ? ? ? ? ? ? ? ?]; exec;
      intros; subst;
      repeat match goal with
             | H : Some _ = Some _ |- _ => inversion H; subst; clear H
             end;
      simpl; try discriminate; auto
  end.

Lemma run_preserves_callback_registered o :
  preserves callback_registered (run o).
Proof.
  pose proof loadRobotModel_callback_registered.
  preserve_with monitor_frame.
Qed.

Lemma reachable_callback_registered d :
  reachable d -> callback_registered d.
Proof.
  apply (reachable_invariant true).
  - intros context name m H. discriminate H.
  - apply run_preserves_callback_registered.
Qed.

Lemma loadRobotModel_reports_status_witness :
  constructed_monitor (Example.loaded false) = (Some Example.scene, Some Example.model)
  /\ ps_configured Example.scene = true
  /\ exists d' m,
        loadRobotModel (Example.loaded false) = (Returns tt, d')
        /\ planning_scene_monitor_ d' = Some m
        /\ psm_update_callbacks m = [bind_sceneMonitorReceivedUpdate]
        /\ psm_scene_topic m = Some "planning_scene"
        /\ planning_scene_render_ d' = Some mkPlanningSceneRender
        /\ PlanningScene_status d' = Some (StatusOk, "Planning Scene Loaded Successfully").
Proof.
  split; [reflexivity|]. split; [reflexivity|].
  destruct (planning_scene_robot_ (Example.loaded false)) as [r|] eqn:Er;
    [|discriminate Er].
  exact (proj1 (proj2 (loadRobotModel_reports_status (Example.loaded false)))
           Example.scene Example.model (mkURDF ["base_link"; "shoulder"; "elbow"]) r
           eq_refl eq_refl eq_refl Er).
Defined.

Lemma sceneMonitorReceivedUpdate_refreshes d m s k update_type :
  planning_scene_monitor_ d = Some m ->
  psm_planning_scene m = Some s ->
  psm_kinematic_model m = Some k ->
  sceneMonitorReceivedUpdate update_type d = (Returns tt, after_scene_update d s k).
Proof.
  unfold sceneMonitorReceivedUpdate, onSceneMonitorReceivedUpdate, after_scene_update.
  destruct d as [b p r nd g mo re t nr tr]. exec.
  intros -> Hs Hk. exec. rewrite Hs. exec. rewrite Hk. reflexivity.
Qed.

Lemma scene_update_message_delivers d m k scene update_type :
  planning_scene_monitor_ d = Some m ->
  psm_update_callbacks m = [bind_sceneMonitorReceivedUpdate] ->
  psm_kinematic_model m = Some k ->
  scene_update_message scene update_type d
  = (Returns tt,
     after_scene_update
       (set_planning_scene_monitor_ (Some (psm_set_planning_scene m (Some scene))) d)
       scene k).
Proof.
  unfold scene_update_message, after_scene_update.
  destruct d as [b p r nd g mo re t nr tr]. exec.
  intros -> Hcb Hk. rewrite Hcb. simpl.
  unfold call, sceneMonitorReceivedUpdate, onSceneMonitorReceivedUpdate. exec.
  rewrite Hk. reflexivity.
Qed.

(** ** Link colors *)

(** C10: for a link name that the robot visual does not have, the
    robot-parameterised [setLinkColor] and [unsetLinkColor] return the robot
    as it was, and the single-argument forms, which go through
    [planning_scene_robot_], return the display as it was: no failure, no
    link changed.  For a link the robot has, only that link changes: it
    gets the color, or loses it, and every other link is as before. *)
Theorem link_color_of_missing_link_is_noop
    (d : PlanningSceneDisplay) (r : Robot) (link_name : string) (color : QColor) :
  Robot_getLink r link_name = None ->
  setLinkColor_robot (Some r) link_name color d = (Returns (Some r), d)
  /\ unsetLinkColor_robot (Some r) link_name d = (Returns (Some r), d)
  /\ (planning_scene_robot_ d = Some r ->
      setLinkColor link_name color d = (Returns tt, d)
      /\ unsetLinkColor link_name d = (Returns tt, d))
  /\ (forall (r0 : Robot) (l0 : string) (link : RobotLink),
        Robot_getLink r0 l0 = Some link ->
        exists r1 r2,
          setLinkColor_robot (Some r0) l0 color d = (Returns (Some r1), d)
          /\ unsetLinkColor_robot (Some r0) l0 d = (Returns (Some r2), d)
          /\ Robot_getLink r1 l0
             = Some (mkRobotLink (Some (rviz_Color_of color)))
          /\ Robot_getLink r2 l0 = Some (mkRobotLink None)
          /\ (forall other, other <> l0 ->
                Robot_getLink r1 other = Robot_getLink r0 other
                /\ Robot_getLink r2 other = Robot_getLink r0 other)).
Proof.
  intros Hl. split; [|split; [|split]].
  - unfold setLinkColor_robot. exec. rewrite Hl. reflexivity.
  - unfold unsetLinkColor_robot. exec. rewrite Hl. reflexivity.
  - intros Hr. unfold setLinkColor, unsetLinkColor, setLinkColor_robot,
      unsetLinkColor_robot.
    destruct d as [b p r0 nd g mo re t nr tr]. exec. subst. exec.
    rewrite Hl. split; reflexivity.
  - intros r0 l0 link Hl0.
    exists (Robot_putLink r0 l0
              (RobotLink_setColor link (Float.of_double (redF color))
                 (Float.of_double (greenF color)) (Float.of_double (blueF color)))),
           (Robot_putLink r0 l0 (RobotLink_unsetColor link)).
    split; [unfold setLinkColor_robot; exec; rewrite Hl0; reflexivity|].
    split; [unfold unsetLinkColor_robot; exec; rewrite Hl0; reflexivity|].
    unfold Robot_getLink, Robot_putLink; simpl.
    split; [apply lookup_insert_eq|]. split; [apply lookup_insert_eq|].
    intros other Hne. split; apply lookup_insert_ne; congruence.
Qed.

Lemma link_color_of_missing_link_is_noop_witness :
  Robot_getLink new_Robot "gripper" = None
  /\ setLinkColor_robot (Some new_Robot) "gripper" (mkQColor 255 0 0)
       (Example.loaded false)
     = (Returns (Some new_Robot), Example.loaded false)
  /\ unsetLinkColor_robot (Some new_Robot) "gripper" (Example.loaded false)
     = (Returns (Some new_Robot), Example.loaded false).
Proof.
  assert (H : Robot_getLink new_Robot "gripper" = None) by reflexivity.
  split; [exact H|].
  destruct (link_color_of_missing_link_is_noop (Example.loaded false) new_Robot
              "gripper" (mkQColor 255 0 0) H) as (H1 & H2 & _).
  split; assumption.
Defined.

(** ** Null checks *)

(** C6, as amended: [getPlanningScene] and [getKinematicModel] return the
    empty pointer on a display without a monitor; on such a display
    [changedPlanningSceneTopic], [calculateOffsetPosition] and [update]
    return the display unchanged; when [getPlanningScene()] is null,
    [changedSceneName], [changedRootLinkName], [setGroupColor],
    [unsetGroupColor] and [unsetAllColors] return with nothing changed.
    [onSceneMonitorReceivedUpdate] (so the callback
    [sceneMonitorReceivedUpdate]) and [onRobotModelLoaded] have no check:
    on a display without a monitor they dereference the null pointer. *)
Theorem null_checks_of_planning_scene_display (d : PlanningSceneDisplay) :
  (planning_scene_monitor_ d = None ->
     getPlanningScene d = (Returns None, d)
     /\ getKinematicModel d = (Returns None, d)
     /\ changedPlanningSceneTopic d = (Returns tt, d)
     /\ calculateOffsetPosition d = (Returns tt, d)
     /\ (forall wall_dt ros_dt, update wall_dt ros_dt d = (Returns tt, d)))
  /\ (getPlanningScene d = (Returns None, d) ->
      changedSceneName d = (Returns tt, d)
      /\ changedRootLinkName d = (Returns tt, d)
      /\ (forall robot group_name color,
            setGroupColor robot group_name color d = (Returns robot, d))
      /\ (forall robot group_name,
            unsetGroupColor robot group_name d = (Returns robot, d))
      /\ (forall robot, unsetAllColors robot d = (Returns robot, d)))
  /\ (planning_scene_monitor_ d = None ->
      (forall update_type,
         onSceneMonitorReceivedUpdate update_type d
         = (Fails (NullDereference "getPlanningScene()"), d)
         /\ sceneMonitorReceivedUpdate update_type d
            = (Fails (NullDereference "getPlanningScene()"), d))
      /\ onRobotModelLoaded d = (Fails (NullDereference "getKinematicModel()"), d))
  /\ (exists ps km, getPlanningScene d = (Returns ps, d)
                    /\ getKinematicModel d = (Returns km, d)).
Proof.
  destruct d as [b p r nd g mo re t nr tr].
  split; [|split; [|split]].
  - simpl. intros ->.
    unfold changedPlanningSceneTopic, calculateOffsetPosition, update.
    repeat split; reflexivity.
  - unfold changedSceneName, changedRootLinkName, setGroupColor, unsetGroupColor,
      unsetAllColors.
    destruct mo as [m|]; exec; intros H.
    + inversion H as [Hs]. rewrite !Hs. repeat split; reflexivity.
    + repeat split; reflexivity.
  - simpl. intros ->.
    unfold sceneMonitorReceivedUpdate, onSceneMonitorReceivedUpdate, onRobotModelLoaded.
    repeat split; reflexivity.
  - destruct mo as [m|]; eexists _, _; split; reflexivity.
Qed.

Lemma null_checks_of_planning_scene_display_witness :
  planning_scene_monitor_ Example.not_loaded = None
  /\ getPlanningScene Example.not_loaded = (Returns None, Example.not_loaded)
  /\ update Float.one Float.one Example.not_loaded = (Returns tt, Example.not_loaded).
Proof.
  assert (H : planning_scene_monitor_ Example.not_loaded = None) by reflexivity.
  split; [exact H|].
  destruct (proj1 (null_checks_of_planning_scene_display Example.not_loaded) H)
    as (H1 & _ & _ & _ & H2).
  split; [exact H1|apply H2].
Defined.

(** C6 as stated fails: on a reachable display without a monitor (the load
    found no planning scene), the operation [onSceneMonitorReceivedUpdate]
    dereferences the null planning scene. *)
Lemma some_operation_dereferences_null :
  ~ (forall o d, reachable d ->
       forall pointer, fst (run o d) <> Fails (NullDereference pointer)).
Proof.
  intros H.
  apply (H (op_onSceneMonitorReceivedUpdate UPDATE_SCENE) Example.not_loaded
           Example_not_loaded_reachable "getPlanningScene()").
  reflexivity.
Qed.

(** *** What a returned load leaves behind *)

Lemma loadRobotModel_loaded_invariant :
  preserves_on_return loaded_invariant loadRobotModel.
Proof.
  intros d (Hg & Hr & Hm).
  destruct (loadRobotModel d) as [[[]|f] d'] eqn:Hl; simpl; [|discriminate].
  destruct (loadRobotModel_returns d d' Hl)
    as [[Hc ->]|(s & k & u & r & Em & Hc & Hu & Er & ->)];
    unfold loaded_invariant; simpl.
  - split; [exact Hg|]. split; intros; discriminate.
  - rewrite Er in Hg. split; [intros _; apply Hg; reflexivity|].
    split; [reflexivity|].
    intros m0 H0. inversion H0. split; reflexivity.
Qed.

Lemma onInitialize_loaded_invariant :
  preserves loaded_invariant onInitialize.
Proof.
  apply snd_preserves. intros d (Hg & Hr & Hm). unfold onInitialize.
  destruct d as [b p r nd g mo re t nr tr]. exec.
  unfold loaded_invariant; simpl. auto.
Qed.

Lemma setLinkColor_loaded_invariant link_name color :
  preserves loaded_invariant (setLinkColor link_name color).
Proof.
  apply snd_preserves. intros d. unfold loaded_invariant, setLinkColor, setLinkColor_robot.
  destruct d as [b p r nd g mo re t nr tr]. exec.
  destruct r as [r|]; exec; [|auto].
  destruct (Robot_getLink r link_name); exec; auto.
Qed.

Lemma unsetLinkColor_loaded_invariant link_name :
  preserves loaded_invariant (unsetLinkColor link_name).
Proof.
  apply snd_preserves. intros d. unfold loaded_invariant, unsetLinkColor,
    unsetLinkColor_robot.
  destruct d as [b p r nd g mo re t nr tr]. exec.
  destruct r as [r|]; exec; [|auto].
  destruct (Robot_getLink r link_name); exec; auto.
Qed.

Ltac clear_kept :=
  repeat match goal with
         | H : keeps _ _ _ |- _ => clear H
         | H : forall _, keeps _ _ _ |- _ => clear H
         | H : forall _ _, keeps _ _ _ |- _ => clear H
         end.

(** [naive_solver] clears hypotheses that are already gone. *)
#[local] Set Warnings "-clear-no-such-hyp".

Ltac loaded_frame :=
  idtac;
  match goal with
  | d : PlanningSceneDisplay |- _ =>
      clear_kept;
      unfold loaded_invariant in *;
      destruct d as [? ? ? ? ? ? ? ? ? ?]; simpl in *;
      unfold_setters; simpl in *;
      intros; subst; solve [naive_solver]
  end.

Lemma run_keeps_loaded_invariant o :
  preserves_on_return loaded_invariant (run o).
Proof.
  pose proof loadRobotModel_loaded_invariant.
  pose proof onInitialize_loaded_invariant.
  pose proof setLinkColor_loaded_invariant.
  pose proof unsetLinkColor_loaded_invariant.
  preserve_with loaded_frame.
Qed.

Lemma reachable_loaded_invariant d :
  reachable d -> loaded_invariant d.
Proof.
  apply (reachable_invariant false).
  - intros context name. unfold loaded_invariant. simpl.
    repeat split; intros; discriminate.
  - apply run_keeps_loaded_invariant.
Qed.

(** ** Rendering in reachable displays *)

(** With the invariants, so in a reachable display, [renderPlanningScene]
    returns: with the guard false it does nothing, with the guard true the
    monitor and the geometry node are there. *)
Lemma renderPlanningScene_returns d :
  renderer_has_monitor d -> loaded_invariant d ->
  exists d', renderPlanningScene d = (Returns tt, d').
Proof.
  intros Hinv (Hg & Hrob & _).
  destruct (nonnull (planning_scene_render_ d) && planning_scene_needs_render_ d)
    eqn:Hguard.
  2:{ exists d. exact (renderPlanningScene_skip d Hguard). }
  apply andb_true_iff in Hguard as [Hr Hn].
  pose proof (Hinv Hr) as Hm.
  destruct (Hg (Hrob Hr)) as [Hgeo _].
  destruct (planning_scene_render_ d) as [rn|] eqn:Er; [|discriminate].
  destruct (planning_scene_monitor_ d) as [m|] eqn:Em; [|discriminate].
  destruct (planning_scene_geometry_node_ d) as [n|] eqn:En; [|discriminate].
  exists (after_render_pass d m n).
  exact (renderPlanningScene_pass d rn m n Er Hn Em En).
Qed.

Lemma reachable_renderPlanningScene_returns d :
  reachable d -> exists d', renderPlanningScene d = (Returns tt, d').
Proof.
  intros Hd. apply renderPlanningScene_returns.
  - exact (reachable_renderer_has_monitor d Hd).
  - exact (reachable_loaded_invariant d Hd).
Qed.

(** C8: in every reachable display a non-null renderer comes with a
    non-null monitor; so [renderPlanningScene], whose [lockScene] and
    [unlockScene] calls have no check of the monitor, does not dereference
    a null monitor there: it returns, and whenever its guard holds both
    calls were made on the monitor the display holds. *)
Theorem renderer_implies_monitor (d : PlanningSceneDisplay) :
  reachable d ->
  (nonnull (planning_scene_render_ d) = true ->
   nonnull (planning_scene_monitor_ d) = true)
  /\ (exists d', renderPlanningScene d = (Returns tt, d'))
  /\ (forall pointer, fst (renderPlanningScene d) <> Fails (NullDereference pointer))
  /\ (nonnull (planning_scene_render_ d) = true ->
      planning_scene_needs_render_ d = true ->
      exists m d1,
        planning_scene_monitor_ d = Some m
        /\ lockScene d = (Returns tt, d1)
        /\ planning_scene_monitor_ d1 = Some (psm_set_locked m true)
        /\ exists call errors,
             is_render call = true
             /\ trace (snd (renderPlanningScene d))
                = (trace d ++ [ev_lockScene; call] ++ errors ++ [ev_unlockScene])%list).
Proof.
  intros Hd.
  pose proof (reachable_renderer_has_monitor d Hd) as Hinv.
  destruct (reachable_renderPlanningScene_returns d Hd) as [d' Hret].
  split; [exact Hinv|]. split; [exists d'; exact Hret|].
  split; [intros pointer; rewrite Hret; discriminate|].
  intros Hr Hn. specialize (Hinv Hr).
  destruct (planning_scene_monitor_ d) as [m|] eqn:Em; [|discriminate].
  exists m, (set_trace (fun t => (t ++ [ev_lockScene])%list)
               (set_planning_scene_monitor_ (Some (psm_set_locked m true)) d)).
  split; [reflexivity|]. split.
  { unfold lockScene. exec. rewrite Em. reflexivity. }
  split; [reflexivity|].
  eexists _, _. split; [|rewrite (renderPlanningScene_pass_trace d m Hr Hn Em);
                         rewrite (render_pass_events_eq d m Em); reflexivity].
  reflexivity.
Qed.

Lemma renderer_implies_monitor_witness :
  reachable (Example.loaded false)
  /\ nonnull (planning_scene_render_ (Example.loaded false)) = true
  /\ nonnull (planning_scene_monitor_ (Example.loaded false)) = true
  /\ exists d', renderPlanningScene (Example.loaded false) = (Returns tt, d').
Proof.
  split; [apply Example_loaded_reachable|]. split; [reflexivity|].
  destruct (renderer_implies_monitor (Example.loaded false)
              (Example_loaded_reachable false)) as (H1 & H2 & _).
  split; [exact (H1 eq_refl)|exact H2].
Defined.

(** C5: in every reachable display that holds a monitor, that is after a
    successful load, the monitor's update callback is the display's
    [sceneMonitorReceivedUpdate], and the monitor has a scene and a
    kinematic model.  A scene-update message delivered to such a display
    through the monitor's callbacks returns with the scene-name property
    equal to the name of the monitor's current scene, the root-link-name
    property equal to the root link of the kinematic model, and the
    needs-render flag set; calling [sceneMonitorReceivedUpdate] directly
    does the same with the scene the monitor holds, and changes nothing
    else. *)
Theorem scene_update_refreshes_names_and_queues_render
    (d : PlanningSceneDisplay) (m : PlanningSceneMonitor) :
  reachable d ->
  planning_scene_monitor_ d = Some m ->
  psm_update_callbacks m = [bind_sceneMonitorReceivedUpdate]
  /\ exists s k,
       psm_planning_scene m = Some s /\ psm_kinematic_model m = Some k
       /\ (forall scene update_type,
             exists d', scene_update_message scene update_type d = (Returns tt, d')
               /\ scene_name_property_ (props d') = ps_name scene
               /\ root_link_name_property_ (props d') = km_root_link_name k
               /\ planning_scene_needs_render_ d' = true
               /\ planning_scene_monitor_ d'
                  = Some (psm_set_planning_scene m (Some scene)))
       /\ (forall update_type,
             exists d', sceneMonitorReceivedUpdate update_type d = (Returns tt, d')
               /\ scene_name_property_ (props d') = ps_name s
               /\ root_link_name_property_ (props d') = km_root_link_name k
               /\ planning_scene_needs_render_ d' = true
               /\ planning_scene_monitor_ d' = planning_scene_monitor_ d
               /\ planning_scene_render_ d' = planning_scene_render_ d
               /\ planning_scene_robot_ d' = planning_scene_robot_ d
               /\ current_scene_time_ d' = current_scene_time_ d
               /\ trace d' = trace d).
Proof.
  intros Hd Hm.
  pose proof (reachable_callback_registered d Hd m Hm) as Hcb.
  destruct (reachable_loaded_invariant d Hd) as (_ & _ & Hl).
  destruct (Hl m Hm) as [Hs Hk].
  destruct (psm_planning_scene m) as [s|] eqn:Es; [|discriminate].
  destruct (psm_kinematic_model m) as [k|] eqn:Ek; [|discriminate].
  split; [exact Hcb|]. exists s, k. split; [reflexivity|]. split; [reflexivity|].
  split.
  - intros scene update_type.
    eexists. split.
    + exact (scene_update_message_delivers d m k scene update_type Hm Hcb Ek).
    + repeat split; reflexivity.
  - intros update_type. exists (after_scene_update d s k).
    split; [exact (sceneMonitorReceivedUpdate_refreshes d m s k update_type Hm Es Ek)|].
    repeat split; reflexivity.
Qed.

Lemma scene_update_refreshes_names_and_queues_render_witness :
  reachable (Example.loaded false)
  /\ exists m d',
       planning_scene_monitor_ (Example.loaded false) = Some m
       /\ psm_update_callbacks m = [bind_sceneMonitorReceivedUpdate]
       /\ scene_update_message
            (mkPlanningScene "cupboard" true "odom" (mkKinematicState []))
            UPDATE_SCENE (Example.loaded false) = (Returns tt, d')
       /\ scene_name_property_ (props d') = "cupboard"
       /\ planning_scene_needs_render_ d' = true.
Proof.
  split; [apply Example_loaded_reachable|].
  destruct (planning_scene_monitor_ (Example.loaded false)) as [m|] eqn:Em;
    [|discriminate Em].
  destruct (scene_update_refreshes_names_and_queues_render
              (Example.loaded false) m (Example_loaded_reachable false) Em)
    as (Hcb & s & k & _ & _ & Hmsg & _).
  destruct (Hmsg (mkPlanningScene "cupboard" true "odom" (mkKinematicState []))
              UPDATE_SCENE) as (d' & H1 & H2 & _ & H4 & _).
  exists m, d'. auto.
Defined.

(** ** The bookkeeping fields *)

Ltac field_frame :=
  idtac;
  match goal with
  | d : PlanningSceneDisplay |- _ =>
      clear_kept; destruct d as [? ? ? ? ? ? ? ? ? ?]; simpl in *;
      unfold_setters; simpl in *; intros; subst; solve [auto]
  end.

Lemma renderPlanningScene_keeps_time v :
  preserves (fun d => current_scene_time_ d = v) renderPlanningScene.
Proof. preserve_with field_frame. Qed.

Lemma loadRobotModel_keeps_time v :
  preserves (fun d => current_scene_time_ d = v) loadRobotModel.
Proof. preserve_with field_frame. Qed.

Lemma loadRobotModel_keeps_needs_render v :
  preserves (fun d => planning_scene_needs_render_ d = v) loadRobotModel.
Proof. preserve_with field_frame. Qed.

(** Only [update] writes the accumulated scene time. *)
Lemma run_keeps_time o v :
  is_update o = false ->
  preserves (fun d => current_scene_time_ d = v) (run o).
Proof.
  intros Ho.
  pose proof (renderPlanningScene_keeps_time v).
  pose proof (loadRobotModel_keeps_time v).
  destruct o; try discriminate Ho; preserve_with field_frame.
Qed.

Lemma run_keeps_needs_render o v :
  writes_needs_render o = false ->
  preserves (fun d => planning_scene_needs_render_ d = v) (run o).
Proof.
  intros Ho.
  pose proof (loadRobotModel_keeps_needs_render v).
  destruct o; try discriminate Ho;
    try (match goal with e : property_edit |- _ =>
           destruct e; try discriminate Ho end);
    preserve_with field_frame.
Qed.

Lemma run_read_only o d0 :
  read_only o = true ->
  preserves (fun d => d = d0) (run o).
Proof.
  intros Ho. destruct o; try discriminate Ho;
    try (match goal with p : RobotPointer |- _ =>
           destruct p; try discriminate Ho end);
    preserve_with field_frame.
Qed.

(** A function on a robot called on the display's own robot visual changes
    that robot and nothing else of the display. *)
Lemma run_on_own_robot o d :
  on_own_robot o = true ->
  snd (run o d) = d
  \/ exists r0 r,
       planning_scene_robot_ d = Some r0
       /\ run o d = (Returns tt, set_planning_scene_robot_ (Some r) d).
Proof.
  intros Ho.
  assert (H : forall f, works_on_robot f ->
            snd (discard (on_robot_pointer own_robot f) d) = d
            \/ exists r0 r,
                 planning_scene_robot_ d = Some r0
                 /\ discard (on_robot_pointer own_robot f) d
                    = (Returns tt, set_planning_scene_robot_ (Some r) d)).
  { intros f Hf. unfold discard, bind, ret.
    destruct (on_robot_pointer_display own_robot f d Hf) as [Hd|(_ & r0 & r & Er & Hd)].
    - left. destruct (on_robot_pointer own_robot f d) as [[a|e] d1]; exact Hd.
    - right. exists r0, r. rewrite Hd. split; [exact Er|reflexivity]. }
  destruct o; try discriminate Ho; destruct robot; try discriminate Ho;
    unfold run; apply H; robot_function.
Qed.

(** C7, as amended: besides the property values and the pointers the
    display has two bookkeeping members, the accumulated scene time and the
    needs-render flag.  The accumulated time is written by [update] only;
    the flag by [update], [renderPlanningScene],
    [queueRenderSceneGeometry], the scene alpha, scene color and
    attached-body color handlers (and an edit or a loaded configuration
    that runs them) and the scene-update callback only.  The getters,
    [save] and the functions that work on a robot handed to them, when that
    robot is not the display's own, leave the whole display as it was;
    called on the display's own robot visual these functions change that
    robot and nothing else of the display.  This holds for an operation
    that returns and for one that fails. *)
Theorem bookkeeping_frame (o : operation) (d : PlanningSceneDisplay) :
  (is_update o = false ->
   current_scene_time_ (snd (run o d)) = current_scene_time_ d)
  /\ (writes_needs_render o = false ->
      planning_scene_needs_render_ (snd (run o d)) = planning_scene_needs_render_ d)
  /\ (read_only o = true -> snd (run o d) = d)
  /\ (on_own_robot o = true ->
      snd (run o d) = d
      \/ exists r0 r,
           planning_scene_robot_ d = Some r0
           /\ run o d = (Returns tt, set_planning_scene_robot_ (Some r) d)).
Proof.
  split; [|split; [|split]]; intros Ho.
  - exact (preserves_snd _ _ d (run_keeps_time o (current_scene_time_ d) Ho) eq_refl).
  - exact (preserves_snd _ _ d
             (run_keeps_needs_render o (planning_scene_needs_render_ d) Ho) eq_refl).
  - exact (preserves_snd _ _ d (run_read_only o d Ho) eq_refl).
  - exact (run_on_own_robot o d Ho).
Qed.

Lemma bookkeeping_frame_witness :
  is_update op_reset = false
  /\ current_scene_time_ (snd (run op_reset (Example.loaded false)))
     = current_scene_time_ (Example.loaded false)
  /\ planning_scene_needs_render_ (snd (run op_reset (Example.loaded false)))
     = planning_scene_needs_render_ (Example.loaded false)
  /\ snd (run (op_unsetAllColors (other_robot (Some new_Robot))) (Example.loaded false))
     = Example.loaded false
  /\ (snd (run (op_unsetAllColors own_robot) (Example.loaded false))
      = Example.loaded false
      \/ exists r0 r,
           planning_scene_robot_ (Example.loaded false) = Some r0
           /\ run (op_unsetAllColors own_robot) (Example.loaded false)
              = (Returns tt,
                 set_planning_scene_robot_ (Some r) (Example.loaded false))).
Proof.
  split; [reflexivity|].
  destruct (bookkeeping_frame op_reset (Example.loaded false)) as (H1 & H2 & _).
  split; [exact (H1 eq_refl)|]. split; [exact (H2 eq_refl)|].
  destruct (bookkeeping_frame (op_unsetAllColors (other_robot (Some new_Robot)))
              (Example.loaded false)) as (_ & _ & H3 & _).
  split; [exact (H3 eq_refl)|].
  destruct (bookkeeping_frame (op_unsetAllColors own_robot) (Example.loaded false))
    as (_ & _ & _ & H4).
  exact (H4 eq_refl).
Defined.

(** C7 as stated fails: [update] on a reachable display returns with the
    accumulated scene time changed, a member that is neither a property nor
    a pointer. *)
Lemma update_changes_bookkeeping :
  ~ (forall o d d', reachable d -> run o d = (Returns tt, d') ->
                    bookkeeping d' = bookkeeping d).
Proof.
  intros H.
  pose proof (H (op_update Float.lit_0_0001 Float.lit_0_0001) (Example.loaded false)
                (snd (run (op_update Float.lit_0_0001 Float.lit_0_0001)
                        (Example.loaded false)))
                (Example_loaded_reachable false)) as Hb.
  assert (Hrun : run (op_update Float.lit_0_0001 Float.lit_0_0001) (Example.loaded false)
                 = (Returns tt,
                    snd (run (op_update Float.lit_0_0001 Float.lit_0_0001)
                           (Example.loaded false)))) by (vm_compute; reflexivity).
  specialize (Hb Hrun). vm_compute in Hb. discriminate Hb.
Qed.

(** The same call, [setLinkColor(robot, "elbow", color)], on a copy of the
    display's robot and on the display's own robot: the first leaves the
    display as it was, the second does not. *)
Lemma call_on_own_robot_changes_the_display :
  let d := Example.loaded false in
  snd (run (op_setLinkColor_robot (other_robot (planning_scene_robot_ d)) "elbow"
              (mkQColor 255 0 0)) d) = d
  /\ snd (run (op_setLinkColor_robot own_robot "elbow" (mkQColor 255 0 0)) d) <> d.
Proof.
  split.
  - exact (preserves_snd _ _ (Example.loaded false)
             (run_read_only
                (op_setLinkColor_robot
                   (other_robot (planning_scene_robot_ (Example.loaded false)))
                   "elbow" (mkQColor 255 0 0))
                (Example.loaded false) eq_refl) eq_refl).
  - intros H. apply (f_equal planning_scene_robot_) in H.
    apply (f_equal (fun r => match r with
                             | Some r => Robot_getLink r "elbow"
                             | None => None
                             end)) in H.
    vm_compute in H. discriminate H.
Qed.

(** ** The rate limit of [update] *)

Lemma update_without_monitor d wall_dt ros_dt :
  planning_scene_monitor_ d = None ->
  update wall_dt ros_dt d = (Returns tt, d).
Proof.
  intros Hm. unfold update. exec. rewrite Hm. reflexivity.
Qed.

Lemma update_accumulates d m wall_dt ros_dt :
  planning_scene_monitor_ d = Some m ->
  Float.gt (Float.add (current_scene_time_ d) wall_dt) (display_time d) = false ->
  update wall_dt ros_dt d
  = (Returns tt, set_current_scene_time_ (Float.add (current_scene_time_ d) wall_dt) d).
Proof.
  unfold update, display_time. destruct d as [b p r nd g mo re t nr tr]. exec.
  intros -> Hgt. exec. rewrite Hgt. reflexivity.
Qed.

Lemma update_attempts d m wall_dt ros_dt :
  planning_scene_monitor_ d = Some m ->
  Float.gt (Float.add (current_scene_time_ d) wall_dt) (display_time d) = true ->
  update wall_dt ros_dt d
  = bind renderPlanningScene (fun _ => modify (set_current_scene_time_ Float.zero))
      (set_current_scene_time_ (Float.add (current_scene_time_ d) wall_dt) d).
Proof.
  unfold update, display_time. destruct d as [b p r nd g mo re t nr tr].
  unfold Display_update. unfold bind at 1 2 3. unfold get, ret, modify. simpl.
  intros -> Hgt. simpl. unfold bind at 1. simpl. rewrite Hgt. reflexivity.
Qed.

(** What [update] leaves in [current_scene_time_] when it returns. *)
Lemma update_time d d' wall_dt ros_dt :
  update wall_dt ros_dt d = (Returns tt, d') ->
  current_scene_time_ d'
  = if nonnull (planning_scene_monitor_ d) then
      if attempts_render d wall_dt then Float.zero
      else Float.add (current_scene_time_ d) wall_dt
    else current_scene_time_ d.
Proof.
  intros Hu. unfold attempts_render.
  destruct (planning_scene_monitor_ d) as [m|] eqn:Em; simpl.
  - destruct (Float.gt (Float.add (current_scene_time_ d) wall_dt) (display_time d))
      eqn:Hgt.
    + rewrite (update_attempts d m wall_dt ros_dt Em Hgt) in Hu.
      unfold bind, modify in Hu.
      destruct (renderPlanningScene _) as [[[]|f] d1]; inversion Hu. reflexivity.
    + rewrite (update_accumulates d m wall_dt ros_dt Em Hgt) in Hu.
      inversion Hu. reflexivity.
  - rewrite (update_without_monitor d wall_dt ros_dt Em) in Hu. inversion Hu.
    reflexivity.
Qed.

(** [current_scene_time_] is the float sum of the [wall_dt]s accumulated
    since the last render attempt. *)
Lemma accumulated_time os : forall d d' pending,
  current_scene_time_ d = float_sum pending ->
  run_all os d = (Returns tt, d') ->
  current_scene_time_ d' = float_sum (pending_since_attempt os d pending).
Proof.
  induction os as [|o os IH]; intros d d' pending Hacc Hrun; simpl in *.
  - inversion Hrun; subst. exact Hacc.
  - unfold bind in Hrun. destruct (run o d) as [[[]|f] d1] eqn:Ho; [|discriminate].
    simpl. apply (IH d1 d'); [|exact Hrun].
    destruct (is_update o) eqn:Hu.
    + destruct o; try discriminate Hu. simpl in Ho.
      rewrite (update_time d d1 wall_dt ros_dt Ho).
      destruct (nonnull (planning_scene_monitor_ d)); [|exact Hacc].
      destruct (attempts_render d wall_dt); [reflexivity|].
      unfold float_sum. rewrite fold_left_app. simpl. f_equal. exact Hacc.
    + pose proof (preserves_snd _ _ d
                    (run_keeps_time o (current_scene_time_ d) Hu) eq_refl) as Hk.
      rewrite Ho in Hk. simpl in Hk. rewrite Hk, Hacc.
      destruct o; try reflexivity. discriminate Hu.
Qed.

(** In a reachable display [update] returns. *)
Lemma reachable_update_returns d wall_dt ros_dt :
  reachable d -> exists d', update wall_dt ros_dt d = (Returns tt, d').
Proof.
  intros Hd.
  destruct (planning_scene_monitor_ d) as [m|] eqn:Em.
  2:{ exists d. exact (update_without_monitor d wall_dt ros_dt Em). }
  destruct (Float.gt (Float.add (current_scene_time_ d) wall_dt) (display_time d))
    eqn:Hgt.
  2:{ eexists. exact (update_accumulates d m wall_dt ros_dt Em Hgt). }
  rewrite (update_attempts d m wall_dt ros_dt Em Hgt).
  destruct (renderPlanningScene_returns
              (set_current_scene_time_ (Float.add (current_scene_time_ d) wall_dt) d))
    as [d2 H2].
  - exact (reachable_renderer_has_monitor d Hd).
  - exact (reachable_loaded_invariant d Hd).
  - unfold bind. rewrite H2. eexists. reflexivity.
Qed.

(** C9: let [d] be the display after the operations [os] on a newly
    constructed display, and [pending] the [wall_dt]s accumulated since the
    last render attempt.  Without a monitor [update] returns [d] as it is,
    accumulated time included.  With a monitor it adds [wall_dt] to the
    accumulated time; if the sum does not exceed the scene display time it
    returns with only that changed and no render attempt; if the sum
    strictly exceeds it, [update] calls [renderPlanningScene], which
    returns, and then leaves the accumulated time at 0.  The minimum
    configured for the scene display time is [0.0001].  The accumulated time
    of [d] is the float sum of [pending], so when [update] attempts a
    render the float sum of the [wall_dt]s since the last attempt, this one
    included, strictly exceeds the scene display time. *)
Theorem update_rate_limits_rendering
    (os : list operation) (context : DisplayContext) (name : string)
    (d : PlanningSceneDisplay) (wall_dt ros_dt : float) :
  run_all os (PlanningSceneDisplay_new context name) = (Returns tt, d) ->
  let pending :=
    pending_since_attempt os (PlanningSceneDisplay_new context name) [] in
  let accumulated := Float.add (current_scene_time_ d) wall_dt in
  (planning_scene_monitor_ d = None -> update wall_dt ros_dt d = (Returns tt, d))
  /\ (nonnull (planning_scene_monitor_ d) = true ->
      Float.gt accumulated (display_time d) = false ->
      update wall_dt ros_dt d = (Returns tt, set_current_scene_time_ accumulated d))
  /\ (nonnull (planning_scene_monitor_ d) = true ->
      Float.gt accumulated (display_time d) = true ->
      exists d1,
        renderPlanningScene (set_current_scene_time_ accumulated d) = (Returns tt, d1)
        /\ update wall_dt ros_dt d = (Returns tt, set_current_scene_time_ Float.zero d1)
        /\ current_scene_time_ (snd (update wall_dt ros_dt d)) = Float.zero)
  /\ min_ (scene_display_time_property_ (props d)) = Float.lit_0_0001
  /\ current_scene_time_ d = float_sum pending
  /\ (attempts_render d wall_dt = true ->
      Float.gt (float_sum (pending ++ [wall_dt])) (display_time d) = true).
Proof.
  intros Hrun pending accumulated.
  assert (Hd : reachable d)
    by exact (reachable_run_all os _ d (reachable_new context name) Hrun).
  assert (Hacc : current_scene_time_ d = float_sum pending).
  { apply (accumulated_time os (PlanningSceneDisplay_new context name) d []);
      [reflexivity|exact Hrun]. }
  split; [exact (update_without_monitor d wall_dt ros_dt)|].
  split.
  { intros Hm Hgt. destruct (planning_scene_monitor_ d) as [m|] eqn:Em; [|discriminate].
    exact (update_accumulates d m wall_dt ros_dt Em Hgt). }
  split.
  { intros Hm Hgt. destruct (planning_scene_monitor_ d) as [m|] eqn:Em; [|discriminate].
    destruct (renderPlanningScene_returns (set_current_scene_time_ accumulated d))
      as [d1 H1].
    - exact (reachable_renderer_has_monitor d Hd).
    - exact (reachable_loaded_invariant d Hd).
    - exists d1. split; [exact H1|].
      rewrite (update_attempts d m wall_dt ros_dt Em Hgt).
      unfold bind, modify. fold accumulated. rewrite H1. split; reflexivity. }
  split; [exact (reachable_display_time_min d Hd)|].
  split; [exact Hacc|].
  intros Ha. unfold attempts_render in Ha. apply andb_true_iff in Ha as [_ Hgt].
  unfold float_sum. rewrite fold_left_app. simpl.
  fold (float_sum pending). rewrite <- Hacc. exact Hgt.
Qed.

Lemma update_rate_limits_rendering_witness :
  let os := [op_onInitialize; op_setEnabled true;
             op_update Float.lit_0_5 Float.lit_0_5;
             op_update Float.lit_0_2 Float.lit_0_2] in
  let d := snd (run_all os (Example.constructed false)) in
  run_all os (Example.constructed false) = (Returns tt, d)
  /\ pending_since_attempt os (Example.constructed false) [] = [Float.lit_0_2]
  /\ current_scene_time_ d = Float.lit_0_2
  /\ attempts_render d Float.lit_0_0001 = true
  /\ Float.gt (float_sum [Float.lit_0_2; Float.lit_0_0001]) (display_time d) = true
  /\ current_scene_time_ (snd (update Float.lit_0_0001 Float.lit_0_0001 d)) = Float.zero.
Proof.
  intros os d.
  assert (Hrun : run_all os (Example.constructed false) = (Returns tt, d))
    by (vm_compute; reflexivity).
  destruct (update_rate_limits_rendering os (Example.context false) "Planning Scene"
              d Float.lit_0_0001 Float.lit_0_0001 Hrun)
    as (_ & _ & H3 & _ & H5 & H6).
  assert (Ha : attempts_render d Float.lit_0_0001 = true) by (vm_compute; reflexivity).
  split; [exact Hrun|]. split; [vm_compute; reflexivity|].
  split; [vm_compute; reflexivity|]. split; [exact Ha|].
  split; [exact (H6 Ha)|].
  destruct (H3 eq_refl) as (d1 & _ & _ & Hz); [vm_compute; reflexivity|exact Hz].
Defined.


(** * Further properties of the display *)

(** ** Pointers that come together *)

Lemma loadRobotModel_monitor_iff_renderer :
  preserves_on_return monitor_iff_renderer loadRobotModel.
Proof.
  intros d _.
  destruct (loadRobotModel d) as [[[]|f] d'] eqn:Hl; simpl; [|discriminate].
  destruct (loadRobotModel_returns d d' Hl)
    as [[Hc ->]|(s & k & u & r & Em & Hc & Hu & Er & ->)]; reflexivity.
Qed.

Lemma returns_bind {A B} (c : M A) (k : A -> M B) d b d' :
  bind c k d = (Returns b, d') ->
  exists a d1, c d = (Returns a, d1) /\ k a d1 = (Returns b, d').
Proof.
  unfold bind. destruct (c d) as [[a|f] d1]; intros H; [|discriminate].
  exists a, d1. auto.
Qed.

(** [reset] clears the renderer first, so the pair is restored only by the
    load that follows. *)
Lemma reset_monitor_iff_renderer :
  preserves_on_return monitor_iff_renderer reset.
Proof.
  intros d _.
  destruct (reset d) as [[[]|f] d'] eqn:H; simpl; [|discriminate].
  unfold reset in H.
  apply returns_bind in H as (? & d1 & _ & H).
  apply returns_bind in H as (? & d2 & _ & H).
  apply returns_bind in H as (? & d3 & Hl & H).
  assert (H3 : monitor_iff_renderer d3).
  { destruct (loadRobotModel_returns d2 d3) as
      [[Hc ->]|(s & k & u & r & Em & Hc & Hu & Er & ->)]; try reflexivity.
    destruct x1. exact Hl. }
  match type of H with
  | ?c d3 = _ =>
      assert (Hk : preserves_on_return monitor_iff_renderer c)
        by (unfold monitor_iff_renderer; preserve_with pointers_frame)
  end.
  specialize (Hk d3 H3). rewrite H in Hk. exact Hk.
Qed.

Ltac nullness_frame :=
  idtac;
  match goal with
  | d : PlanningSceneDisplay |- _ =>
      clear_kept; destruct d as [? ? ? ? ? ? ? ? ? ?]; simpl in *;
      unfold_setters; simpl in *; intros; subst; simpl in *;
      solve [auto | discriminate | congruence]
  end.

Lemma run_keeps_monitor_iff_renderer o :
  preserves_on_return monitor_iff_renderer (run o).
Proof.
  pose proof loadRobotModel_monitor_iff_renderer.
  pose proof reset_monitor_iff_renderer.
  unfold monitor_iff_renderer in *. preserve_with nullness_frame.
Qed.

Lemma reachable_monitor_iff_renderer d :
  reachable d -> monitor_iff_renderer d.
Proof.
  apply (reachable_invariant false).
  - reflexivity.
  - apply run_keeps_monitor_iff_renderer.
Qed.

(** X1: in every display reached from the constructor, the monitor and the
    renderer are both null or both set; a monitor the display holds has a
    planning scene and a kinematic model; and a renderer comes with the
    robot visual, which comes with both scene nodes. *)
Theorem pointers_come_together (d : PlanningSceneDisplay) :
  reachable d ->
  nonnull (planning_scene_monitor_ d) = nonnull (planning_scene_render_ d)
  /\ (forall m, planning_scene_monitor_ d = Some m ->
        exists s k, psm_planning_scene m = Some s /\ psm_kinematic_model m = Some k)
  /\ (nonnull (planning_scene_render_ d) = true ->
      nonnull (planning_scene_robot_ d) = true)
  /\ (nonnull (planning_scene_robot_ d) = true ->
      nonnull (planning_scene_geometry_node_ d) = true
      /\ nonnull (planning_scene_node_ d) = true).
Proof.
  intros Hd. destruct (reachable_loaded_invariant d Hd) as (Hg & Hr & Hm).
  split; [exact (reachable_monitor_iff_renderer d Hd)|].
  split; [|split; assumption].
  intros m Em. destruct (Hm m Em) as [Hs Hk].
  destruct (psm_planning_scene m) as [s|]; [|discriminate].
  destruct (psm_kinematic_model m) as [k|]; [|discriminate].
  exists s, k. auto.
Qed.

Lemma pointers_come_together_witness :
  reachable (Example.loaded false)
  /\ nonnull (planning_scene_monitor_ (Example.loaded false)) = true
  /\ nonnull (planning_scene_render_ (Example.loaded false)) = true
  /\ nonnull (planning_scene_geometry_node_ (Example.loaded false)) = true.
Proof.
  split; [apply Example_loaded_reachable|].
  destruct (pointers_come_together (Example.loaded false)
              (Example_loaded_reachable false)) as (H1 & _ & H3 & H4).
  split; [reflexivity|]. split; [rewrite <- H1; reflexivity|].
  apply H4. apply H3. rewrite <- H1. reflexivity.
Defined.

(** ** The scene lock between operations *)

Lemma renderPlanningScene_scene_unlocked :
  preserves scene_unlocked renderPlanningScene.
Proof.
  apply snd_preserves. intros d Hd.
  destruct (nonnull (planning_scene_render_ d) && planning_scene_needs_render_ d)
    eqn:Hguard.
  2:{ rewrite (renderPlanningScene_skip d Hguard). exact Hd. }
  apply andb_true_iff in Hguard as [Hr Hn].
  revert Hd. unfold scene_unlocked.
  destruct d as [b p r nd g mo re t nr tr]. simpl in *. subst.
  destruct re as [rn|]; [|discriminate].
  unfold renderPlanningScene, PlanningSceneRender_renderPlanningScene.
  destruct mo as [m|]; exec; [|auto].
  destruct (render_throws _ _ _ _ _ _); exec; destruct g as [n|]; exec;
    intros _ m' H; inversion H; reflexivity.
Qed.

Ltac lock_frame :=
  idtac;
  match goal with
  | d : PlanningSceneDisplay |- _ =>
      clear_kept; unfold scene_unlocked in *;
      destruct d as [? ? ? ? ? ? ? ? ? ?]; simpl in *;
      unfold_setters; simpl in *; intros; subst; simplify_eq/=;
      solve [auto | discriminate | eauto]
  end.

Lemma run_preserves_scene_unlocked o :
  preserves scene_unlocked (run o).
Proof.
  pose proof renderPlanningScene_scene_unlocked.
  preserve_with lock_frame.
Qed.

(** X2: between operations the display never holds the scene lock: in
    every display reached from the constructor the monitor, if there is
    one, is unlocked; and this also holds where an operation stops with a
    failure. *)
Theorem scene_lock_released_between_operations
    (d : PlanningSceneDisplay) (o : operation) :
  reachable d ->
  (forall m, planning_scene_monitor_ d = Some m -> psm_scene_locked m = false)
  /\ (forall m, planning_scene_monitor_ (snd (run o d)) = Some m ->
                psm_scene_locked m = false).
Proof.
  intros Hd.
  assert (H : scene_unlocked d).
  { revert d Hd. apply (reachable_invariant true).
    - intros context name m Hm. discriminate Hm.
    - apply run_preserves_scene_unlocked. }
  split; [exact H|].
  exact (preserves_snd _ _ d (run_preserves_scene_unlocked o) H).
Qed.

Lemma scene_lock_released_between_operations_witness :
  reachable (Example.loaded true)
  /\ exists m,
       planning_scene_monitor_
         (snd (run (op_update Float.one Float.one) (Example.loaded true))) = Some m
       /\ psm_scene_locked m = false.
Proof.
  split; [apply Example_loaded_reachable|].
  destruct (planning_scene_monitor_
              (snd (run (op_update Float.one Float.one) (Example.loaded true))))
    as [m|] eqn:Em; [|discriminate Em].
  exists m. split; [reflexivity|].
  exact (proj2 (scene_lock_released_between_operations (Example.loaded true)
                  (op_update Float.one Float.one) (Example_loaded_reachable true))
           m Em).
Defined.

(** ** Rendering only what was queued *)

Lemma render_calls_app t1 t2 :
  render_calls (t1 ++ t2)%list = (render_calls t1 + render_calls t2)%nat.
Proof.
  unfold render_calls. rewrite filter_app, length_app. reflexivity.
Qed.

Lemma render_calls_error msg : render_calls [ev_ROS_ERROR msg] = 0%nat.
Proof. reflexivity. Qed.

Lemma renderPlanningScene_idle n :
  preserves (idle_after n) renderPlanningScene.
Proof.
  apply snd_preserves. intros d [Hf Hn].
  rewrite renderPlanningScene_skip; [split; assumption|].
  rewrite Hf. apply andb_false_r.
Qed.

Ltac idle_frame :=
  idtac;
  match goal with
  | d : PlanningSceneDisplay |- _ =>
      clear_kept; unfold idle_after in *;
      destruct d as [? ? ? ? ? ? ? ? ? ?]; simpl in *;
      unfold_setters; simpl in *; intros; subst;
      rewrite ?render_calls_app, ?render_calls_error, ?Nat.add_0_r; simpl;
      solve [auto | intuition (try discriminate; auto with arith)]
  end.

Lemma run_idle o n :
  queues_render o = false -> preserves (idle_after n) (run o).
Proof.
  intros Ho. pose proof (renderPlanningScene_idle n).
  destruct o; try discriminate Ho;
    try (match goal with e : property_edit |- _ =>
           destruct e; try discriminate Ho end);
    preserve_with idle_frame.
Qed.

Lemma run_all_idle os n :
  forallb (fun o => negb (queues_render o)) os = true ->
  preserves (idle_after n) (run_all os).
Proof.
  induction os as [|o os IH]; simpl; intros H.
  - apply keeps_ret.
  - apply andb_true_iff in H as [Ho H]. apply keeps_bind.
    + apply run_idle. destruct (queues_render o); [discriminate|reflexivity].
    + intros _. apply IH. exact H.
Qed.

(** X3: a render pass clears the needs-render flag, and while the flag is
    clear no render call is made: whatever operations follow that do not
    queue a render (updates, resets, enabling, edits of other properties,
    ...), they add no render call to the trace and leave the flag clear. *)
Theorem no_render_until_queued (d : PlanningSceneDisplay) (os : list operation) :
  planning_scene_needs_render_ d = false ->
  forallb (fun o => negb (queues_render o)) os = true ->
  planning_scene_needs_render_ (snd (run_all os d)) = false
  /\ render_calls (trace (snd (run_all os d))) = render_calls (trace d)
  /\ (forall d0 rn d1,
        planning_scene_render_ d0 = Some rn ->
        renderPlanningScene d0 = (Returns tt, d1) ->
        planning_scene_needs_render_ d1 = false).
Proof.
  intros Hf Hos.
  destruct (preserves_snd _ _ d (run_all_idle os (render_calls (trace d)) Hos))
    as [H1 H2]; [split; [exact Hf|reflexivity]|].
  split; [exact H1|]. split; [exact H2|].
  intros d0 rn d1 Hr Hp.
  destruct (planning_scene_needs_render_ d0) eqn:Hn.
  - destruct d0 as [b p r nd g mo re t nr tr]. simpl in *. subst.
    revert Hp. unfold renderPlanningScene, PlanningSceneRender_renderPlanningScene.
    destruct mo as [m|]; exec; [|discriminate].
    destruct (render_throws _ _ _ _ _ _); exec; destruct g as [n|]; exec;
      intros H; inversion H; reflexivity.
  - rewrite renderPlanningScene_skip in Hp; [inversion Hp; subst; exact Hn|].
    rewrite Hn. apply andb_false_r.
Qed.

Lemma no_render_until_queued_witness :
  let d := snd (run (op_update Float.one Float.one) (Example.loaded false)) in
  let os := [op_update Float.one Float.one; op_reset;
             op_update Float.one Float.one; op_renderPlanningScene] in
  planning_scene_needs_render_ d = false
  /\ render_calls (trace d) = 1%nat
  /\ render_calls (trace (snd (run_all os d))) = 1%nat.
Proof.
  intros d os.
  assert (Hf : planning_scene_needs_render_ d = false) by reflexivity.
  destruct (no_render_until_queued d os Hf eq_refl) as (_ & H & _).
  split; [exact Hf|]. split; [reflexivity|]. rewrite H. reflexivity.
Defined.

(** ** From a scene update to the render call *)

(** X4: a scene-update message followed by an [update] whose accumulated
    time exceeds the scene display time renders the scene of the message:
    in a reachable display with a monitor both operations return, the trace
    gains the lock, one render call on the new scene with the colors and
    alphas of the properties, the error message if the renderer threw, and
    the unlock; the needs-render flag and the accumulated time are reset. *)
Theorem scene_update_is_rendered_by_next_update
    (d : PlanningSceneDisplay) (m : PlanningSceneMonitor) (scene : PlanningScene)
    (update_type : SceneUpdateType) (wall_dt ros_dt : float) :
  reachable d ->
  planning_scene_monitor_ d = Some m ->
  Float.gt (Float.add (current_scene_time_ d) wall_dt) (display_time d) = true ->
  exists d',
    run_all [op_scene_update_message scene update_type; op_update wall_dt ros_dt] d
    = (Returns tt, d')
    /\ trace d'
       = (trace d
          ++ [ev_lockScene; render_call d (Some scene)]
          ++ (if renderer_throws d (Some scene)
              then [ev_ROS_ERROR "Exception thrown while rendering planning scene"]
              else [])
          ++ [ev_unlockScene])%list
    /\ planning_scene_needs_render_ d' = false
    /\ current_scene_time_ d' = Float.zero
    /\ scene_name_property_ (props d') = ps_name scene.
Proof.
  intros Hd Hm Hgt.
  pose proof (reachable_callback_registered d Hd m Hm) as Hcb.
  destruct (reachable_loaded_invariant d Hd) as (Hg & Hrob & Hl).
  destruct (Hl m Hm) as [_ Hk].
  destruct (psm_kinematic_model m) as [k|] eqn:Ek; [|discriminate].
  pose proof (reachable_monitor_iff_renderer d Hd) as Hmr.
  unfold monitor_iff_renderer in Hmr. rewrite Hm in Hmr. simpl in Hmr.
  destruct (planning_scene_render_ d) as [rn|] eqn:Er; [|discriminate].
  destruct (Hg (Hrob eq_refl)) as [Hgeo _].
  destruct (planning_scene_geometry_node_ d) as [n|] eqn:En; [|discriminate].
  set (m1 := psm_set_planning_scene m (Some scene)).
  set (d1 := after_scene_update (set_planning_scene_monitor_ (Some m1) d) scene k).
  set (d2 := set_current_scene_time_ (Float.add (current_scene_time_ d1) wall_dt) d1).
  exists (set_current_scene_time_ Float.zero (after_render_pass d2 m1 n)).
  split.
  - simpl. unfold bind at 1.
    rewrite (scene_update_message_delivers d m k scene update_type Hm Hcb Ek).
    fold m1 d1. unfold bind at 1.
    rewrite (update_attempts d1 m1 wall_dt ros_dt eq_refl Hgt).
    fold d2. unfold bind at 1.
    rewrite (renderPlanningScene_pass d2 rn m1 n Er eq_refl eq_refl En).
    reflexivity.
  - split; [|repeat split].
    simpl. unfold render_pass_events, render_call, renderer_throws. simpl.
    reflexivity.
Qed.

Lemma scene_update_is_rendered_by_next_update_witness :
  let d := snd (run (op_update Float.one Float.one) (Example.loaded false)) in
  let scene := mkPlanningScene "cupboard" true "odom" (mkKinematicState []) in
  exists d',
    run_all [op_scene_update_message scene UPDATE_SCENE;
             op_update Float.one Float.one] d = (Returns tt, d')
    /\ planning_scene_needs_render_ d' = false
    /\ render_calls (trace d') = 2%nat.
Proof.
  intros d scene.
  assert (Hd : reachable d).
  { apply (reachable_run (Example.loaded false) (op_update Float.one Float.one)).
    - apply Example_loaded_reachable.
    - vm_compute. reflexivity. }
  destruct (planning_scene_monitor_ d) as [m|] eqn:Em; [|discriminate Em].
  destruct (scene_update_is_rendered_by_next_update d m scene UPDATE_SCENE
              Float.one Float.one Hd Em)
    as (d' & H1 & H2 & H3 & _); [vm_compute; reflexivity|].
  exists d'. split; [exact H1|]. split; [exact H3|].
  rewrite H2. vm_compute. reflexivity.
Defined.

(** ** Coloring groups of links *)

(** A loop over link names whose body replaces the named link, if the
    robot has it, by [f] of that link. *)
Lemma for_each_link_recolors (f : RobotLink -> RobotLink)
    (body : option Robot -> string -> M (option Robot)) :
  (forall r l d,
     body (Some r) l d
     = (Returns (Some (match Robot_getLink r l with
                       | Some link => Robot_putLink r l (f link)
                       | None => r
                       end)), d)) ->
  forall links r d,
  exists r',
    for_each_link body (Some r) links d = (Returns (Some r'), d)
    /\ (forall l, Robot_getLink r l = None -> Robot_getLink r' l = None)
    /\ (forall l x, In l links -> Robot_getLink r l = Some x ->
          exists x', Robot_getLink r' l = Some (f x'))
    /\ (forall l, ~ In l links -> Robot_getLink r' l = Robot_getLink r l)
    /\ robot_visible r' = robot_visible r
    /\ robot_alpha r' = robot_alpha r.
Proof.
  intros Hbody. induction links as [|l0 links IH]; intros r d.
  - exists r. simpl. repeat split; auto. intros l x [].
  - simpl. unfold bind. rewrite Hbody.
    set (r1 := match Robot_getLink r l0 with
               | Some link => Robot_putLink r l0 (f link)
               | None => r
               end).
    assert (Hother : forall l, l <> l0 -> Robot_getLink r1 l = Robot_getLink r l).
    { intros l Hne. unfold r1. destruct (Robot_getLink r l0); [|reflexivity].
      unfold Robot_getLink, Robot_putLink. simpl. apply lookup_insert_ne. congruence. }
    assert (Hsame : forall x, Robot_getLink r l0 = Some x ->
                              Robot_getLink r1 l0 = Some (f x)).
    { intros x Hx. unfold r1. rewrite Hx.
      unfold Robot_getLink, Robot_putLink. simpl. apply lookup_insert_eq. }
    assert (Hnone : forall l, Robot_getLink r l = None -> Robot_getLink r1 l = None).
    { intros l Hl. destruct (String.string_dec l l0) as [->|Hne].
      - unfold r1. rewrite Hl. exact Hl.
      - rewrite Hother; assumption. }
    assert (Hfields : robot_visible r1 = robot_visible r
                      /\ robot_alpha r1 = robot_alpha r).
    { unfold r1. destruct (Robot_getLink r l0); split; reflexivity. }
    destruct (IH r1 d) as (r' & Hrun & Hn & Hin & Hout & Hv & Ha).
    exists r'. split; [exact Hrun|]. split; [|split; [|split; [|split]]].
    + intros l Hl. apply Hn. apply Hnone. exact Hl.
    + intros l x Hl Hx.
      destruct (in_dec String.string_dec l links) as [Hi|Hni].
      * destruct (String.string_dec l l0) as [->|Hne].
        -- apply (Hin l0 (f x) Hi). apply Hsame. exact Hx.
        -- apply (Hin l x Hi). rewrite Hother; assumption.
      * destruct Hl as [<-|Hl]; [|contradiction].
        exists x. rewrite (Hout l0 Hni). apply Hsame. exact Hx.
    + intros l Hl. rewrite Hout by (intros Hi; apply Hl; right; exact Hi).
      apply Hother. intros ->. apply Hl. left. reflexivity.
    + rewrite Hv. apply Hfields.
    + rewrite Ha. apply Hfields.
Qed.

Lemma setLinkColor_robot_eq color r l d :
  setLinkColor_robot (Some r) l color d
  = (Returns (Some (match Robot_getLink r l with
                    | Some link =>
                        Robot_putLink r l (mkRobotLink (Some (rviz_Color_of color)))
                    | None => r
                    end)), d).
Proof.
  unfold setLinkColor_robot. exec. destruct (Robot_getLink r l); reflexivity.
Qed.

Lemma unsetLinkColor_robot_eq r l d :
  unsetLinkColor_robot (Some r) l d
  = (Returns (Some (match Robot_getLink r l with
                    | Some link => Robot_putLink r l (mkRobotLink None)
                    | None => r
                    end)), d).
Proof.
  unfold unsetLinkColor_robot. exec. destruct (Robot_getLink r l); reflexivity.
Qed.

Lemma for_each_link_recolored (link : RobotLink)
    (body : option Robot -> string -> M (option Robot)) :
  (forall r l d,
     body (Some r) l d
     = (Returns (Some (match Robot_getLink r l with
                       | Some _ => Robot_putLink r l link
                       | None => r
                       end)), d)) ->
  forall links r d,
  exists r',
    for_each_link body (Some r) links d = (Returns (Some r'), d)
    /\ recolored links link r r'.
Proof.
  intros Hbody links r d.
  destruct (for_each_link_recolors (fun _ => link) body Hbody links r d)
    as (r' & Hrun & Hn & Hin & Hout & Hv & Ha).
  exists r'. split; [exact Hrun|]. split; [exact Hn|]. split; [|auto].
  intros l x Hl Hx. destruct (Hin l x Hl Hx) as [_ H]. exact H.
Qed.

(** The functions on the robot handed to them, with a scene and a model. *)
Lemma setGroupColor_unknown_group d m s k group_name color robot :
  planning_scene_monitor_ d = Some m ->
  psm_planning_scene m = Some s ->
  psm_kinematic_model m = Some k ->
  getJointModelGroup k group_name = None ->
  setGroupColor robot group_name color d = (Returns robot, d).
Proof.
  intros Hm Hs Hk Hg. unfold setGroupColor.
  destruct d as [b p r nd g mo re t nr tr]. simpl in Hm. subst. exec.
  rewrite Hs. exec. rewrite Hk. exec. rewrite Hg. reflexivity.
Qed.

Lemma setGroupColor_recolors d m s k group_name color links r :
  planning_scene_monitor_ d = Some m ->
  psm_planning_scene m = Some s ->
  psm_kinematic_model m = Some k ->
  getJointModelGroup k group_name = Some links ->
  exists r',
    setGroupColor (Some r) group_name color d = (Returns (Some r'), d)
    /\ recolored links (mkRobotLink (Some (rviz_Color_of color))) r r'.
Proof.
  intros Hm Hs Hk Hg.
  destruct (for_each_link_recolored (mkRobotLink (Some (rviz_Color_of color)))
              (fun r l => setLinkColor_robot r l color)
              (setLinkColor_robot_eq color) links r d) as (r' & Hrun & Hre).
  exists r'. split; [|exact Hre]. unfold setGroupColor.
  destruct d as [b p r0 nd g mo re t nr tr]. simpl in Hm. subst.
  revert Hrun. exec. intros Hrun.
  rewrite Hs. exec. rewrite Hk. exec. rewrite Hg. exact Hrun.
Qed.

Lemma unsetGroupColor_recolors d m s k group_name links r :
  planning_scene_monitor_ d = Some m ->
  psm_planning_scene m = Some s ->
  psm_kinematic_model m = Some k ->
  getJointModelGroup k group_name = Some links ->
  exists r',
    unsetGroupColor (Some r) group_name d = (Returns (Some r'), d)
    /\ recolored links (mkRobotLink None) r r'.
Proof.
  intros Hm Hs Hk Hg.
  destruct (for_each_link_recolored (mkRobotLink None)
              unsetLinkColor_robot unsetLinkColor_robot_eq links r d)
    as (r' & Hrun & Hre).
  exists r'. split; [|exact Hre]. unfold unsetGroupColor.
  destruct d as [b p r0 nd g mo re t nr tr]. simpl in Hm. subst.
  revert Hrun. exec. intros Hrun.
  rewrite Hs. exec. rewrite Hk. exec. rewrite Hg. exact Hrun.
Qed.

Lemma unsetAllColors_recolors d m s k r :
  planning_scene_monitor_ d = Some m ->
  psm_planning_scene m = Some s ->
  psm_kinematic_model m = Some k ->
  exists r',
    unsetAllColors (Some r) d = (Returns (Some r'), d)
    /\ recolored (km_link_model_names_with_collision_geometry k) (mkRobotLink None) r r'.
Proof.
  intros Hm Hs Hk.
  destruct (for_each_link_recolored (mkRobotLink None)
              unsetLinkColor_robot unsetLinkColor_robot_eq
              (km_link_model_names_with_collision_geometry k) r d)
    as (r' & Hrun & Hre).
  exists r'. split; [|exact Hre]. unfold unsetAllColors.
  destruct d as [b p r0 nd g mo re t nr tr]. simpl in Hm. subst.
  revert Hrun. exec. intros Hrun. rewrite Hs. exec. rewrite Hk. exact Hrun.
Qed.

(** A call on the display's own robot that leaves the robot [r'] behind
    leaves the display with [r'] as its robot visual. *)
Lemma on_robot_pointer_own f d r' :
  f (planning_scene_robot_ d) d = (Returns r', d) ->
  on_robot_pointer own_robot f d = (Returns r', set_planning_scene_robot_ r' d).
Proof.
  intros Hf. unfold on_robot_pointer, bind, get, modify, ret. rewrite Hf. reflexivity.
Qed.

Lemma discard_returns {A} (c : M A) d a d' :
  c d = (Returns a, d') -> discard c d = (Returns tt, d').
Proof. intros H. unfold discard, bind, ret. rewrite H. reflexivity. Qed.

Lemma recolored_twice links link1 link2 r r1 r2 :
  recolored links link1 r r1 -> recolored links link2 r1 r2 ->
  recolored links link2 r r2.
Proof.
  intros (Hn1 & Hin1 & Hout1 & Hv1 & Ha1) (Hn2 & Hin2 & Hout2 & Hv2 & Ha2).
  split; [|split; [|split; [|split]]].
  - intros l Hl. apply Hn2, Hn1, Hl.
  - intros l x Hl Hx. exact (Hin2 l link1 Hl (Hin1 l x Hl Hx)).
  - intros l Hl. rewrite (Hout2 l Hl). apply Hout1, Hl.
  - congruence.
  - congruence.
Qed.

(** [setLinkColor(link_name, color)] is the call of the robot form on the
    display's own robot, and so for [unsetLinkColor]. *)
Lemma setLinkColor_is_the_call_on_the_own_robot link_name color d :
  run (op_setLinkColor link_name color) d
  = run (op_setLinkColor_robot own_robot link_name color) d
  /\ run (op_unsetLinkColor link_name) d
     = run (op_unsetLinkColor_robot own_robot link_name) d.
Proof.
  split; simpl; unfold setLinkColor, unsetLinkColor, discard, on_robot_pointer,
    bind, get, modify, ret.
  - destruct (setLinkColor_robot _ _ _ d) as [[r|f] d1]; reflexivity.
  - destruct (unsetLinkColor_robot _ _ d) as [[r|f] d1]; reflexivity.
Qed.

(** X5: [setGroupColor] on a display whose monitor has a scene and a
    model.  For a group the model does not have the call returns and
    changes nothing, whatever the pointer.  For a group of the model it
    gives the color to exactly the links of the group that the robot has:
    no link is created, the links outside the group, the visibility and the
    alpha are as before.  The robot is changed in place: called on a robot
    of the caller's the display is as before; called on the display's own
    robot visual, the display ends with the recolored robot as its robot
    visual and is otherwise as before. *)
Theorem setGroupColor_colors_the_links_of_the_group
    (d : PlanningSceneDisplay) (m : PlanningSceneMonitor) (s : PlanningScene)
    (k : KinematicModel) (group_name : string) (color : QColor) :
  planning_scene_monitor_ d = Some m ->
  psm_planning_scene m = Some s ->
  psm_kinematic_model m = Some k ->
  (getJointModelGroup k group_name = None ->
   forall p, run (op_setGroupColor p group_name color) d = (Returns tt, d))
  /\ (forall links,
        getJointModelGroup k group_name = Some links ->
        (forall r,
           exists r',
             on_robot_pointer (other_robot (Some r))
               (fun robot => setGroupColor robot group_name color) d
             = (Returns (Some r'), d)
             /\ run (op_setGroupColor (other_robot (Some r)) group_name color) d
                = (Returns tt, d)
             /\ recolored links (mkRobotLink (Some (rviz_Color_of color))) r r')
        /\ (forall r,
              planning_scene_robot_ d = Some r ->
              exists r',
                on_robot_pointer own_robot
                  (fun robot => setGroupColor robot group_name color) d
                = (Returns (Some r'), set_planning_scene_robot_ (Some r') d)
                /\ run (op_setGroupColor own_robot group_name color) d
                   = (Returns tt, set_planning_scene_robot_ (Some r') d)
                /\ recolored links (mkRobotLink (Some (rviz_Color_of color))) r r')).
Proof.
  intros Hm Hs Hk. split.
  - intros Hg p.
    assert (Hf : forall robot, setGroupColor robot group_name color d = (Returns robot, d))
      by (intros robot; exact (setGroupColor_unknown_group d m s k group_name color
                                 robot Hm Hs Hk Hg)).
    destruct p as [|robot]; unfold run.
    + apply (discard_returns _ d (planning_scene_robot_ d)).
      rewrite (on_robot_pointer_own _ d (planning_scene_robot_ d) (Hf _)).
      destruct d; reflexivity.
    + apply (discard_returns _ d robot). apply Hf.
  - intros links Hg. split; intros r.
    + destruct (setGroupColor_recolors d m s k group_name color links r Hm Hs Hk Hg)
        as (r' & Hrun & Hre).
      exists r'. split; [exact Hrun|]. split; [|exact Hre].
      exact (discard_returns _ d _ d Hrun).
    + intros Hr.
      destruct (setGroupColor_recolors d m s k group_name color links r Hm Hs Hk Hg)
        as (r' & Hrun & Hre).
      assert (Hown : on_robot_pointer own_robot
                       (fun robot => setGroupColor robot group_name color) d
                     = (Returns (Some r'), set_planning_scene_robot_ (Some r') d)).
      { apply on_robot_pointer_own. rewrite Hr. exact Hrun. }
      exists r'. split; [exact Hown|]. split; [|exact Hre].
      exact (discard_returns _ d _ _ Hown).
Qed.

Lemma setGroupColor_colors_the_links_of_the_group_witness :
  exists r r',
    planning_scene_robot_ (Example.loaded false) = Some r
    /\ run (op_setGroupColor own_robot "arm" (mkQColor 255 0 0)) (Example.loaded false)
       = (Returns tt, set_planning_scene_robot_ (Some r') (Example.loaded false))
    /\ Robot_getLink r "elbow" = Some (mkRobotLink None)
    /\ Robot_getLink r' "elbow"
       = Some (mkRobotLink (Some (rviz_Color_of (mkQColor 255 0 0))))
    /\ Robot_getLink r' "base_link" = Robot_getLink r "base_link".
Proof.
  destruct (planning_scene_monitor_ (Example.loaded false)) as [m|] eqn:Em;
    [|discriminate Em].
  destruct (planning_scene_robot_ (Example.loaded false)) as [r|] eqn:Er;
    [|discriminate Er].
  assert (Hs : psm_planning_scene m = Some Example.scene)
    by (vm_compute in Em; inversion Em; reflexivity).
  assert (Hk : psm_kinematic_model m = Some Example.model)
    by (vm_compute in Em; inversion Em; reflexivity).
  assert (Hx : Robot_getLink r "elbow" = Some (mkRobotLink None))
    by (vm_compute in Er; inversion Er; reflexivity).
  destruct (proj2 (proj2 (setGroupColor_colors_the_links_of_the_group
                            (Example.loaded false) m Example.scene Example.model
                            "arm" (mkQColor 255 0 0) Em Hs Hk)
                     ["shoulder"; "elbow"] eq_refl) r Er)
    as (r' & _ & H1 & _ & H2 & H3 & _).
  exists r, r'. split; [reflexivity|]. split; [exact H1|]. split; [exact Hx|]. split.
  - apply (H2 "elbow" (mkRobotLink None)); [right; left; reflexivity|exact Hx].
  - apply H3. intros [H|[H|[]]]; discriminate H.
Defined.

(** X6: removing colors on a display whose monitor has a scene and a
    model.  [unsetAllColors] removes the color of every link of the robot
    that the model lists with collision geometry, and of no other link;
    [unsetGroupColor] after [setGroupColor] of one group leaves the links
    of the group without color and the other links as they were at the
    start.  No link is created.  The robot is changed in place: on a robot
    of the caller's the display is as before, on the display's own robot
    visual the display ends with the changed robot as its robot visual and
    is otherwise as before. *)
Theorem unsetting_colors_clears_the_listed_links
    (d : PlanningSceneDisplay) (m : PlanningSceneMonitor) (s : PlanningScene)
    (k : KinematicModel) :
  planning_scene_monitor_ d = Some m ->
  psm_planning_scene m = Some s ->
  psm_kinematic_model m = Some k ->
  let listed := km_link_model_names_with_collision_geometry k in
  (forall r,
     exists r',
       on_robot_pointer (other_robot (Some r)) unsetAllColors d = (Returns (Some r'), d)
       /\ run (op_unsetAllColors (other_robot (Some r))) d = (Returns tt, d)
       /\ recolored listed (mkRobotLink None) r r')
  /\ (forall r,
        planning_scene_robot_ d = Some r ->
        exists r',
          run (op_unsetAllColors own_robot) d
          = (Returns tt, set_planning_scene_robot_ (Some r') d)
          /\ recolored listed (mkRobotLink None) r r')
  /\ (forall group_name links color,
        getJointModelGroup k group_name = Some links ->
        (forall r,
           exists r1 r2,
             on_robot_pointer (other_robot (Some r))
               (fun robot => setGroupColor robot group_name color) d
             = (Returns (Some r1), d)
             /\ on_robot_pointer (other_robot (Some r1))
                  (fun robot => unsetGroupColor robot group_name) d
                = (Returns (Some r2), d)
             /\ recolored links (mkRobotLink None) r r2)
        /\ (forall r,
              planning_scene_robot_ d = Some r ->
              exists r2,
                run_all [op_setGroupColor own_robot group_name color;
                         op_unsetGroupColor own_robot group_name] d
                = (Returns tt, set_planning_scene_robot_ (Some r2) d)
                /\ recolored links (mkRobotLink None) r r2)).
Proof.
  intros Hm Hs Hk listed. split; [|split].
  - intros r. destruct (unsetAllColors_recolors d m s k r Hm Hs Hk) as (r' & Hrun & Hre).
    exists r'. split; [exact Hrun|]. split; [|exact Hre].
    exact (discard_returns _ d _ d Hrun).
  - intros r Hr. destruct (unsetAllColors_recolors d m s k r Hm Hs Hk) as (r' & Hrun & Hre).
    exists r'. split; [|exact Hre]. unfold run.
    apply (discard_returns _ d (Some r')).
    apply on_robot_pointer_own. rewrite Hr. exact Hrun.
  - intros group_name links color Hg. split.
    + intros r.
      destruct (setGroupColor_recolors d m s k group_name color links r Hm Hs Hk Hg)
        as (r1 & H1 & Hre1).
      destruct (unsetGroupColor_recolors d m s k group_name links r1 Hm Hs Hk Hg)
        as (r2 & H2 & Hre2).
      exists r1, r2. split; [exact H1|]. split; [exact H2|].
      exact (recolored_twice links _ _ r r1 r2 Hre1 Hre2).
    + intros r Hr.
      destruct (setGroupColor_recolors d m s k group_name color links r Hm Hs Hk Hg)
        as (r1 & H1 & Hre1).
      pose (d1 := set_planning_scene_robot_ (Some r1) d).
      assert (Hm1 : planning_scene_monitor_ d1 = Some m) by (destruct d; exact Hm).
      destruct (unsetGroupColor_recolors d1 m s k group_name links r1 Hm1 Hs Hk Hg)
        as (r2 & H2 & Hre2).
      exists r2. split; [|exact (recolored_twice links _ _ r r1 r2 Hre1 Hre2)].
      assert (Hrun1 : run (op_setGroupColor own_robot group_name color) d
                      = (Returns tt, d1)).
      { unfold run. apply (discard_returns _ d (Some r1)).
        apply on_robot_pointer_own. rewrite Hr. exact H1. }
      assert (Hrun2 : run (op_unsetGroupColor own_robot group_name) d1
                      = (Returns tt, set_planning_scene_robot_ (Some r2) d1)).
      { unfold run. apply (discard_returns _ d1 (Some r2)).
        apply on_robot_pointer_own.
        replace (planning_scene_robot_ d1) with (Some r1) by (destruct d; reflexivity).
        exact H2. }
      unfold run_all. unfold bind at 1. rewrite Hrun1.
      unfold bind at 1. rewrite Hrun2. unfold ret. destruct d; reflexivity.
Qed.

Lemma unsetting_colors_clears_the_listed_links_witness :
  exists r r1 r2,
    planning_scene_robot_ (Example.loaded false) = Some r
    /\ run (op_setGroupColor own_robot "arm" (mkQColor 255 0 0)) (Example.loaded false)
       = (Returns tt, set_planning_scene_robot_ (Some r1) (Example.loaded false))
    /\ Robot_getLink r1 "shoulder"
       = Some (mkRobotLink (Some (rviz_Color_of (mkQColor 255 0 0))))
    /\ run (op_unsetAllColors own_robot)
         (set_planning_scene_robot_ (Some r1) (Example.loaded false))
       = (Returns tt, set_planning_scene_robot_ (Some r2)
                        (set_planning_scene_robot_ (Some r1) (Example.loaded false)))
    /\ Robot_getLink r2 "shoulder" = Some (mkRobotLink None)
    /\ Robot_getLink r2 "elbow"
       = Some (mkRobotLink (Some (rviz_Color_of (mkQColor 255 0 0)))).
Proof.
  destruct (planning_scene_monitor_ (Example.loaded false)) as [m|] eqn:Em;
    [|discriminate Em].
  destruct (planning_scene_robot_ (Example.loaded false)) as [r|] eqn:Er;
    [|discriminate Er].
  assert (Hs : psm_planning_scene m = Some Example.scene)
    by (vm_compute in Em; inversion Em; reflexivity).
  assert (Hk : psm_kinematic_model m = Some Example.model)
    by (vm_compute in Em; inversion Em; reflexivity).
  destruct (setGroupColor_recolors (Example.loaded false) m Example.scene Example.model
              "arm" (mkQColor 255 0 0) ["shoulder"; "elbow"] r Em Hs Hk eq_refl)
    as (r1 & Hset & _ & Hin1 & _).
  assert (Hrun1 : run (op_setGroupColor own_robot "arm" (mkQColor 255 0 0))
                    (Example.loaded false)
                  = (Returns tt,
                     set_planning_scene_robot_ (Some r1) (Example.loaded false))).
  { unfold run. apply (discard_returns _ _ (Some r1)).
    apply on_robot_pointer_own. rewrite Er. exact Hset. }
  assert (Hsh : Robot_getLink r1 "shoulder"
                = Some (mkRobotLink (Some (rviz_Color_of (mkQColor 255 0 0))))).
  { apply (Hin1 "shoulder" (mkRobotLink None)); [left; reflexivity|].
    vm_compute in Er. inversion Er. reflexivity. }
  assert (Hel : Robot_getLink r1 "elbow"
                = Some (mkRobotLink (Some (rviz_Color_of (mkQColor 255 0 0))))).
  { apply (Hin1 "elbow" (mkRobotLink None)); [right; left; reflexivity|].
    vm_compute in Er. inversion Er. reflexivity. }
  pose (d1 := set_planning_scene_robot_ (Some r1) (Example.loaded false)).
  assert (Em1 : planning_scene_monitor_ d1 = Some m).
  { unfold d1. destruct (Example.loaded false). exact Em. }
  assert (Er1 : planning_scene_robot_ d1 = Some r1).
  { unfold d1. destruct (Example.loaded false). reflexivity. }
  destruct (proj1 (proj2 (unsetting_colors_clears_the_listed_links
                            d1 m Example.scene Example.model Em1 Hs Hk)) r1 Er1)
    as (r2 & Hrun2 & _ & Hin2 & Hout2 & _).
  exists r, r1, r2. split; [reflexivity|]. split; [exact Hrun1|]. split; [exact Hsh|].
  split; [exact Hrun2|]. split.
  - apply (Hin2 "shoulder" _ (or_intror (or_introl eq_refl)) Hsh).
  - rewrite Hout2; [exact Hel|]. intros [H|[H|[]]]; discriminate H.
Defined.

(** ** Placing the scene node *)

(** X7: [calculateOffsetPosition] on a display with monitor, scene and
    scene node.  If tf has no common time for the fixed frame and the
    planning frame it returns the display unchanged.  Otherwise it places
    the scene node: at the transformed pose if the transform succeeds; at
    the untransformed identity pose (origin, no rotation) if tf cannot
    transform; and also at the identity pose, after logging the transform
    error, if [transformPose] throws: the exception is caught. *)
Theorem calculateOffsetPosition_places_the_scene_node
    (d : PlanningSceneDisplay) (m : PlanningSceneMonitor) (s : PlanningScene)
    (n : SceneNode) :
  planning_scene_monitor_ d = Some m ->
  psm_planning_scene m = Some s ->
  planning_scene_node_ d = Some n ->
  let ctx := context_ (base d) in
  let fixed := fixed_frame_ (base d) in
  let frame := ps_planning_frame s in
  (getLatestCommonTime ctx fixed frame = None ->
   calculateOffsetPosition d = (Returns tt, d))
  /\ (forall stamp,
        getLatestCommonTime ctx fixed frame = Some stamp ->
        let identity := identity_pose stamp frame in
        let origin :=
          SceneNode_setOrientation
            (SceneNode_setPosition n (Float.zero, Float.zero, Float.zero))
            (Float.one, Float.zero, Float.zero, Float.zero) in
        (canTransform ctx fixed frame stamp = false ->
         calculateOffsetPosition d
         = (Returns tt, set_planning_scene_node_ (Some origin) d))
        /\ (canTransform ctx fixed frame stamp = true ->
            forall p, transformPose ctx fixed identity = Some p ->
            calculateOffsetPosition d
            = (Returns tt, set_planning_scene_node_ (Some (node_at p n)) d))
        /\ (canTransform ctx fixed frame stamp = true ->
            transformPose ctx fixed identity = None ->
            calculateOffsetPosition d
            = (Returns tt,
               set_planning_scene_node_ (Some origin)
                 (set_trace (fun t => (t ++ [transform_error frame fixed])%list) d)))).
Proof.
  intros Hm Hs Hn ctx fixed frame. subst ctx fixed frame.
  destruct d as [b p r nd g mo re t nr tr]. simpl in *. subst.
  unfold calculateOffsetPosition, transform_error. exec. rewrite Hs. exec.
  split.
  - intros Ht. rewrite Ht. reflexivity.
  - intros stamp Ht. rewrite Ht. split; [|split].
    + intros Hc. rewrite Hc. reflexivity.
    + intros Hc q Hq. rewrite Hc, Hq. exec. unfold node_at.
      destruct (pose_origin q) as [[x y] z].
      destruct (pose_rotation q) as [[[qx qy] qz] qw]. reflexivity.
    + intros Hc Hq. rewrite Hc, Hq. reflexivity.
Qed.

Lemma calculateOffsetPosition_places_the_scene_node_witness :
  exists m n,
    planning_scene_monitor_ (Example.loaded false) = Some m
    /\ planning_scene_node_ (Example.loaded false) = Some n
    /\ calculateOffsetPosition (Example.loaded false)
       = (Returns tt,
          set_planning_scene_node_ (Some (node_at (identity_pose 7 "odom") n))
            (Example.loaded false)).
Proof.
  destruct (planning_scene_monitor_ (Example.loaded false)) as [m|] eqn:Em;
    [|discriminate Em].
  destruct (planning_scene_node_ (Example.loaded false)) as [n|] eqn:En;
    [|discriminate En].
  assert (Hs : psm_planning_scene m = Some Example.scene)
    by (vm_compute in Em; inversion Em; reflexivity).
  exists m, n. split; [reflexivity|]. split; [reflexivity|].
  exact (proj1 (proj2 (proj2 (calculateOffsetPosition_places_the_scene_node
                                (Example.loaded false) m Example.scene n Em Hs En)
                               7 eq_refl))
           eq_refl (identity_pose 7 "odom") eq_refl).
Defined.

(** ** The scene name, written and read back *)

(** X8: on a display whose monitor has a scene and a model, an edit of the
    scene-name property writes the name into the monitor's scene and leaves
    the rest of the scene alone; the update callback that follows reads the
    same name back into the property. *)
Theorem scene_name_round_trip
    (d : PlanningSceneDisplay) (m : PlanningSceneMonitor) (s : PlanningScene)
    (k : KinematicModel) (v : string) (update_type : SceneUpdateType) :
  planning_scene_monitor_ d = Some m ->
  psm_planning_scene m = Some s ->
  psm_kinematic_model m = Some k ->
  exists d',
    run_all [op_edit (edit_scene_name v); op_sceneMonitorReceivedUpdate update_type] d
    = (Returns tt, d')
    /\ scene_name_property_ (props d') = v
    /\ planning_scene_monitor_ d'
       = Some (psm_set_planning_scene m (Some (PlanningScene_setName s v)))
    /\ ps_configured (PlanningScene_setName s v) = ps_configured s
    /\ ps_planning_frame (PlanningScene_setName s v) = ps_planning_frame s
    /\ ps_current_state (PlanningScene_setName s v) = ps_current_state s.
Proof.
  intros Hm Hs Hk.
  destruct d as [b p r nd g mo re t nr tr]. simpl in Hm. subst.
  eexists. split.
  - simpl. unfold edit, changedSceneName, sceneMonitorReceivedUpdate,
      onSceneMonitorReceivedUpdate. exec. rewrite Hs. exec. rewrite Hs. exec.
    rewrite Hk. reflexivity.
  - repeat split.
Qed.

Lemma scene_name_round_trip_witness :
  exists d',
    run_all [op_edit (edit_scene_name "pantry");
             op_sceneMonitorReceivedUpdate UPDATE_SCENE] (Example.loaded false)
    = (Returns tt, d')
    /\ scene_name_property_ (props d') = "pantry".
Proof.
  destruct (planning_scene_monitor_ (Example.loaded false)) as [m|] eqn:Em;
    [|discriminate Em].
  assert (Hs : psm_planning_scene m = Some Example.scene)
    by (vm_compute in Em; inversion Em; reflexivity).
  assert (Hk : psm_kinematic_model m = Some Example.model)
    by (vm_compute in Em; inversion Em; reflexivity).
  destruct (scene_name_round_trip (Example.loaded false) m Example.scene
              Example.model "pantry" UPDATE_SCENE Em Hs Hk) as (d' & H1 & H2 & _).
  exists d'. auto.
Defined.

(** ** Exceptions stay inside *)

Lemma no_throw_ret {A} (a : A) : no_throw (ret a).
Proof. intros d e. discriminate. Qed.

Lemma no_throw_get : no_throw get.
Proof. intros d e. discriminate. Qed.

Lemma no_throw_modify f : no_throw (modify f).
Proof. intros d e. discriminate. Qed.

Lemma no_throw_deref {A} s (p : option A) : no_throw (deref s p).
Proof. intros d e. destruct p; discriminate. Qed.

Lemma no_throw_bind {A B} (c : M A) (k : A -> M B) :
  no_throw c -> (forall a, no_throw (k a)) -> no_throw (bind c k).
Proof.
  intros Hc Hk d e. unfold bind. specialize (Hc d).
  destruct (c d) as [[a|f] d']; simpl in *.
  - apply Hk.
  - intros H. inversion H. subst. exact (Hc e eq_refl).
Qed.

(** Whatever the body throws, [catch (...)] handles it. *)
Lemma no_throw_try_catch_all {A} (body handler : M A) :
  no_throw handler -> no_throw (try_catch_all body handler).
Proof.
  intros Hh d e. unfold try_catch_all.
  destruct (body d) as [[a|[s|e']] d']; simpl; try discriminate. apply Hh.
Qed.

(** [catch (tf::TransformException&)] handles what a body throws that only
    throws that exception. *)
Lemma no_throw_try_catch_TransformException {A} (body handler : M A) :
  (forall d e, fst (body d) = Fails (Thrown e) -> exists w, e = tf_TransformException w) ->
  no_throw handler ->
  no_throw (try_catch_TransformException body handler).
Proof.
  intros Hb Hh d e. unfold try_catch_TransformException. specialize (Hb d).
  destruct (body d) as [[a|[s|[w|w]]] d']; simpl in *; try discriminate.
  - apply Hh.
  - destruct (Hb _ eq_refl) as [w' Hw]. discriminate Hw.
Qed.

Lemma no_throw_for_each_link body robot links :
  (forall r l, no_throw (body r l)) -> no_throw (for_each_link body robot links).
Proof.
  intros Hb. revert robot. induction links as [|l links IH]; intros robot; simpl.
  - apply no_throw_ret.
  - apply no_throw_bind; auto.
Qed.

Lemma no_throw_Display_load config :
  (forall e, no_throw (edit e)) -> no_throw (Display_load config).
Proof.
  intros He. induction config as [|e config IH]; simpl.
  - apply no_throw_ret.
  - apply no_throw_bind; auto.
Qed.

Lemma no_throw_call_all cbs update_type :
  (forall cb, no_throw (call cb update_type)) -> no_throw (call_all cbs update_type).
Proof.
  intros Hc. induction cbs as [|cb cbs IH]; simpl.
  - apply no_throw_ret.
  - apply no_throw_bind; auto.
Qed.

Ltac no_throw_step :=
  lazymatch goal with
  | |- no_throw (bind _ _) => apply no_throw_bind; [|intros ?]
  | |- no_throw (ret _) => apply no_throw_ret
  | |- no_throw get => apply no_throw_get
  | |- no_throw (modify _) => apply no_throw_modify
  | |- no_throw (deref _ _) => apply no_throw_deref
  | |- no_throw (try_catch_all _ _) => apply no_throw_try_catch_all
  | |- no_throw (try_catch_TransformException _ _) =>
      apply no_throw_try_catch_TransformException;
      [intros ? ?; match goal with
                   | |- context [match ?x with _ => _ end] => destruct x
                   end; simpl; intros H; inversion H; eauto|]
  | |- no_throw (for_each_link _ _ _) => apply no_throw_for_each_link; intros ? ?
  | |- no_throw (Display_load _) => apply no_throw_Display_load; intros ?
  | |- no_throw (call_all _ _) => apply no_throw_call_all; intros ?
  | |- no_throw (run ?o) => is_var o; destruct o
  | |- no_throw (edit ?e) => is_var e; destruct e
  | |- no_throw (call ?cb _) => is_var cb; destruct cb
  | |- no_throw (if ?b then _ else _) => destruct b
  | |- no_throw (match ?x with _ => _ end) => destruct x
  | |- no_throw (let '(_, _) := ?x in _) => destruct x
  end.

Ltac no_throw_auto :=
  repeat first
    [ assumption
    | no_throw_step
    | progress unfold_dispatch
    | progress (unfold scene_update_message, on_monitor, on_robot,
                  on_geometry_node, on_scene_node, on_robot_pointer)
    | progress unfold_calls
    | progress unfold_load_render ].

(** X9: no operation of the display ends with an exception, on any
    display: what the renderer throws is caught in [renderPlanningScene],
    what [transformPose] throws is caught in [calculateOffsetPosition], and
    nothing else throws. *)
Theorem no_exception_leaves_the_display (o : operation) (d : PlanningSceneDisplay)
    (e : exception) :
  fst (run o d) <> Fails (Thrown e).
Proof.
  revert d e. change (no_throw (run o)). no_throw_auto.
Qed.

(** ** Operations of an initialized display return *)

Lemma keeps_and strict (I1 I2 : PlanningSceneDisplay -> Prop) {A} (c : M A) :
  keeps strict I1 c -> keeps strict I2 c ->
  keeps strict (fun d => I1 d /\ I2 d) c.
Proof.
  intros H1 H2 d [Hd1 Hd2]. specialize (H1 d Hd1). specialize (H2 d Hd2).
  destruct (fst (c d)); [split; assumption|].
  intros Hs. split; auto.
Qed.

Lemma setLinkColor_keeps_robot link_name color :
  preserves (fun d => nonnull (planning_scene_robot_ d) = true)
    (setLinkColor link_name color).
Proof.
  apply snd_preserves. intros d. unfold setLinkColor, setLinkColor_robot.
  destruct d as [b p r nd g mo re t nr tr]. exec.
  destruct r as [r|]; exec; [|auto].
  destruct (Robot_getLink r link_name); exec; auto.
Qed.

Lemma unsetLinkColor_keeps_robot link_name :
  preserves (fun d => nonnull (planning_scene_robot_ d) = true)
    (unsetLinkColor link_name).
Proof.
  apply snd_preserves. intros d. unfold unsetLinkColor, unsetLinkColor_robot.
  destruct d as [b p r nd g mo re t nr tr]. exec.
  destruct r as [r|]; exec; [|auto].
  destruct (Robot_getLink r link_name); exec; auto.
Qed.

Lemma run_keeps_robot o :
  preserves (fun d => nonnull (planning_scene_robot_ d) = true) (run o).
Proof.
  pose proof setLinkColor_keeps_robot. pose proof unsetLinkColor_keeps_robot.
  preserve_with nullness_frame.
Qed.

Lemma run_keeps_context o :
  safe_operation o = true ->
  preserves (fun d => well_formed_context (context_ (base d))) (run o).
Proof.
  intros Ho. destruct o; try discriminate Ho; preserve_with field_frame.
Qed.

Lemma run_keeps_ready o :
  safe_operation o = true -> preserves_on_return ready (run o).
Proof.
  intros Ho. unfold ready.
  apply keeps_and; [apply keeps_weaken, run_keeps_robot|].
  apply keeps_and; [apply keeps_weaken, run_keeps_context, Ho|].
  apply keeps_and; [apply run_keeps_loaded_invariant|].
  apply keeps_weaken, run_preserves_renderer_has_monitor.
Qed.

(** ** Operations of an initialized display return, continued *)

Lemma loadRobotModel_cases d r :
  well_formed_context (context_ (base d)) ->
  planning_scene_robot_ d = Some r ->
  loadRobotModel d = (Returns tt, after_failed_load d)
  \/ exists s k u, loadRobotModel d = (Returns tt, after_successful_load d s k u r).
Proof.
  intros Hwf Hr. destruct (scene_configured d) eqn:Hc.
  - right. unfold scene_configured in Hc.
    destruct (constructed_monitor d) as [ps km] eqn:Em. simpl in Hc.
    destruct ps as [s|]; [|discriminate].
    destruct (Hwf (robot_description_property_ (props d))
                (String.append (name_ (base d)) "_planning_scene_monitor") s)
      as (k & u & Hk & Hu).
    + unfold constructed_monitor in Em. rewrite Em. reflexivity.
    + exact Hc.
    + unfold constructed_monitor in Em. rewrite Em in Hk. simpl in Hk. subst km.
      exists s, k, u. exact (loadRobotModel_success d s k u r Em Hc Hu Hr).
  - left. exact (loadRobotModel_failure d Hc).
Qed.

Ltac ready_state d H :=
  destruct d as [b p r nd g mo re t nr tr];
  destruct H as (Hrobot & Hwf & (Hg & Hr & Hm) & Hrm);
  unfold renderer_has_monitor in Hrm; simpl in *;
  destruct r as [r|]; [|discriminate];
  destruct (Hg eq_refl) as [Hgeo Hnode];
  destruct g as [g|]; [|discriminate];
  destruct nd as [nd|]; [|discriminate];
  destruct mo as [m|];
  [ destruct (Hm m eq_refl) as [Hs Hk];
    destruct m as [nm [s|] [k|] cbs topic lk]; try discriminate
  | destruct re; [discriminate (Hrm eq_refl)|] ];
  clear Hrobot Hg Hr Hm Hrm Hgeo Hnode.

Ltac load_step :=
  match goal with
  | Hwf : well_formed_context _ |- context [loadRobotModel ?X] =>
      let H := fresh in
      let rb := eval simpl in (planning_scene_robot_ X) in
      match rb with
      | Some ?r0 =>
          destruct (loadRobotModel_cases X r0 Hwf eq_refl) as [H|(? & ? & ? & H)];
          rewrite H; clear H;
          unfold after_failed_load, after_successful_load
      end
  end.

Ltac case_step :=
  match goal with
  | |- context [match ?x with _ => _ end] =>
      lazymatch x with
      | context [loadRobotModel] => fail
      | context [match _ with _ => _ end] => fail
      | _ => destruct x eqn:?; try discriminate
      end
  end.

Ltac returns_loop :=
  repeat first
    [ progress exec
    | progress (unfold_dispatch; unfold_calls;
                unfold renderPlanningScene, PlanningSceneRender_renderPlanningScene,
                  lockScene, unlockScene, on_robot_pointer)
    | load_step
    | case_step ];
  try (eexists; reflexivity).

Lemma call_all_returns update_type cbs : forall d m s k,
  planning_scene_monitor_ d = Some m ->
  psm_planning_scene m = Some s ->
  psm_kinematic_model m = Some k ->
  exists d', call_all cbs update_type d = (Returns tt, d').
Proof.
  induction cbs as [|cb cbs IH]; intros d m s k Hm Hs Hk; simpl.
  - eexists. reflexivity.
  - destruct cb. unfold bind, call.
    rewrite (sceneMonitorReceivedUpdate_refreshes d m s k update_type Hm Hs Hk).
    apply (IH _ m s k); assumption.
Qed.

Ltac loop_returns body_eq f :=
  match goal with
  | |- context [for_each_link ?body (Some ?r0) ?links ?X] =>
      let r' := fresh "r'" in
      let Hrun := fresh "Hrun" in
      destruct (for_each_link_recolors f body body_eq links r0 X)
        as (r' & Hrun & _);
      rewrite Hrun; eexists; reflexivity
  end.

Ltac group_call_returns body_eq f :=
  unfold_dispatch;
  unfold on_robot_pointer, setGroupColor, unsetGroupColor, unsetAllColors; exec;
  try (match goal with
       | |- context [getJointModelGroup ?k ?g] =>
           destruct (getJointModelGroup k g) as [links|]; [|eexists; reflexivity]
       end);
  loop_returns body_eq f.

Lemma operation_returns o d :
  (forall config, o <> op_load config) ->
  safe_operation o = true -> ready d -> exists d', run o d = (Returns tt, d').
Proof.
  intros Hnl Ho Hd.
  destruct o; try (exfalso; eapply Hnl; reflexivity);
    try (match goal with p : RobotPointer |- _ => destruct p as [|[r0|]] end);
    try discriminate Ho;
    ready_state d Hd.
  all: try (solve [returns_loop]).
  - unfold_dispatch. unfold scene_update_message. exec.
    eapply call_all_returns; reflexivity.
  - group_call_returns (setLinkColor_robot_eq color)
      (fun _ : RobotLink => mkRobotLink (Some (rviz_Color_of color))).
  - group_call_returns (setLinkColor_robot_eq color)
      (fun _ : RobotLink => mkRobotLink (Some (rviz_Color_of color))).
  - group_call_returns unsetLinkColor_robot_eq (fun _ : RobotLink => mkRobotLink None).
  - group_call_returns unsetLinkColor_robot_eq (fun _ : RobotLink => mkRobotLink None).
  - group_call_returns unsetLinkColor_robot_eq (fun _ : RobotLink => mkRobotLink None).
  - group_call_returns unsetLinkColor_robot_eq (fun _ : RobotLink => mkRobotLink None).
Qed.

Lemma Display_load_returns config : forall d,
  ready d -> exists d', Display_load config d = (Returns tt, d') /\ ready d'.
Proof.
  induction config as [|e config IH]; intros d Hd; simpl.
  - exists d. split; [reflexivity|exact Hd].
  - destruct (operation_returns (op_edit e) d) as [d1 H1];
      [discriminate|reflexivity|exact Hd|].
    simpl in H1. unfold bind. rewrite H1.
    apply IH.
    pose proof (run_keeps_ready (op_edit e) eq_refl d Hd) as Hk.
    simpl in Hk. rewrite H1 in Hk. exact Hk.
Qed.

Lemma safe_operation_returns o d :
  safe_operation o = true -> ready d ->
  exists d', run o d = (Returns tt, d') /\ ready d'.
Proof.
  intros Ho Hd.
  assert (Hret : exists d', run o d = (Returns tt, d')).
  { destruct o; try (apply operation_returns; [discriminate|exact Ho|exact Hd]).
    destruct (Display_load_returns config d Hd) as (d' & H & _).
    exists d'. exact H. }
  destruct Hret as [d' Hret]. exists d'. split; [exact Hret|].
  pose proof (run_keeps_ready o Ho d Hd) as Hk. rewrite Hret in Hk. exact Hk.
Qed.

Lemma safe_operations_return os : forall d,
  forallb safe_operation os = true -> ready d ->
  exists d', run_all os d = (Returns tt, d') /\ ready d'.
Proof.
  induction os as [|o os IH]; intros d Hos Hd; simpl in *.
  - exists d. split; [reflexivity|exact Hd].
  - apply andb_true_iff in Hos as [Ho Hos].
    destruct (safe_operation_returns o d Ho Hd) as (d1 & H1 & Hd1).
    unfold bind. rewrite H1. apply IH; assumption.
Qed.

Lemma onInitialize_ready context name :
  well_formed_context context ->
  exists d, onInitialize (PlanningSceneDisplay_new context name) = (Returns tt, d)
            /\ ready d.
Proof.
  intros Hwf. eexists. split; [reflexivity|].
  unfold ready, loaded_invariant, renderer_has_monitor. simpl.
  repeat split; auto; intros; discriminate.
Qed.

(** X10: with a host whose configured planning scenes come with a
    kinematic model and URDF, the display initialized by [onInitialize] runs
    every sequence of operations to the end: enabling and disabling, reset,
    updates, property edits and loaded configurations, fixed-frame changes,
    scene-update messages, link and group coloring of a robot, the slots and
    the protected members return, none dereferences a null pointer.  Left
    out are a change of the host context, the update callback and
    [onRobotModelLoaded] called directly, and the robot functions on a null
    robot. *)
Theorem initialized_display_never_fails
    (context : DisplayContext) (name : string) (os : list operation) :
  well_formed_context context ->
  forallb safe_operation os = true ->
  exists d,
    run_all (op_onInitialize :: os) (PlanningSceneDisplay_new context name)
    = (Returns tt, d)
    /\ nonnull (planning_scene_robot_ d) = true
    /\ nonnull (planning_scene_geometry_node_ d) = true.
Proof.
  intros Hwf Hos.
  destruct (onInitialize_ready context name Hwf) as (d0 & H0 & Hd0).
  destruct (safe_operations_return os d0 Hos Hd0) as (d & H & Hd).
  exists d. split.
  - simpl. unfold bind at 1. rewrite H0. exact H.
  - destruct Hd as (Hr & _ & (Hg & _) & _). split; [exact Hr|]. apply Hg. exact Hr.
Qed.

Lemma Example_context_well_formed throws :
  well_formed_context (Example.context throws).
Proof.
  intros descr name s Hs Hc. simpl in *.
  exists Example.model, (mkURDF ["base_link"; "shoulder"; "elbow"]).
  split; reflexivity.
Qed.

Lemma initialized_display_never_fails_witness :
  exists d,
    run_all [op_onInitialize; op_setEnabled true; op_update Float.one Float.one;
             op_edit (edit_robot_description "other_description");
             op_setFixedFrame "map"; op_setEnabled false; op_reset]
      (PlanningSceneDisplay_new (Example.context true) "Planning Scene")
    = (Returns tt, d)
    /\ nonnull (planning_scene_robot_ d) = true
    /\ nonnull (planning_scene_geometry_node_ d) = true.
Proof.
  exact (initialized_display_never_fails (Example.context true) "Planning Scene"
           [op_setEnabled true; op_update Float.one Float.one;
            op_edit (edit_robot_description "other_description");
            op_setFixedFrame "map"; op_setEnabled false; op_reset]
           (Example_context_well_formed true) eq_refl).
Defined.

(** ** Property edits on a disabled display *)

(** X11: disabling a display that has a monitor, a robot visual and a
    geometry node stops the monitor and hides both, but keeps the monitor
    and the renderer.  On the disabled display an edit of the topic starts
    the monitor again on the new topic, and an edit of "Show Scene
    Geometry" to true makes the geometry node visible again, while an edit
    of "Show Scene Robot" to true leaves the robot hidden: only
    [changedSceneRobotEnabled] asks whether the display is enabled. *)
Theorem edits_on_a_disabled_display
    (d : PlanningSceneDisplay) (m : PlanningSceneMonitor) (r : Robot) (g : SceneNode)
    (topic : string) :
  planning_scene_monitor_ d = Some m ->
  planning_scene_robot_ d = Some r ->
  planning_scene_geometry_node_ d = Some g ->
  exists d0,
    run (op_setEnabled false) d = (Returns tt, d0)
    /\ planning_scene_monitor_ d0 = Some (psm_stopSceneMonitor m)
    /\ planning_scene_render_ d0 = planning_scene_render_ d
    /\ planning_scene_robot_ d0 = Some (Robot_setVisible r false)
    /\ planning_scene_geometry_node_ d0 = Some (SceneNode_setVisible g false)
    /\ (exists d1,
          run (op_edit (edit_planning_scene_topic topic)) d0 = (Returns tt, d1)
          /\ enabled_ (base d1) = false
          /\ planning_scene_monitor_ d1
             = Some (psm_startSceneMonitor (psm_stopSceneMonitor m) topic))
    /\ (exists d2,
          run (op_edit (edit_scene_enabled true)) d0 = (Returns tt, d2)
          /\ enabled_ (base d2) = false
          /\ planning_scene_geometry_node_ d2
             = Some (SceneNode_setVisible (SceneNode_setVisible g false) true))
    /\ (exists d3,
          run (op_edit (edit_scene_robot_enabled true)) d0 = (Returns tt, d3)
          /\ enabled_ (base d3) = false
          /\ planning_scene_robot_ d3 = Some (Robot_setVisible r false)).
Proof.
  intros Hm Hr Hg.
  destruct d as [b p r0 nd g0 mo re t nr tr]. simpl in *. subst.
  eexists. split; [reflexivity|].
  repeat (split; [reflexivity|]).
  split; [|split]; eexists; (split; [reflexivity|]); split; reflexivity.
Qed.

Lemma edits_on_a_disabled_display_witness :
  exists d0 d1 m1,
    run (op_setEnabled false) (Example.loaded false) = (Returns tt, d0)
    /\ run (op_edit (edit_planning_scene_topic "other_scene")) d0 = (Returns tt, d1)
    /\ enabled_ (base d1) = false
    /\ planning_scene_monitor_ d1 = Some m1
    /\ psm_scene_topic m1 = Some "other_scene".
Proof.
  destruct (planning_scene_monitor_ (Example.loaded false)) as [m|] eqn:Em;
    [|discriminate Em].
  destruct (planning_scene_robot_ (Example.loaded false)) as [r|] eqn:Er;
    [|discriminate Er].
  destruct (planning_scene_geometry_node_ (Example.loaded false)) as [g|] eqn:Eg;
    [|discriminate Eg].
  destruct (edits_on_a_disabled_display (Example.loaded false) m r g "other_scene"
              Em Er Eg)
    as (d0 & H0 & _ & _ & _ & _ & (d1 & H1 & H2 & H3) & _).
  exists d0, d1, (psm_startSceneMonitor (psm_stopSceneMonitor m) "other_scene").
  repeat split; assumption.
Defined.

(** ** Edits of the robot description *)

(** [reset] on a display with a robot visual, by the branch its load
    takes. *)
Lemma reset_failure d r :
  planning_scene_robot_ d = Some r ->
  scene_configured d = false ->
  exists d',
    reset d = (Returns tt, d')
    /\ props d' = props d
    /\ planning_scene_monitor_ d' = None
    /\ planning_scene_render_ d' = None
    /\ planning_scene_robot_ d'
       = Some (Robot_setVisible (Robot_clear r)
                 (scene_robot_enabled_property_ (props d))).
Proof.
  intros Hr Hc.
  destruct d as [b p r0 nd g mo re t nr tr]. simpl in Hr. subst r0.
  pose proof (loadRobotModel_failure
                (mkPlanningSceneDisplay b p (Some (Robot_clear r)) nd g mo None t nr tr)
                Hc) as Hl.
  eexists. split.
  - unfold reset. exec. unfold after_failed_load in Hl. exec.
    rewrite Hl. exec. reflexivity.
  - simpl. repeat split; reflexivity.
Qed.

Lemma reset_success d r s k u :
  planning_scene_robot_ d = Some r ->
  constructed_monitor d = (Some s, Some k) ->
  ps_configured s = true ->
  km_urdf k = Some u ->
  exists d' m,
    reset d = (Returns tt, d')
    /\ robot_description_property_ (props d') = robot_description_property_ (props d)
    /\ scene_name_property_ (props d') = ps_name s
    /\ root_link_name_property_ (props d') = km_root_link_name k
    /\ planning_scene_monitor_ d' = Some m
    /\ psm_planning_scene m = Some s
    /\ psm_kinematic_model m = Some k
    /\ psm_scene_topic m = Some (planning_scene_topic_property_ (props d))
    /\ planning_scene_render_ d' = Some mkPlanningSceneRender
    /\ planning_scene_robot_ d'
       = Some (Robot_setVisible
                 (Robot_update (Robot_load (Robot_clear r) u) (ps_current_state s))
                 (scene_robot_enabled_property_ (props d))).
Proof.
  intros Hr Hm Hc Hu.
  destruct d as [b p r0 nd g mo re t nr tr]. simpl in Hr. subst r0.
  pose proof (loadRobotModel_success
                (mkPlanningSceneDisplay b p (Some (Robot_clear r)) nd g mo None t nr tr)
                s k u (Robot_clear r) Hm Hc Hu eq_refl) as Hl.
  eexists. eexists. split.
  - unfold reset. exec. unfold after_successful_load in Hl. exec.
    rewrite Hl. exec. reflexivity.
  - simpl. repeat split; reflexivity.
Qed.

(** [onEnable] with a successful load returns with the loaded monitor,
    wherever [calculateOffsetPosition] puts the scene node. *)
Lemma onEnable_success d r g n s k u :
  planning_scene_robot_ d = Some r ->
  planning_scene_geometry_node_ d = Some g ->
  planning_scene_node_ d = Some n ->
  constructed_monitor d = (Some s, Some k) ->
  ps_configured s = true ->
  km_urdf k = Some u ->
  exists d',
    onEnable d = (Returns tt, d')
    /\ props d' = props (after_successful_load d s k u r)
    /\ planning_scene_monitor_ d'
       = planning_scene_monitor_ (after_successful_load d s k u r)
    /\ planning_scene_render_ d' = Some mkPlanningSceneRender.
Proof.
  intros Hr Hg Hn Hm Hc Hu.
  pose proof (loadRobotModel_success d s k u r Hm Hc Hu Hr) as Hl.
  destruct d as [b p r0 nd g0 mo re t nr tr]. simpl in Hr, Hg, Hn. subst r0 g0 nd.
  unfold onEnable. exec. unfold after_successful_load in *. exec. rewrite Hl. exec.
  unfold calculateOffsetPosition. exec.
  destruct (getLatestCommonTime _ _ _) as [stamp|]; exec.
  2: { eexists. split; [reflexivity|]. simpl. repeat split; reflexivity. }
  destruct (canTransform _ _ _ _); exec.
  - destruct (transformPose _ _ _) as [q|]; exec.
    + destruct (pose_origin q) as [[x y] z], (pose_rotation q) as [[[qx qy] qz] qw].
      exec. eexists. split; [reflexivity|]. simpl. repeat split; reflexivity.
    + eexists. split; [reflexivity|]. simpl. repeat split; reflexivity.
  - eexists. split; [reflexivity|]. simpl. repeat split; reflexivity.
Qed.

(** X12: an edit of the robot description reloads the robot model only on
    an enabled display.  On a disabled display with a robot visual the edit
    changes the property and nothing else, so the monitor and the renderer
    stay those of the old description; enabling the display afterwards loads
    the new description.  On an enabled display the edit runs [reset]: the
    robot visual is cleared and made visible as the property says, and if
    the host has a configured scene for the new description the display ends
    with a monitor of that scene and model on the topic of the property, a
    renderer, the robot loaded from the model's URDF and both name
    properties refreshed; if not, it ends without monitor and renderer. *)
Theorem robot_description_edit_reloads_only_when_enabled
    (d : PlanningSceneDisplay) (r : Robot) (v : string) :
  planning_scene_robot_ d = Some r ->
  let edited := set_props (set_robot_description_property_ v) d in
  (enabled_ (base d) = false ->
   run (op_edit (edit_robot_description v)) d = (Returns tt, edited)
   /\ (forall g n s k u,
         planning_scene_geometry_node_ d = Some g ->
         planning_scene_node_ d = Some n ->
         constructed_monitor edited = (Some s, Some k) ->
         ps_configured s = true ->
         km_urdf k = Some u ->
         exists d' m,
           run_all [op_edit (edit_robot_description v); op_setEnabled true] d
           = (Returns tt, d')
           /\ planning_scene_monitor_ d' = Some m
           /\ psm_planning_scene m = Some s
           /\ psm_kinematic_model m = Some k
           /\ planning_scene_render_ d' = Some mkPlanningSceneRender))
  /\ (enabled_ (base d) = true ->
      (scene_configured edited = false ->
       exists d',
         run (op_edit (edit_robot_description v)) d = (Returns tt, d')
         /\ robot_description_property_ (props d') = v
         /\ planning_scene_monitor_ d' = None
         /\ planning_scene_render_ d' = None
         /\ planning_scene_robot_ d'
            = Some (Robot_setVisible (Robot_clear r)
                      (scene_robot_enabled_property_ (props d))))
      /\ (forall s k u,
            constructed_monitor edited = (Some s, Some k) ->
            ps_configured s = true ->
            km_urdf k = Some u ->
            exists d' m,
              run (op_edit (edit_robot_description v)) d = (Returns tt, d')
              /\ robot_description_property_ (props d') = v
              /\ scene_name_property_ (props d') = ps_name s
              /\ root_link_name_property_ (props d') = km_root_link_name k
              /\ planning_scene_monitor_ d' = Some m
              /\ psm_planning_scene m = Some s
              /\ psm_kinematic_model m = Some k
              /\ psm_scene_topic m = Some (planning_scene_topic_property_ (props d))
              /\ planning_scene_render_ d' = Some mkPlanningSceneRender
              /\ planning_scene_robot_ d'
                 = Some (Robot_setVisible
                           (Robot_update (Robot_load (Robot_clear r) u)
                              (ps_current_state s))
                           (scene_robot_enabled_property_ (props d))))).
Proof.
  intros Hr edited.
  assert (Hrun : forall en, enabled_ (base d) = en ->
            run (op_edit (edit_robot_description v)) d
            = if en then reset edited else (Returns tt, edited)).
  { intros en <-. unfold run, edit, changedRobotDescription, isEnabled, edited.
    unfold bind, modify, get, ret. destruct d as [[nm en st ff cx] p r0 nd g mo re t nr tr].
    simpl. destruct en; reflexivity. }
  assert (Hr' : planning_scene_robot_ edited = Some r) by (destruct d; exact Hr).
  split; intros Hen.
  - split; [exact (Hrun false Hen)|].
    intros g n s k u Hg Hn Hm Hc Hu.
    pose (en := set_base (set_enabled_ true) edited).
    destruct (onEnable_success en r g n s k u) as (d' & Hd' & _ & Hmon & Hre).
    + destruct d; exact Hr.
    + destruct d; exact Hg.
    + destruct d; exact Hn.
    + destruct d as [[nm e st ff cx] p r0 nd g0 mo re t nr tr]; exact Hm.
    + exact Hc.
    + exact Hu.
    + eexists d', _. split; [|split; [exact Hmon|split; [reflexivity|split;
        [reflexivity|exact Hre]]]].
      unfold run_all. unfold bind at 1. rewrite (Hrun false Hen).
      unfold bind at 1. change (run (op_setEnabled true) edited) with (onEnable en).
      rewrite Hd'. reflexivity.
  - rewrite (Hrun true Hen). split.
    + intros Hc. destruct (reset_failure edited r Hr' Hc) as (d' & Hd' & Hp & Hm & Hre & Hro).
      exists d'. rewrite Hp. destruct d; simpl in *. auto.
    + intros s k u Hm Hc Hu.
      destruct (reset_success edited r s k u Hr' Hm Hc Hu)
        as (d' & m & Hd' & H1 & H2 & H3 & H4 & H5 & H6 & H7 & H8 & H9).
      exists d', m. rewrite H1. destruct d; simpl in *. tauto.
Qed.

Lemma robot_description_edit_reloads_only_when_enabled_witness :
  exists d' m,
    run (op_edit (edit_robot_description "other_robot")) (Example.loaded false)
    = (Returns tt, d')
    /\ robot_description_property_ (props d') = "other_robot"
    /\ planning_scene_monitor_ d' = Some m
    /\ psm_planning_scene m = Some Example.scene.
Proof.
  destruct (planning_scene_robot_ (Example.loaded false)) as [r|] eqn:Er;
    [|discriminate Er].
  destruct (robot_description_edit_reloads_only_when_enabled
              (Example.loaded false) r "other_robot" Er) as [_ H].
  destruct (H eq_refl) as [_ H'].
  destruct (H' Example.scene Example.model
              (mkURDF ["base_link"; "shoulder"; "elbow"])
              eq_refl eq_refl eq_refl)
    as (d' & m & H1 & H2 & _ & _ & H3 & H4 & _).
  exists d', m. auto.
Defined.
